(** * Image Map (Loom View): shape editor, geometry kernel, navigation

    A shallow embedding of [src/main.ts].  JavaScript numbers are read as
    real numbers (no rounding, no NaN); arrays are lists in array order, so
    that [push] appends at the end and [pop] removes the last element;
    optional fields ([points?], [top?], ...) are [option]s; string ids, names
    and paths are [string]s. *)

From Stdlib Require Import Reals Lra Lia String Ascii Bool Arith List.
Import ListNotations.

Open Scope R_scope.

(** ** Geometry kernel *)

Module Geometry.

(** [[number, number]] *)
Definition Point : Type := (R * R)%type.

(** [points.reduce((s, p) => s + p[0], 0)] and its [p[1]] twin. *)
Definition sumX (points : list Point) : R :=
  fold_left (fun s p => s + fst p) points 0.

Definition sumY (points : list Point) : R :=
  fold_left (fun s p => s + snd p) points 0.

(** [centroid(points)] *)
Definition centroid (points : list Point) : Point :=
  let n := length points in
  if Nat.eqb n 0 then (50, 50)
  else (sumX points / INR n, sumY points / INR n).

(** [Math.max(0, Math.min(100, x))] *)
Definition clamp (x : R) : R := Rmax 0 (Rmin 100 x).

(** [p => [...p]]: a fresh pair with the same two coordinates. *)
Definition copyPoint (p : Point) : Point := (fst p, snd p).

(** [points.map(p => [...p])] *)
Definition snapshot (points : list Point) : list Point := map copyPoint points.

(** [array.map((p, i) => f(p, i))] *)
Fixpoint mapi_from {A B : Type} (f : A -> nat -> B) (i : nat) (l : list A) : list B :=
  match l with
  | [] => []
  | x :: t => f x i :: mapi_from f (S i) t
  end.

Definition mapi {A B : Type} (f : A -> nat -> B) (l : list A) : list B :=
  mapi_from f 0%nat l.

Section Path.

(** How a number is written inside a template literal ([${x}]). *)
Variable numToString : R -> string.

Local Open Scope string_scope.

(** [`${p[0]},${p[1]}`] *)
Definition fmtPoint (p : Point) : string :=
  numToString (fst p) ++ "," ++ numToString (snd p).

Definition tension : R := 35 / 100.

(** [points[k]] for an index that is in range (it always is: every index
    below is reduced modulo [n]). *)
Definition at_ (points : list Point) (k : nat) : Point := nth k points (0, 0).

(** One turn of the loop body: the text appended to [d] at index [i]. *)
Definition curveSegment (points : list Point) (n i : nat) : string :=
  let p0 := at_ points ((i + n - 1) mod n) in
  let p1 := at_ points i in
  let p2 := at_ points ((i + 1) mod n) in
  let p3 := at_ points ((i + 2) mod n) in
  let cp1x := fst p1 + (fst p2 - fst p0) * tension in
  let cp1y := snd p1 + (snd p2 - snd p0) * tension in
  let cp2x := fst p2 - (fst p3 - fst p1) * tension in
  let cp2y := snd p2 - (snd p3 - snd p1) * tension in
  " C " ++ numToString cp1x ++ "," ++ numToString cp1y
    ++ " " ++ numToString cp2x ++ "," ++ numToString cp2y
    ++ " " ++ numToString (fst p2) ++ "," ++ numToString (snd p2).

(** [smoothClosedPath(points)] *)
Definition smoothClosedPath (points : list Point) : string :=
  let n := length points in
  if Nat.ltb n 3 then
    String.concat " "
      (mapi (fun p i => if Nat.eqb i 0 then "M " ++ fmtPoint p else "L " ++ fmtPoint p)
            points)
    ++ " Z"
  else
    let d := "M " ++ numToString (fst (at_ points 0)) ++ "," ++ numToString (snd (at_ points 0)) in
    let d := fold_left (fun d i => d ++ curveSegment points n i) (seq 0 n) d in
    d ++ " Z".

(** The drawing commands of an SVG path, and how they are written. *)
Inductive PathCmd : Type :=
| MoveTo (p : Point)
| LineTo (p : Point)
| CurveTo (c1 c2 p : Point)
| ClosePath.

Definition renderCmd (c : PathCmd) : string :=
  match c with
  | MoveTo p => "M " ++ fmtPoint p
  | LineTo p => "L " ++ fmtPoint p
  | CurveTo c1 c2 p => "C " ++ fmtPoint c1 ++ " " ++ fmtPoint c2 ++ " " ++ fmtPoint p
  | ClosePath => "Z"
  end.

Definition renderPath (cmds : list PathCmd) : string :=
  String.concat " " (map renderCmd cmds).

End Path.

(** The pen of an SVG path: where the current subpath started and where the
    pen is now.  [Z] draws back to the start of the subpath. *)
Definition penStep (st : option (Point * Point)) (c : PathCmd) : option (Point * Point) :=
  match c, st with
  | MoveTo p, _ => Some (p, p)
  | LineTo p, Some (start, _) => Some (start, p)
  | CurveTo _ _ p, Some (start, _) => Some (start, p)
  | ClosePath, Some (start, _) => Some (start, start)
  | _, None => None
  end.

Definition penAfter (cmds : list PathCmd) : option Point :=
  option_map snd (fold_left penStep cmds None).

(** The control points of the cubic segment drawn at index [i]. *)
Definition curveCmd (points : list Point) (n i : nat) : PathCmd :=
  let p0 := at_ points ((i + n - 1) mod n) in
  let p1 := at_ points i in
  let p2 := at_ points ((i + 1) mod n) in
  let p3 := at_ points ((i + 2) mod n) in
  CurveTo (fst p1 + (fst p2 - fst p0) * tension, snd p1 + (snd p2 - snd p0) * tension)
          (fst p2 - (fst p3 - fst p1) * tension, snd p2 - (snd p3 - snd p1) * tension)
          (fst p2, snd p2).

(** The commands [smoothClosedPath] writes, one per piece of text it
    appends. *)
Definition pathCommands (points : list Point) : list PathCmd :=
  let n := length points in
  if Nat.ltb n 3 then
    mapi (fun p i => if Nat.eqb i 0 then MoveTo p else LineTo p) points ++ [ClosePath]
  else
    MoveTo (fst (at_ points 0), snd (at_ points 0))
      :: map (curveCmd points n) (seq 0 n) ++ [ClosePath].

End Geometry.

(** ** Data model: hotspots, profiles, settings *)

Export Geometry.

Inductive ShapeType : Type := Rect | Ellipse | Triangle.

Module Hotspot.
Record t : Type := mk {
  id : string;
  name : string;
  path : string;
  top : option string;
  left : option string;
  width : option string;
  height : option string;
  points : option (list Point);
  shapeType : option ShapeType
}.

(** [hotspot.points = pts] *)
Definition setPoints (pts : list Point) (h : t) : t :=
  mk (id h) (name h) (path h) (top h) (left h) (width h) (height h)
     (Some pts) (shapeType h).
End Hotspot.

Module Profile.
Record t : Type := mk {
  id : string;
  name : string;
  imagePath : string;
  hotspots : list Hotspot.t
}.

Definition setHotspots (hs : list Hotspot.t) (p : t) : t :=
  mk (id p) (name p) (imagePath p) hs.
End Profile.

Inductive DisplayLabelType : Type := LabelName | LabelPath | LabelBoth.

Record LoomViewSettings : Type := mkSettings {
  displayLabelType : DisplayLabelType;
  roomImagePath : option string;
  legacyHotspots : option (list Hotspot.t);   (* the deprecated [hotspots?] field *)
  profiles : list Profile.t;
  activeProfileId : string
}.

Definition DEFAULT_SETTINGS : LoomViewSettings :=
  mkSettings LabelPath None None [] EmptyString.

(** *** Arrays *)

(** [array[i] = f(array[i])] on an object held in an array: the element at
    [i] is changed in place; no element is there when [i] is out of range. *)
Fixpoint updateAt {A : Type} (i : nat) (f : A -> A) (l : list A) : list A :=
  match l, i with
  | [], _ => []
  | x :: t, O => f x :: t
  | x :: t, S j => x :: updateAt j f t
  end.

(** [array[i] = v] for [i < array.length] (every index used below comes from
    a [forEach] over the same array, so it is in range; beyond the length
    JavaScript would grow the array, which never happens here and is left
    out: the list is returned as it is). *)
Definition assignAt {A : Type} (i : nat) (v : A) (l : list A) : list A :=
  updateAt i (fun _ => v) l.

(** [array.findIndex(pred)], [None] for [-1]. *)
Fixpoint findIndex {A : Type} (pred : A -> bool) (l : list A) : option nat :=
  match l with
  | [] => None
  | x :: t => if pred x then Some O else option_map S (findIndex pred t)
  end.

(** [array.splice(i, 1)] *)
Fixpoint removeAt {A : Type} (i : nat) (l : list A) : list A :=
  match l, i with
  | [], _ => []
  | _ :: t, O => t
  | x :: t, S j => x :: removeAt j t
  end.

(** ** The view and its editor state *)

Module Editor.

(** What the program does to the outside, in order. *)
Inductive Effect : Type :=
| SaveSettings (s : LoomViewSettings)   (* [this.plugin.saveSettings()] *)
| Notice (msg : string)                 (* [new Notice(msg)] *)
| RenderRoom                            (* [this.renderRoom()] *)
| AddKeydownListener (currentProfile : nat).
    (* [document.addEventListener("keydown", edgeEditKeyHandler)], the
       handler being the one whose closure holds the profile object
       [currentProfile] *)

(** The fields of the view that the handlers below read or write (the
    fields [draggedPoint] and [sortType] are used by none of them), the
    settings of the plugin, and the effects so far. *)
Record LoomView : Type := mkView {
  isEditMode : bool;
  selectedHotspotId : option string;
  drawingShapeType : option ShapeType;
  editingEdgesHotspotId : option string;
  undoStack : list (list Point);
  settings : LoomViewSettings;          (* [this.plugin.settings] *)
  effects : list Effect
}.

Definition initialView (s : LoomViewSettings) : LoomView :=
  mkView false None None None [] s [].

Definition setEditMode (b : bool) (v : LoomView) : LoomView :=
  mkView b (selectedHotspotId v) (drawingShapeType v) (editingEdgesHotspotId v)
         (undoStack v) (settings v) (effects v).

Definition setSelected (o : option string) (v : LoomView) : LoomView :=
  mkView (isEditMode v) o (drawingShapeType v) (editingEdgesHotspotId v)
         (undoStack v) (settings v) (effects v).

Definition setDrawing (o : option ShapeType) (v : LoomView) : LoomView :=
  mkView (isEditMode v) (selectedHotspotId v) o (editingEdgesHotspotId v)
         (undoStack v) (settings v) (effects v).

Definition setEditingEdges (o : option string) (v : LoomView) : LoomView :=
  mkView (isEditMode v) (selectedHotspotId v) (drawingShapeType v) o
         (undoStack v) (settings v) (effects v).

Definition setUndoStack (st : list (list Point)) (v : LoomView) : LoomView :=
  mkView (isEditMode v) (selectedHotspotId v) (drawingShapeType v)
         (editingEdgesHotspotId v) st (settings v) (effects v).

Definition setSettings (s : LoomViewSettings) (v : LoomView) : LoomView :=
  mkView (isEditMode v) (selectedHotspotId v) (drawingShapeType v)
         (editingEdgesHotspotId v) (undoStack v) s (effects v).

Definition emit (e : Effect) (v : LoomView) : LoomView :=
  mkView (isEditMode v) (selectedHotspotId v) (drawingShapeType v)
         (editingEdgesHotspotId v) (undoStack v) (settings v) (effects v ++ [e]).

(** [this.plugin.saveSettings()]: the settings as they are now are handed to
    the host. *)
Definition saveSettings (v : LoomView) : LoomView := emit (SaveSettings (settings v)) v.

Definition notice (msg : string) (v : LoomView) : LoomView := emit (Notice msg) v.

Definition setActiveProfileId (i : string) (s : LoomViewSettings) : LoomViewSettings :=
  mkSettings (displayLabelType s) (roomImagePath s) (legacyHotspots s) (profiles s) i.

Definition setProfiles (ps : list Profile.t) (s : LoomViewSettings) : LoomViewSettings :=
  mkSettings (displayLabelType s) (roomImagePath s) (legacyHotspots s) ps (activeProfileId s).

(** A string or [null] used as a condition: the empty string counts as
    false. *)
Definition truthy (s : option string) : bool :=
  match s with
  | Some s => negb (String.eqb s EmptyString)
  | None => false
  end.

(** [getCurrentProfile()]: the profile object it returns is named by its
    position in [settings.profiles]. *)
Definition getCurrentProfile (v : LoomView) : LoomView * option nat :=
  let v1 :=
    match profiles (settings v) with
    | p0 :: _ =>
        if String.eqb (activeProfileId (settings v)) EmptyString
        then saveSettings (setSettings (setActiveProfileId (Profile.id p0) (settings v)) v)
        else v
    | [] => v
    end in
  (v1, findIndex (fun p => String.eqb (Profile.id p) (activeProfileId (settings v1)))
                 (profiles (settings v1))).

(** [renderRoom()], as far as the state goes: the page is rebuilt from the
    state, [getCurrentProfile] is asked for the profile to show and, when
    there is one and the view is in edit mode with a hotspot named for edge
    editing, one more [edgeEditKeyHandler] is added to the "keydown"
    listeners of the document.  (The callback given to [this.register]
    removes it when the view is unloaded, not before.) *)
Definition renderRoom (v : LoomView) : LoomView :=
  let '(v1, currentProfile) := getCurrentProfile (emit RenderRoom v) in
  match currentProfile with
  | None => v1
  | Some cur =>
      if isEditMode v1 && truthy (editingEdgesHotspotId v1)
      then emit (AddKeydownListener cur) v1
      else v1
  end.

(** The hotspot objects of the profile object [cur]. *)
Definition hotspotsOf (cur : nat) (v : LoomView) : list Hotspot.t :=
  match nth_error (profiles (settings v)) cur with
  | Some p => Profile.hotspots p
  | None => []
  end.

Definition getHotspot (cur hi : nat) (v : LoomView) : option Hotspot.t :=
  nth_error (hotspotsOf cur v) hi.

(** A change of [currentProfile.hotspots], where [currentProfile] is the
    profile object [cur]. *)
Definition setHotspotsOf (cur : nat) (f : list Hotspot.t -> list Hotspot.t)
    (v : LoomView) : LoomView :=
  setSettings
    (setProfiles (updateAt cur (fun p => Profile.setHotspots (f (Profile.hotspots p)) p)
                           (profiles (settings v)))
                 (settings v))
    v.

(** [hotspot.points = pts] on the hotspot object [hi] of profile [cur]. *)
Definition setPointsOf (cur hi : nat) (pts : list Point) (v : LoomView) : LoomView :=
  setHotspotsOf cur (updateAt hi (Hotspot.setPoints pts)) v.

(** *** Pointer events and pixel to percentage conversion *)

Record MouseEvent : Type := mkMouse { button : nat; clientX : R; clientY : R }.

Record DOMRect : Type := mkRect { left : R; top : R; width : R; height : R }.

Definition right (r : DOMRect) : R := left r + width r.
Definition bottom (r : DOMRect) : R := top r + height r.

Definition Rltb (a b : R) : bool := if Rlt_dec a b then true else false.

(** [((e.clientX - rect.left) / rect.width) * 100]; the image on screen has
    a positive width and height. *)
Definition percentX (e : MouseEvent) (r : DOMRect) : R :=
  ((clientX e - left r) / width r) * 100.

Definition percentY (e : MouseEvent) (r : DOMRect) : R :=
  ((clientY e - top r) / height r) * 100.

(** *** The edit-mode button and the shape tools *)

(** [editModeBtn.onclick] *)
Definition editModeBtn_onclick (v : LoomView) : LoomView :=
  let v1 := if isEditMode v then notice "Layout saved!" (saveSettings v) else v in
  let v2 := setEditMode (negb (isEditMode v1)) v1 in
  let v3 := setSelected None v2 in
  let v4 := setDrawing None v3 in
  renderRoom v4.



(** *** Drawing a new shape *)

Inductive PreviewEl : Type := PreviewRect | PreviewEllipse | PreviewPolygon.

(** The variables the drawing handlers of one render share. *)
Record DrawState : Type := mkDraw {
  drawStartX : R;
  drawStartY : R;
  previewShape : option PreviewEl;
  isDragging : bool
}.

Definition drawIdle : DrawState := mkDraw 0 0 None false.

Definition previewFor (shapeType : ShapeType) : PreviewEl :=
  match shapeType with
  | Rect => PreviewRect
  | Ellipse => PreviewEllipse
  | Triangle => PreviewPolygon
  end.

(** [imageContainer.onmousedown] *)
Definition imageContainer_onmousedown (shapeType : ShapeType) (e : MouseEvent)
    (imgRect : DOMRect) (ds : DrawState) : DrawState :=
  if negb (Nat.eqb (button e) 0) then ds
  else if Rltb (clientX e) (left imgRect) || Rltb (right imgRect) (clientX e)
          || Rltb (clientY e) (top imgRect) || Rltb (bottom imgRect) (clientY e)
  then ds
  else mkDraw (percentX e imgRect) (percentY e imgRect) (Some (previewFor shapeType)) true.

Definition segments : nat := 8.

(** The loop that approximates the ellipse with [segments] control points. *)
Definition ellipsePoints (minX minY w h : R) : list Point :=
  let cx := minX + w / 2 in
  let cy := minY + h / 2 in
  let rx := w / 2 in
  let ry := h / 2 in
  map (fun i : nat =>
         let angle := (2 * PI * INR i) / INR segments in
         (cx + rx * cos angle, cy + ry * sin angle))
      (seq 0 segments).

(** "Build points": the vertex list of the new hotspot. *)
Definition seedPoints (shapeType : ShapeType) (minX minY maxX maxY : R) : list Point :=
  let w := maxX - minX in
  let h := maxY - minY in
  match shapeType with
  | Rect => [(minX, minY); (maxX, minY); (maxX, maxY); (minX, maxY)]
  | Ellipse => ellipsePoints minX minY w h
  | Triangle => [(minX + w / 2, minY); (minX, maxY); (maxX, maxY)]
  end.

(** The drag rectangle between two corners, [(minX, minY, maxX, maxY)]. *)
Definition dragRect (startX startY curX curY : R) : R * R * R * R :=
  (Rmin startX curX, Rmin startY curY, Rmax startX curX, Rmax startY curY).

(** The seed of a drag from [(startX, startY)] to [(curX, curY)]. *)
Definition seedOfDrag (shapeType : ShapeType) (startX startY curX curY : R) : list Point :=
  let '(minX, minY, maxX, maxY) := dragRect startX startY curX curY in
  seedPoints shapeType minX minY maxX maxY.

Definition newHotspot (now : string) (points : list Point) (shapeType : ShapeType)
    : Hotspot.t :=
  Hotspot.mk now EmptyString EmptyString None None None None (Some points) (Some shapeType).

(** [onDrawUp]; [now] is [Date.now().toString()] and [cur] the profile
    object the render had in [currentProfile]. *)
Definition onDrawUp (shapeType : ShapeType) (cur : nat) (now : string)
    (e : MouseEvent) (imgRect : DOMRect) (ds : DrawState) (v : LoomView)
    : DrawState * LoomView :=
  match isDragging ds, previewShape ds with
  | true, Some preview =>
      let curX := clamp (percentX e imgRect) in
      let curY := clamp (percentY e imgRect) in
      let '(minX, minY, maxX, maxY) := dragRect (drawStartX ds) (drawStartY ds) curX curY in
      let w := maxX - minX in
      let h := maxY - minY in
      if Rltb w 2 && Rltb h 2 then
        (mkDraw (drawStartX ds) (drawStartY ds) None false, v)
      else
        let points := seedPoints shapeType minX minY maxX maxY in
        let hotspot := newHotspot now points shapeType in
        let v1 := setHotspotsOf cur (fun hs => hs ++ [hotspot]) v in
        let v2 := setSelected (Some (Hotspot.id hotspot)) v1 in
        let v3 := setEditingEdges (Some (Hotspot.id hotspot)) v2 in
        let v4 := setDrawing None v3 in
        let v5 := setUndoStack [snapshot points] v4 in
        let v6 := saveSettings v5 in
        (mkDraw (drawStartX ds) (drawStartY ds) (Some preview) false, renderRoom v6)
  | _, _ => (ds, v)
  end.

(** *** Edge editing *)

Record KeyboardEvent : Type := mkKey { key : string; ctrlKey : bool; metaKey : bool }.

Definition hasId (i : option string) (h : Hotspot.t) : bool :=
  match i with
  | Some s => String.eqb (Hotspot.id h) s
  | None => false
  end.

(** Delete the shape: [findIndex] then [splice(idx, 1)] when [idx >= 0]. *)
Definition deleteById (i : option string) (hs : list Hotspot.t) : list Hotspot.t :=
  match findIndex (hasId i) hs with
  | Some idx => removeAt idx hs
  | None => hs
  end.

(** [edgeEditKeyHandler] *)
Definition edgeEditKeyHandler (cur : nat) (e : KeyboardEvent) (v : LoomView) : LoomView :=
  if negb (truthy (editingEdgesHotspotId v)) then v
  else
      match findIndex (hasId (editingEdgesHotspotId v)) (hotspotsOf cur v) with
      | None => v
      | Some hi =>
          match option_map Hotspot.points (getHotspot cur hi v) with
          | Some (Some _) =>
              if String.eqb (key e) "z" && (ctrlKey e || metaKey e) then
                if Nat.ltb 1 (length (undoStack v)) then
                  let v1 := setUndoStack (removelast (undoStack v)) v in
                  let prev := last (undoStack v1) [] in
                  let v2 := setPointsOf cur hi (snapshot prev) v1 in
                  notice "Undo!" (renderRoom v2)
                else notice "Nothing to undo" v
              else if String.eqb (key e) "Escape" then
                let v1 := setHotspotsOf cur (deleteById (editingEdgesHotspotId v)) v in
                let v2 := setEditingEdges None v1 in
                let v3 := setSelected None v2 in
                let v4 := setUndoStack [] v3 in
                notice "Shape deleted" (renderRoom (saveSettings v4))
              else v
          | _ => v
          end
      end.

(** The "keydown" listeners the document holds: one for every
    [addEventListener] so far, in the order they were added (two renders
    make two handler objects, so no call is ignored as a duplicate), each
    named by the profile object its closure holds. *)
Fixpoint keydownListeners (es : list Effect) : list nat :=
  match es with
  | [] => []
  | AddKeydownListener cur :: rest => cur :: keydownListeners rest
  | _ :: rest => keydownListeners rest
  end.

(** One key press on the document: every listener that is there when the
    event is dispatched runs, in order; a listener added by a render during
    the dispatch runs from the next key press on. *)
Definition document_onkeydown (e : KeyboardEvent) (v : LoomView) : LoomView :=
  fold_left (fun w cur => edgeEditKeyHandler cur e w) (keydownListeners (effects v)) v.

(** The "Edit Edges" entry of the context menu of hotspot [hi]. *)
Definition editEdges_onclick (cur hi : nat) (v : LoomView) : LoomView :=
  match getHotspot cur hi v with
  | None => v
  | Some hotspot =>
      let v1 := setEditingEdges (Some (Hotspot.id hotspot)) v in
      let v2 := setSelected (Some (Hotspot.id hotspot)) v1 in
      let v3 := setUndoStack
                  (match Hotspot.points hotspot with
                   | Some pts => [snapshot pts]
                   | None => []
                   end) v2 in
      renderRoom v3
  end.

(** [handle.onmousedown]: the snapshot for undo.  [None] stands for the
    exception [hotspot.points!] raises on a hotspot without points. *)
Definition handle_onmousedown (cur hi : nat) (v : LoomView) : option LoomView :=
  match option_map Hotspot.points (getHotspot cur hi v) with
  | Some (Some pts) => Some (setUndoStack (undoStack v ++ [snapshot pts]) v)
  | _ => None
  end.

(** [onHandleMove] of the handle of vertex [idx] *)
Definition onHandleMove (cur hi idx : nat) (evt : MouseEvent) (rect : DOMRect)
    (v : LoomView) : LoomView :=
  let newX := clamp (percentX evt rect) in
  let newY := clamp (percentY evt rect) in
  match option_map Hotspot.points (getHotspot cur hi v) with
  | Some (Some pts) => setPointsOf cur hi (assignAt idx (newX, newY) pts) v
  | _ => v
  end.

(** [onHandleUp] *)
Definition onHandleUp (v : LoomView) : LoomView := saveSettings v.

(** What [shape.onmousedown] keeps for the moves that follow. *)
Record ShapeDrag : Type := mkShapeDrag {
  startX : R;
  startY : R;
  dragImgRect : DOMRect;
  origPts : list Point
}.

(** [shape.onmousedown] during edge editing *)
Definition shape_onmousedown (cur hi : nat) (e : MouseEvent) (rect : DOMRect)
    (v : LoomView) : option (ShapeDrag * LoomView) :=
  match option_map Hotspot.points (getHotspot cur hi v) with
  | Some (Some pts) =>
      Some (mkShapeDrag (clientX e) (clientY e) rect (snapshot pts),
            setUndoStack (undoStack v ++ [snapshot pts]) v)
  | _ => None
  end.

(** [onMove] of the whole-shape drag *)
Definition onMove (cur hi : nat) (sd : ShapeDrag) (evt : MouseEvent) (v : LoomView)
    : LoomView :=
  let dx := ((clientX evt - startX sd) / width (dragImgRect sd)) * 100 in
  let dy := ((clientY evt - startY sd) / height (dragImgRect sd)) * 100 in
  setPointsOf cur hi (map (fun p => (fst p + dx, snd p + dy)) (origPts sd)) v.

(** [onUp] of the whole-shape drag *)
Definition onUp (v : LoomView) : LoomView := renderRoom (saveSettings v).

(** [cancelBtn.onclick] of the hotspot object [hi] *)
Definition cancelBtn_onclick (cur hi : nat) (v : LoomView) : LoomView :=
  match getHotspot cur hi v with
  | None => v
  | Some hotspot =>
      let v1 := setHotspotsOf cur (deleteById (Some (Hotspot.id hotspot))) v in
      let v2 := setEditingEdges None v1 in
      let v3 := setSelected None v2 in
      let v4 := setUndoStack [] v3 in
      notice "Shape deleted" (renderRoom (saveSettings v4))
  end.

(** *** What a render makes of one hotspot *)

Inductive SvgShape : Type := SvgPath | SvgPolygon | SvgRect.

Inductive Interaction : Type :=
| EdgeHandles (handles : nat)   (* vertex handles, confirm and cancel, shape drag *)
| ContextMenu                   (* edit mode: click opens the action menu *)
| Navigate.                     (* view mode: click calls [showZoneFiles] *)

(** The body of [currentProfile.hotspots.forEach]: [None] is the early
    [return] for a hotspot with neither points nor [top]. *)
Definition renderHotspot (v : LoomView) (hotspot : Hotspot.t)
    : option (SvgShape * Interaction) :=
  let isEllipse :=
    match Hotspot.shapeType hotspot with Some Ellipse => true | _ => false end in
  let shape :=
    match Hotspot.points hotspot with
    | Some (_ :: _) => Some (if isEllipse then SvgPath else SvgPolygon)
    | _ => if truthy (Hotspot.top hotspot) then Some SvgRect else None
    end in
  match shape with
  | None => None
  | Some sh =>
      let isEdgeEditing := hasId (editingEdgesHotspotId v) hotspot in
      match isEdgeEditing, Hotspot.points hotspot with
      | true, Some pts => Some (sh, EdgeHandles (length pts))
      | _, _ => if isEditMode v then Some (sh, ContextMenu) else Some (sh, Navigate)
      end
  end.

(** Whether the render attaches [edgeEditKeyHandler]. *)
Definition attachesKeyHandler (v : LoomView) : bool :=
  isEditMode v && truthy (editingEdgesHotspotId v).

(** *** Drag gestures: press, moves, release *)

Inductive DragGesture : Type :=
| VertexDrag (idx : nat) (moves : list (MouseEvent * DOMRect))
| WholeShapeDrag (down : MouseEvent) (rect : DOMRect) (moves : list MouseEvent).

(** One gesture on the hotspot object [hi]: the mouse-down handler, the
    move handler once per move, the mouse-up handler. *)
Definition runGesture (cur hi : nat) (g : DragGesture) (v : LoomView) : option LoomView :=
  match g with
  | VertexDrag idx moves =>
      match handle_onmousedown cur hi v with
      | Some v1 =>
          Some (onHandleUp
                  (fold_left (fun v m => onHandleMove cur hi idx (fst m) (snd m) v) moves v1))
      | None => None
      end
  | WholeShapeDrag down rect moves =>
      match shape_onmousedown cur hi down rect v with
      | Some (sd, v1) => Some (onUp (fold_left (fun v m => onMove cur hi sd m v) moves v1))
      | None => None
      end
  end.

Fixpoint runGestures (cur hi : nat) (gs : list DragGesture) (v : LoomView)
    : option LoomView :=
  match gs with
  | [] => Some v
  | g :: rest =>
      match runGesture cur hi g v with
      | Some v1 => runGestures cur hi rest v1
      | None => None
      end
  end.

(** The undo request: Ctrl+Z. *)
Definition ctrlZ : KeyboardEvent := mkKey "z" true false.

Definition pointsOf (cur hi : nat) (v : LoomView) : option (list Point) :=
  match getHotspot cur hi v with
  | Some h => Hotspot.points h
  | None => None
  end.

End Editor.

(** ** Navigation from a hotspot *)

Module Navigation.

Local Open Scope string_scope.

(** What the vault knows at a path. *)
Inductive AbstractFile : Type :=
| TFile (path : string)
| TFolder (path : string).

(** [this.app.vault.getAbstractFileByPath] *)
Definition Vault : Type := string -> option AbstractFile.

(** The white space [trim] removes, for text in ASCII. *)
Definition isWhiteSpace (c : ascii) : bool :=
  let n := nat_of_ascii c in
  (Nat.eqb n 32 || Nat.eqb n 9 || Nat.eqb n 10 || Nat.eqb n 11 || Nat.eqb n 12
   || Nat.eqb n 13)%bool.

Fixpoint trimStart (s : string) : string :=
  match s with
  | String c t => if isWhiteSpace c then trimStart t else s
  | EmptyString => EmptyString
  end.

Fixpoint rev_string (s acc : string) : string :=
  match s with
  | String c t => rev_string t (String c acc)
  | EmptyString => acc
  end.

(** [s.trim()] *)
Definition trim (s : string) : string :=
  rev_string (trimStart (rev_string (trimStart s) EmptyString)) EmptyString.

(** [s.includes("#")] *)
Fixpoint includesChar (c : ascii) (s : string) : bool :=
  match s with
  | String d t => (Ascii.eqb c d || includesChar c t)%bool
  | EmptyString => false
  end.

(** [s.split("#")]: [(first, rest)] with [first] the text before the first
    separator and [rest] the other parts. *)
Fixpoint splitChar (c : ascii) (s : string) : string * list string :=
  match s with
  | EmptyString => (EmptyString, [])
  | String d t =>
      let '(first, rest) := splitChar c t in
      if Ascii.eqb c d then (EmptyString, first :: rest)
      else (String d first, rest)
  end.

(** [s.endsWith(suffix)] *)
Definition endsWith (suffix s : string) : bool :=
  let n := String.length s in
  let k := String.length suffix in
  (Nat.leb k n && String.eqb (substring (n - k) k s) suffix)%bool.

Inductive Outcome : Type :=
| NoLinkedFolder                                  (* the notice, nothing else *)
| OpenFile (file : string) (linkSubpath : string) (* [leaf.openFile], then the subpath *)
| FolderListing (folder : string)                 (* the panel with the folder's children *)
| PathNotFound (path : string).                   (* the panel with "Path not found" *)

(** The path and the [linkSubpath] after "Handle links with hash". *)
Definition splitLink (path : string) : string * string :=
  if includesChar "#" path then
    let '(first, rest) := splitChar "#" path in
    (first, "#" ++ nth 0 rest EmptyString)
  else (path, EmptyString).

(** [showZoneFiles(hotspot, currentPath)] up to the choice between opening a
    file, listing a folder and "Path not found". *)
Definition showZoneFiles (vault : Vault) (hotspot : Hotspot.t)
    (currentPath : option string) : Outcome :=
  let path :=
    match currentPath with
    | Some p => if String.eqb p EmptyString then Hotspot.path hotspot else p
    | None => Hotspot.path hotspot
    end in
  if (String.eqb path EmptyString || String.eqb (trim path) EmptyString)%bool
  then NoLinkedFolder
  else
    let '(path, linkSubpath) := splitLink path in
    let abstractFile := vault path in
    let abstractFile :=
      match abstractFile with
      | None =>
          if negb (endsWith ".md" path) then
            match vault (path ++ ".md") with
            | Some tryFile => Some tryFile
            | None => abstractFile
            end
          else abstractFile
      | Some _ => abstractFile
      end in
    match abstractFile with
    | Some (TFile f) => OpenFile f linkSubpath
    | _ =>
        match vault path with
        | Some (TFolder d) => FolderListing d
        | _ => PathNotFound path
        end
    end.

End Navigation.

(** ** Loading the persisted settings *)

Module Persistence.

Local Open Scope string_scope.

(** What [loadData()] gives back: the fields that were written, each of
    them possibly missing. *)
Record SavedData : Type := mkSaved {
  saved_displayLabelType : option DisplayLabelType;
  saved_roomImagePath : option string;
  saved_hotspots : option (list Hotspot.t);
  saved_profiles : option (list Profile.t);
  saved_activeProfileId : option string
}.

Definition orDefault {A : Type} (o : option A) (d : A) : A :=
  match o with Some x => x | None => d end.

(** [Object.assign({}, DEFAULT_SETTINGS, await this.loadData())] *)
Definition loadSettings (data : option SavedData) : LoomViewSettings :=
  match data with
  | None => DEFAULT_SETTINGS
  | Some d =>
      mkSettings
        (orDefault (saved_displayLabelType d) (displayLabelType DEFAULT_SETTINGS))
        (match saved_roomImagePath d with
         | Some x => Some x
         | None => roomImagePath DEFAULT_SETTINGS
         end)
        (match saved_hotspots d with
         | Some x => Some x
         | None => legacyHotspots DEFAULT_SETTINGS
         end)
        (orDefault (saved_profiles d) (profiles DEFAULT_SETTINGS))
        (orDefault (saved_activeProfileId d) (activeProfileId DEFAULT_SETTINGS))
  end.

(** The migration of [onload]: it returns the settings and whether they were
    saved. *)
Definition migrate (s : LoomViewSettings) : LoomViewSettings * bool :=
  match profiles s with
  | [] =>
      let oldHotspots := orDefault (legacyHotspots s) [] in
      let oldImage :=
        match roomImagePath s with
        | Some p => if String.eqb p EmptyString then "room-bg.png" else p
        | None => "room-bg.png"
        end in
      let defaultProfile := Profile.mk "default" "Default Room" oldImage oldHotspots in
      (mkSettings (displayLabelType s) (roomImagePath s) (legacyHotspots s)
                  (profiles s ++ [defaultProfile]) "default",
       true)
  | _ :: _ => (s, false)
  end.

(** [onload()], as far as the settings go. *)
Definition onload (data : option SavedData) : LoomViewSettings :=
  fst (migrate (loadSettings data)).

(** Every hotspot of every profile of the store. *)
Definition allHotspots (s : LoomViewSettings) : list Hotspot.t :=
  flat_map Profile.hotspots (profiles s).

End Persistence.

(** ** The vocabulary of the specification *)

Module Spec.

(** The sum of a list of numbers. *)
Fixpoint total (xs : list R) : R :=
  match xs with
  | [] => 0
  | x :: t => x + total t
  end.

(** The arithmetic mean of a list of numbers. *)
Definition mean (xs : list R) : R := total xs / INR (length xs).

(** A percentage inside the image. *)
Definition inRange (x : R) : Prop := 0 <= x <= 100.

Definition pointInRange (p : Point) : Prop := inRange (fst p) /\ inRange (snd p).

(** The point of the ellipse with center [(cx, cy)] and half-extents
    [(rx, ry)] at the angle [2*pi*i/8]. *)
Definition ellipseAt (cx cy rx ry : R) (i : nat) : Point :=
  (cx + rx * cos (2 * PI * INR i / 8), cy + ry * sin (2 * PI * INR i / 8)).

(** An edge-editing session on the hotspot object [hi] of profile [cur]:
    the view names a hotspot for edge editing, that name finds [hi], and
    [hi] has a vertex list. *)
Definition InSession (cur hi : nat) (v : Editor.LoomView) : Prop :=
  Editor.truthy (Editor.editingEdgesHotspotId v) = true
  /\ findIndex (Editor.hasId (Editor.editingEdgesHotspotId v)) (Editor.hotspotsOf cur v)
     = Some hi
  /\ exists pts, Editor.pointsOf cur hi v = Some pts.

(** A hotspot with at least three vertices. *)
Definition hasPolygon (h : Hotspot.t) : bool :=
  match Hotspot.points h with
  | Some pts => Nat.leb 3 (length pts)
  | None => false
  end.

(** A hotspot with a legacy rectangle: any of the four rectangle fields. *)
Definition hasLegacyRect (h : Hotspot.t) : bool :=
  (Editor.truthy (Hotspot.top h) || Editor.truthy (Hotspot.left h)
   || Editor.truthy (Hotspot.width h) || Editor.truthy (Hotspot.height h))%bool.

(** A hotspot with neither. *)
Definition corrupt (h : Hotspot.t) : bool :=
  (negb (hasPolygon h) && negb (hasLegacyRect h))%bool.

(** The hotspots that were persisted, in order: those of the persisted
    profiles, or, when no profile was persisted, the old hotspot list. *)
Definition persistedHotspots (data : option Persistence.SavedData) : list Hotspot.t :=
  match data with
  | None => []
  | Some d =>
      match Persistence.saved_profiles d with
      | Some (p :: ps) => flat_map Profile.hotspots (p :: ps)
      | _ => Persistence.orDefault (Persistence.saved_hotspots d) []
      end
  end.

(** A destination that is empty or white space only. *)
Definition blank (dest : string) : bool :=
  (String.eqb dest EmptyString || String.eqb (Navigation.trim dest) EmptyString)%bool.

End Spec.

Import Spec.

(** ** Sample stores and views *)

Module Examples.

Import Editor.

Local Open Scope string_scope.

Definition deskPoints : list Point := [(10, 10); (40, 10); (40, 40); (10, 40)].

(** A confirmed rectangle hotspot. *)
Definition desk : Hotspot.t :=
  Hotspot.mk "1700000000000" "Desk" "notes/desk" None None None None
             (Some deskPoints) (Some Rect).

(** A hotspot from before the polygon model: rectangle fields, no points. *)
Definition shelf : Hotspot.t :=
  Hotspot.mk "shelf" "Shelf" "books" (Some "10") (Some "20") (Some "30") (Some "15")
             None None.

(** A hotspot with neither points nor rectangle fields. *)
Definition ghost : Hotspot.t :=
  Hotspot.mk "ghost" "Ghost" "nowhere" None None None None None None.

Definition roomA (hs : list Hotspot.t) : Profile.t :=
  Profile.mk "room-a" "Room A" "bg.png" hs.

Definition store (hs : list Hotspot.t) : LoomViewSettings :=
  mkSettings LabelPath None None [roomA hs] "room-a".

(** Edit mode, nothing selected. *)
Definition editIdle (hs : list Hotspot.t) : LoomView :=
  mkView true None None None [] (store hs) [].

(** Edge editing on [desk], right after "Edit Edges". *)
Definition edgeEditing : LoomView :=
  mkView true (Some "1700000000000") None (Some "1700000000000") [deskPoints]
         (store [desk]) [].

(** Edge editing on [desk] after one vertex was dragged to (50,50). *)
Definition movedPoints : list Point := [(10, 10); (40, 10); (50, 50); (10, 40)].

Definition afterOneDrag : LoomView :=
  mkView true (Some "1700000000000") None (Some "1700000000000")
         [deskPoints; deskPoints]
         (store [Hotspot.setPoints movedPoints desk]) [].

(** The image on screen: 1000 by 1000 pixels at the origin. *)
Definition image : DOMRect := mkRect 0 0 1000 1000.

Definition pointer (x y : R) : MouseEvent := mkMouse 0 x y.

(** A rectangle tool armed in edit mode, and a drag in progress that started
    at (10,10). *)
Definition drawing : LoomView :=
  mkView true None (Some Rect) None [] (store []) [].

Definition dragFrom10 : DrawState := mkDraw 10 10 (Some PreviewRect) true.

(** [deskPoints] moved 70 to the right. *)
Definition shiftedPoints : list Point := [(80, 10); (110, 10); (110, 40); (80, 40)].

(** Persisted data with a hotspot that has neither points nor rectangle
    fields. *)
Definition savedWithGhost : Persistence.SavedData :=
  Persistence.mkSaved (Some LabelPath) None None (Some [roomA [desk; ghost]])
                      (Some "room-a").

(** A vault with the note [notes/desk.md] and the folder [books]. *)
Definition vault : Navigation.Vault :=
  fun p =>
    if String.eqb p "notes/desk.md" then Some (Navigation.TFile "notes/desk.md")
    else if String.eqb p "books" then Some (Navigation.TFolder "books")
    else None.

(** A hotspot whose destination is one space, and a vault with a note whose
    name is one space. *)
Definition spaceHotspot : Hotspot.t :=
  Hotspot.mk "1700000000002" "Blank" " " None None None None (Some deskPoints) (Some Rect).

Definition spaceVault : Navigation.Vault :=
  fun p => if String.eqb p " .md" then Some (Navigation.TFile " .md") else None.

(** "Edit Edges" chosen for [desk] in the idle edit mode. *)
Definition editEdgesOnDesk : LoomView := editEdges_onclick 0 0 (editIdle [desk]).

(** Four drags of vertex 2 of [desk], each a press, one move and the
    release: to (50,50), (60,60), (70,70) and (80,80). *)
Definition fourDrags : list DragGesture :=
  [VertexDrag 2 [(pointer 500 500, image)];
   VertexDrag 2 [(pointer 600 600, image)];
   VertexDrag 2 [(pointer 700 700, image)];
   VertexDrag 2 [(pointer 800 800, image)]].

(** [desk] with a heading in its destination. *)
Definition deskTop : Hotspot.t :=
  Hotspot.mk "1700000000003" "Desk top" "notes/desk#Top" None None None None
             (Some deskPoints) (Some Rect).

End Examples.

(** ** Labels *)

Module Labels.

Local Open Scope string_scope.

(** [s || placeholder] on strings. *)
Definition orText (s placeholder : string) : string :=
  if String.eqb s EmptyString then placeholder else s.

(** [s || placeholder] on an optional string field. *)
Definition orField (s : option string) (placeholder : string) : string :=
  match s with
  | Some x => orText x placeholder
  | None => placeholder
  end.

(** The three assignments to [labelText] in the render loop. *)
Definition labelText (display : DisplayLabelType) (hotspot : Hotspot.t) : string :=
  let labelText := orText (Hotspot.name hotspot) "(unnamed)" in
  let labelText :=
    match display with
    | LabelPath => orText (Hotspot.path hotspot) "(no path)"
    | _ => labelText
    end in
  match display with
  | LabelBoth =>
      orText (Hotspot.name hotspot) "?" ++ " (" ++ orText (Hotspot.path hotspot) "?" ++ ")"
  | _ => labelText
  end.

Section Anchor.

(** [parseFloat] of the host. *)
Variable parseFloat : string -> R.

(** [labelX, labelY]: where the label of a hotspot is put, in percent. *)
Definition labelAnchor (hotspot : Hotspot.t) : Point :=
  match Hotspot.points hotspot with
  | Some (p :: rest) => centroid (p :: rest)
  | _ =>
      if Editor.truthy (Hotspot.top hotspot) then
        (parseFloat (orField (Hotspot.left hotspot) "0")
           + parseFloat (orField (Hotspot.width hotspot) "0") / 2,
         parseFloat (orField (Hotspot.top hotspot) "0")
           + parseFloat (orField (Hotspot.height hotspot) "0") / 2)
      else (50, 50)
  end.

End Anchor.

End Labels.

(** ** Confirming, naming, editing and deleting a region *)

Module Dialogs.

Import Editor.

Local Open Scope string_scope.

(** The double quote character. *)
Definition quote : string := String (Ascii.ascii_of_nat 34) EmptyString.

(** [hotspot.name = n; hotspot.path = p] *)
Definition setNamePath (n p : string) (h : Hotspot.t) : Hotspot.t :=
  Hotspot.mk (Hotspot.id h) n p (Hotspot.top h) (Hotspot.left h) (Hotspot.width h)
             (Hotspot.height h) (Hotspot.points h) (Hotspot.shapeType h).

(** [!s || s.trim() === ""] *)
Definition isBlank (s : string) : bool :=
  (String.eqb s EmptyString || String.eqb (Navigation.trim s) EmptyString)%bool.

(** [confirmBtn.onclick] of the hotspot object [hi]; the second component
    tells whether [showNewRegionModal] is called. *)
Definition confirmBtn_onclick (cur hi : nat) (v : LoomView) : LoomView * bool :=
  match getHotspot cur hi v with
  | None => (v, false)
  | Some hotspot =>
      let v1 := setEditingEdges None v in
      let v2 := setUndoStack [] v1 in
      if isBlank (Hotspot.name hotspot) then (v2, true)
      else (renderRoom (saveSettings v2), false)
  end.

(** [saveBtn.onclick] of the modal "Name This Region", opened for the
    hotspot object [hi]; the second component tells whether the modal is
    closed. *)
Definition newRegion_save (cur hi : nat) (nameInput pathInput : string) (v : LoomView)
    : LoomView * bool :=
  let name := Navigation.trim nameInput in
  if String.eqb name EmptyString then (notice "Please enter a region name!" v, false)
  else
    match getHotspot cur hi v with
    | None => (v, false)
    | Some hotspot =>
        let v1 := setHotspotsOf cur
                    (updateAt hi (setNamePath name (Navigation.trim pathInput))) v in
        let v2 := setSelected (Some (Hotspot.id hotspot)) v1 in
        let v3 := setDrawing None v2 in
        let v4 := saveSettings v3 in
        (notice ("Region " ++ quote ++ name ++ quote ++ " created!") (renderRoom v4), true)
    end.

(** [cancelBtn.onclick] of the modal "Name This Region". *)
Definition newRegion_cancel (cur hi : nat) (v : LoomView) : LoomView :=
  match getHotspot cur hi v with
  | None => v
  | Some hotspot =>
      let v1 := setHotspotsOf cur (deleteById (Some (Hotspot.id hotspot))) v in
      let v2 := setDrawing None v1 in
      let v3 := setSelected None v2 in
      renderRoom (saveSettings v3)
  end.

(** [saveBtn.onclick] of the modal "Edit Region". *)
Definition editHotspot_save (cur hi : nat) (nameInput pathInput : string) (v : LoomView)
    : LoomView * bool :=
  if String.eqb nameInput EmptyString then (v, false)
  else
    match getHotspot cur hi v with
    | None => (v, false)
    | Some _ =>
        let v1 := setHotspotsOf cur (updateAt hi (setNamePath nameInput pathInput)) v in
        let v2 := saveSettings v1 in
        let v3 := notice ("Region updated: " ++ nameInput) v2 in
        (renderRoom v3, true)
    end.


End Dialogs.

(** ** Profiles: the selector, the creation modal, the settings tab *)

Module Profiles.

Import Editor.

Local Open Scope string_scope.



(** The settings tab works on [this.plugin.settings]; each of its handlers
    ends with [saveSettings()] of the settings it leaves. *)




(** "Delete" of the profile object at [index] *)
Definition tab_deleteProfile (index : nat) (s : LoomViewSettings) : LoomViewSettings :=
  match nth_error (profiles s) index with
  | None => s
  | Some profile =>
      let s1 := setProfiles (removeAt index (profiles s)) s in
      if String.eqb (activeProfileId s1) (Profile.id profile) then
        setActiveProfileId
          (match profiles s1 with
           | p0 :: _ => Labels.orText (Profile.id p0) EmptyString
           | [] => EmptyString
           end) s1
      else s1
  end.


End Profiles.

(** ** The folder panel: going back *)

Module Browser.

Local Open Scope string_scope.

(** [s.split(c)] as the list of its parts. *)
Definition splitAll (c : ascii) (s : string) : list string :=
  let '(first, rest) := Navigation.splitChar c s in first :: rest.

(** The path [backItem.onclick] goes to: [split("/")], [pop()],
    [join("/")]. *)
Definition parentPath (path : string) : string :=
  String.concat "/" (removelast (splitAll "/" path)).

End Browser.

(** ** The vocabulary of the further properties *)

Module Frames.



(** The active profile id is set and the profile object [cur] is the one
    [getCurrentProfile] finds for it. *)
Definition currentIs (cur : nat) (v : Editor.LoomView) : Prop :=
  activeProfileId (Editor.settings v) <> EmptyString
  /\ findIndex (fun p => String.eqb (Profile.id p) (activeProfileId (Editor.settings v)))
               (profiles (Editor.settings v))
     = Some cur.

(** An edge-editing session on the hotspot [hi] of the current profile
    [cur], in edit mode. *)
Definition Editing (cur hi : nat) (v : Editor.LoomView) : Prop :=
  Spec.InSession cur hi v /\ currentIs cur v /\ Editor.isEditMode v = true.

End Frames.

Import Frames.

(** ** The steps of the program *)

Module Steps.

Import Editor.


(** A handler of the settings tab: the settings it leaves are saved. *)
Definition tabStep (f : LoomViewSettings -> LoomViewSettings) (v : LoomView) : LoomView :=
  saveSettings (setSettings (f (settings v)) v).




End Steps.

Import Steps.

(** * Properties *)

(** ** Geometry kernel *)

Lemma fold_left_plus_total (f : Point -> R) (points : list Point) (acc : R) :
  fold_left (fun s p => s + f p) points acc = acc + total (map f points).
Proof.
  revert acc.
  induction points as [|p t IH]; intros acc; simpl.
  - lra.
  - rewrite IH. lra.
Qed.

Lemma sumX_total (points : list Point) : sumX points = total (map fst points).
Proof. unfold sumX. rewrite (fold_left_plus_total fst). apply Rplus_0_l. Qed.

Lemma sumY_total (points : list Point) : sumY points = total (map snd points).
Proof. unfold sumY. rewrite (fold_left_plus_total snd). apply Rplus_0_l. Qed.

(** C7: the centroid of the empty vertex list is (50,50), and the centroid
    of a non-empty vertex list is the componentwise arithmetic mean of its
    vertices. *)
Theorem centroid_is_mean :
  centroid [] = (50, 50) /\
  forall (p : Point) (rest : list Point),
    centroid (p :: rest)
    = (mean (map fst (p :: rest)), mean (map snd (p :: rest))).
Proof.
  split.
  - reflexivity.
  - intros p rest.
    unfold centroid, mean.
    rewrite sumX_total, sumY_total, !length_map.
    reflexivity.
Qed.

(** *** Text of a path *)

Section PathText.

Variable numToString : R -> string.

Local Open Scope string_scope.

Lemma append_assoc (a b c : string) : (a ++ b) ++ c = a ++ (b ++ c).
Proof. induction a as [|x a IH]; simpl; [reflexivity | now rewrite IH]. Qed.

Lemma concat_cons_cons (sep x y : string) (l : list string) :
  String.concat sep (x :: y :: l) = x ++ sep ++ String.concat sep (y :: l).
Proof. reflexivity. Qed.

Lemma curveSegment_render (points : list Point) (n i : nat) :
  curveSegment numToString points n i
  = " " ++ renderCmd numToString (curveCmd points n i).
Proof.
  unfold curveSegment, curveCmd, renderCmd, fmtPoint; simpl.
  repeat rewrite append_assoc; simpl.
  reflexivity.
Qed.

(** The loop of [smoothClosedPath], started with [d] already written. *)
Lemma curve_loop_render (points : list Point) (n : nat) (idxs : list nat) (d : string) :
  fold_left (fun d i => d ++ curveSegment numToString points n i) idxs d ++ " Z"
  = d ++ " "
      ++ String.concat " "
           (map (renderCmd numToString) (map (curveCmd points n) idxs ++ [ClosePath])).
Proof.
  revert d.
  induction idxs as [|i idxs IH]; intros d.
  - reflexivity.
  - cbn [fold_left map app].
    rewrite IH, curveSegment_render.
    destruct (map (renderCmd numToString) (map (curveCmd points n) idxs ++ [ClosePath]))
      as [|y l] eqn:E.
    + destruct idxs; discriminate E.
    + rewrite concat_cons_cons.
      repeat rewrite append_assoc.
      reflexivity.
Qed.

Lemma smoothClosedPath_render (p : Point) (rest : list Point) :
  smoothClosedPath numToString (p :: rest)
  = renderPath numToString (pathCommands (p :: rest)).
Proof.
  unfold smoothClosedPath, pathCommands, renderPath.
  destruct (Nat.ltb (length (p :: rest)) 3) eqn:Hn.
  - destruct rest as [|q [|r more]]; [| | discriminate Hn];
      unfold mapi; cbn [mapi_from map app Nat.eqb String.concat renderCmd];
      repeat rewrite append_assoc; reflexivity.
  - rewrite curve_loop_render.
    cbn [map app].
    destruct (map (renderCmd numToString)
                  (map (curveCmd (p :: rest) (length (p :: rest)))
                       (seq 0 (length (p :: rest))) ++ [ClosePath])) as [|y l] eqn:E.
    + destruct (seq 0 (length (p :: rest))); discriminate E.
    + rewrite concat_cons_cons.
      unfold renderCmd at 1, fmtPoint, at_; cbn [nth fst snd].
      repeat rewrite append_assoc.
      reflexivity.
Qed.

End PathText.

Lemma pen_keeps_start (points : list Point) (n : nat) (idxs : list nat) (start cur : Point) :
  exists cur',
    fold_left penStep (map (curveCmd points n) idxs) (Some (start, cur))
    = Some (start, cur').
Proof.
  revert cur.
  induction idxs as [|i idxs IH]; intros cur; simpl.
  - now exists cur.
  - apply IH.
Qed.

Lemma pathCommands_one (p : Point) :
  pathCommands [p] = [MoveTo p; ClosePath].
Proof. reflexivity. Qed.

Lemma pathCommands_two (p q : Point) :
  pathCommands [p; q] = [MoveTo p; LineTo q; ClosePath].
Proof. reflexivity. Qed.

Lemma curveCmd_last (p : Point) (rest : list Point) :
  exists c1 c2 : Point,
    curveCmd (p :: rest) (length (p :: rest)) (length rest) = CurveTo c1 c2 p.
Proof.
  unfold curveCmd.
  replace ((length rest + 1) mod length (p :: rest))%nat with 0%nat.
  - unfold at_ at 3 4 6 7 9 10. cbn [nth].
    destruct p as [px py]. cbn [fst snd].
    eexists. eexists. reflexivity.
  - replace (length rest + 1)%nat with (length (p :: rest)) by (simpl; lia).
    symmetry. apply Nat.Div0.mod_same.
Qed.

Lemma pathCommands_three (p q r : Point) (more : list Point) :
  let pts := p :: q :: r :: more in
  pathCommands pts
  = MoveTo p
      :: map (curveCmd pts (length pts)) (seq 0 (length (q :: r :: more)))
      ++ [curveCmd pts (length pts) (length (q :: r :: more)); ClosePath].
Proof.
  intros pts.
  unfold pathCommands.
  replace (Nat.ltb (length pts) 3) with false by reflexivity.
  change (length pts) with (S (length (q :: r :: more))) at 2.
  rewrite seq_S, map_app, <- app_assoc.
  unfold at_. cbn [nth pts map app Nat.add].
  destruct p as [px py]. reflexivity.
Qed.

Lemma penAfter_pathCommands (p : Point) (rest : list Point) :
  penAfter (pathCommands (p :: rest)) = Some p.
Proof.
  destruct rest as [|q [|r more]]; [reflexivity | reflexivity |].
  rewrite pathCommands_three.
  destruct (curveCmd_last p (q :: r :: more)) as (c1 & c2 & E).
  rewrite E.
  unfold penAfter. cbn [fold_left penStep].
  rewrite fold_left_app.
  destruct (pen_keeps_start (p :: q :: r :: more) (length (p :: q :: r :: more))
              (seq 0 (length (q :: r :: more))) p p) as [cur' Hc].
  rewrite Hc. reflexivity.
Qed.

(** C8: for a vertex list with at least one vertex, the text
    [smoothClosedPath] returns is a closed path.  It is the text of a list
    of drawing commands that starts with the move to the first vertex and
    ends with the close command, and the pen ends where the move-to put
    it.  With three vertices or more the last drawn segment is a cubic
    curve that ends at the first vertex; with one or two vertices the path
    is the move-to, a straight line to the second vertex if there is one,
    and the close command. *)
Theorem smoothClosedPath_closed (numToString : R -> string) :
  (forall (p : Point) (rest : list Point),
      smoothClosedPath numToString (p :: rest)
      = renderPath numToString (pathCommands (p :: rest))
      /\ (exists body, pathCommands (p :: rest) = MoveTo p :: body ++ [ClosePath])
      /\ penAfter (pathCommands (p :: rest)) = Some p)
  /\ (forall (p q r : Point) (more : list Point),
         exists (body : list PathCmd) (c1 c2 : Point),
           pathCommands (p :: q :: r :: more)
           = MoveTo p :: body ++ [CurveTo c1 c2 p; ClosePath])
  /\ (forall p : Point, pathCommands [p] = [MoveTo p; ClosePath])
  /\ (forall p q : Point, pathCommands [p; q] = [MoveTo p; LineTo q; ClosePath]).
Proof.
  assert (H3 : forall (p q r : Point) (more : list Point),
             exists (body : list PathCmd) (c1 c2 : Point),
               pathCommands (p :: q :: r :: more)
               = MoveTo p :: body ++ [CurveTo c1 c2 p; ClosePath]).
  { intros p q r more.
    destruct (curveCmd_last p (q :: r :: more)) as (c1 & c2 & E).
    eexists. exists c1, c2.
    rewrite pathCommands_three, E. reflexivity. }
  split; [| split; [exact H3 | split; [exact pathCommands_one | exact pathCommands_two]]].
  intros p rest.
  split; [apply smoothClosedPath_render | split; [| apply penAfter_pathCommands]].
  destruct rest as [|q [|r more]].
  - exists []. reflexivity.
  - exists [LineTo q]. reflexivity.
  - destruct (H3 p q r more) as (body & c1 & c2 & E).
    exists (body ++ [CurveTo c1 c2 p]).
    rewrite E, <- app_assoc. reflexivity.
Qed.

(** ** Seed shapes *)

Import Editor.

(** C5: the rectangle seed of a drag between two corners has exactly four
    vertices, the corners of the normalized drag rectangle clockwise from
    the top-left one, and the drag in the opposite direction gives the same
    vertex list. *)
Theorem rect_seed_corners (sx sy ex ey : R) :
  seedOfDrag Rect sx sy ex ey
  = [ (Rmin sx ex, Rmin sy ey); (Rmax sx ex, Rmin sy ey);
      (Rmax sx ex, Rmax sy ey); (Rmin sx ex, Rmax sy ey) ]
  /\ length (seedOfDrag Rect sx sy ex ey) = 4%nat
  /\ seedOfDrag Rect ex ey sx sy = seedOfDrag Rect sx sy ex ey.
Proof.
  unfold seedOfDrag, dragRect, seedPoints.
  repeat split.
  rewrite (Rmin_comm ex sx), (Rmin_comm ey sy), (Rmax_comm ex sx), (Rmax_comm ey sy).
  reflexivity.
Qed.

Lemma INR_segments : INR segments = 8.
Proof. unfold segments. simpl. lra. Qed.

(** C6: the ellipse seed of a normalized drag rectangle has exactly eight
    vertices, and vertex [i] is the point of the ellipse inscribed in the
    rectangle (center the center of the rectangle, half-extents half its
    width and height) at the angle [2*pi*i/8]. *)
Theorem ellipse_seed_parametric (minX minY maxX maxY : R) :
  let cx := (minX + maxX) / 2 in
  let cy := (minY + maxY) / 2 in
  let rx := (maxX - minX) / 2 in
  let ry := (maxY - minY) / 2 in
  length (seedPoints Ellipse minX minY maxX maxY) = 8%nat
  /\ seedPoints Ellipse minX minY maxX maxY
     = map (ellipseAt cx cy rx ry) [0; 1; 2; 3; 4; 5; 6; 7]%nat.
Proof.
  intros cx cy rx ry.
  split; [reflexivity |].
  unfold seedPoints, ellipsePoints.
  change (seq 0 segments) with [0; 1; 2; 3; 4; 5; 6; 7]%nat.
  apply map_ext.
  intros i. unfold ellipseAt. rewrite INR_segments.
  f_equal; unfold cx, cy, rx, ry; lra.
Qed.

(** ** Arrays and the store *)

Lemma nth_error_updateAt_eq {A : Type} (f : A -> A) (l : list A) (i : nat) :
  nth_error (updateAt i f l) i = option_map f (nth_error l i).
Proof.
  revert i. induction l as [|x t IH]; intros [|i]; simpl; auto.
Qed.

Lemma nth_error_updateAt_ne {A : Type} (f : A -> A) (l : list A) (i j : nat) :
  i <> j -> nth_error (updateAt i f l) j = nth_error l j.
Proof.
  revert i j. induction l as [|x t IH]; intros [|i] [|j] H; simpl; auto.
  - contradiction.
Qed.

Lemma length_updateAt {A : Type} (f : A -> A) (l : list A) (i : nat) :
  length (updateAt i f l) = length l.
Proof.
  revert i. induction l as [|x t IH]; intros [|i]; simpl; auto.
Qed.

Lemma snapshot_id (pts : list Point) : snapshot pts = pts.
Proof.
  unfold snapshot, copyPoint.
  induction pts as [|[x y] t IH]; simpl; [reflexivity | now rewrite IH].
Qed.

(** What [getCurrentProfile] leaves as it was. *)
Lemma getCurrentProfile_keeps (w : LoomView) :
  profiles (settings (fst (getCurrentProfile w))) = profiles (settings w)
  /\ isEditMode (fst (getCurrentProfile w)) = isEditMode w
  /\ selectedHotspotId (fst (getCurrentProfile w)) = selectedHotspotId w
  /\ drawingShapeType (fst (getCurrentProfile w)) = drawingShapeType w
  /\ editingEdgesHotspotId (fst (getCurrentProfile w)) = editingEdgesHotspotId w
  /\ undoStack (fst (getCurrentProfile w)) = undoStack w
  /\ exists more, effects (fst (getCurrentProfile w)) = effects w ++ more.
Proof.
  unfold getCurrentProfile; simpl.
  destruct (profiles (settings w)) as [|p0 t] eqn:E; simpl.
  - rewrite ?E. repeat (split; [reflexivity |]). exists []. now rewrite app_nil_r.
  - destruct (String.eqb (activeProfileId (settings w)) EmptyString); simpl; rewrite ?E.
    + repeat (split; [reflexivity |]). eexists. reflexivity.
    + repeat (split; [reflexivity |]). exists []. now rewrite app_nil_r.
Qed.

(** A render is [getCurrentProfile] after the effect [RenderRoom], and
    then one listener more, or none. *)
Lemma renderRoom_cases (v : LoomView) :
  renderRoom v = fst (getCurrentProfile (emit RenderRoom v))
  \/ exists cur,
       renderRoom v
       = emit (AddKeydownListener cur) (fst (getCurrentProfile (emit RenderRoom v))).
Proof.
  unfold renderRoom.
  destruct (getCurrentProfile (emit RenderRoom v)) as [v1 [cur|]]; cbn [fst].
  - destruct (isEditMode v1 && truthy (editingEdgesHotspotId v1)).
    + right. now exists cur.
    + now left.
  - now left.
Qed.

Section RenderKeeps.

Variable v : LoomView.

Lemma renderRoom_profiles : profiles (settings (renderRoom v)) = profiles (settings v).
Proof.
  destruct (getCurrentProfile_keeps (emit RenderRoom v)) as (H & _).
  destruct (renderRoom_cases v) as [-> | [cur ->]]; exact H.
Qed.

Lemma renderRoom_isEditMode : isEditMode (renderRoom v) = isEditMode v.
Proof.
  destruct (getCurrentProfile_keeps (emit RenderRoom v)) as (_ & H & _).
  destruct (renderRoom_cases v) as [-> | [cur ->]]; exact H.
Qed.

Lemma renderRoom_selected : selectedHotspotId (renderRoom v) = selectedHotspotId v.
Proof.
  destruct (getCurrentProfile_keeps (emit RenderRoom v)) as (_ & _ & H & _).
  destruct (renderRoom_cases v) as [-> | [cur ->]]; exact H.
Qed.

Lemma renderRoom_drawing : drawingShapeType (renderRoom v) = drawingShapeType v.
Proof.
  destruct (getCurrentProfile_keeps (emit RenderRoom v)) as (_ & _ & _ & H & _).
  destruct (renderRoom_cases v) as [-> | [cur ->]]; exact H.
Qed.

Lemma renderRoom_editing : editingEdgesHotspotId (renderRoom v) = editingEdgesHotspotId v.
Proof.
  destruct (getCurrentProfile_keeps (emit RenderRoom v)) as (_ & _ & _ & _ & H & _).
  destruct (renderRoom_cases v) as [-> | [cur ->]]; exact H.
Qed.

Lemma renderRoom_undoStack : undoStack (renderRoom v) = undoStack v.
Proof.
  destruct (getCurrentProfile_keeps (emit RenderRoom v)) as (_ & _ & _ & _ & _ & H & _).
  destruct (renderRoom_cases v) as [-> | [cur ->]]; exact H.
Qed.

Lemma renderRoom_hotspotsOf (cur : nat) : hotspotsOf cur (renderRoom v) = hotspotsOf cur v.
Proof. unfold hotspotsOf. now rewrite renderRoom_profiles. Qed.

Lemma renderRoom_getHotspot (cur hi : nat) :
  getHotspot cur hi (renderRoom v) = getHotspot cur hi v.
Proof. unfold getHotspot. now rewrite renderRoom_hotspotsOf. Qed.

(** A render adds to the effects and takes nothing away. *)
Lemma renderRoom_effects :
  exists more, effects (renderRoom v) = effects v ++ RenderRoom :: more.
Proof.
  destruct (getCurrentProfile_keeps (emit RenderRoom v))
    as (_ & _ & _ & _ & _ & _ & more & H).
  cbn [emit effects] in H.
  destruct (renderRoom_cases v) as [-> | [cur ->]].
  - exists more. rewrite H, <- app_assoc. reflexivity.
  - exists (more ++ [AddKeydownListener cur]). cbn [emit effects].
    rewrite H, <- !app_assoc. reflexivity.
Qed.

End RenderKeeps.

Lemma hotspotsOf_setHotspotsOf (cur : nat) (f : list Hotspot.t -> list Hotspot.t)
    (v : LoomView) (p : Profile.t) :
  nth_error (profiles (settings v)) cur = Some p ->
  hotspotsOf cur (setHotspotsOf cur f v) = f (hotspotsOf cur v).
Proof.
  intros H. unfold hotspotsOf, setHotspotsOf; simpl.
  rewrite nth_error_updateAt_eq, H. reflexivity.
Qed.

Lemma hotspotsOf_setHotspotsOf_other (cur other : nat)
    (f : list Hotspot.t -> list Hotspot.t) (v : LoomView) :
  cur <> other ->
  hotspotsOf other (setHotspotsOf cur f v) = hotspotsOf other v.
Proof.
  intros H. unfold hotspotsOf, setHotspotsOf; simpl.
  now rewrite nth_error_updateAt_ne.
Qed.

Lemma pointsOf_setPointsOf (cur hi : nat) (pts : list Point) (v : LoomView)
    (h : Hotspot.t) :
  getHotspot cur hi v = Some h ->
  pointsOf cur hi (setPointsOf cur hi pts v) = Some pts.
Proof.
  intros H. unfold pointsOf, getHotspot, setPointsOf in *.
  unfold hotspotsOf in H.
  destruct (nth_error (profiles (settings v)) cur) as [p|] eqn:Hp.
  - rewrite (hotspotsOf_setHotspotsOf _ _ _ p Hp).
    unfold hotspotsOf. rewrite Hp.
    rewrite nth_error_updateAt_eq, H. reflexivity.
  - destruct hi; discriminate H.
Qed.

(** ** Drawing *)

Lemma Rltb_true (a b : R) : Rltb a b = true <-> a < b.
Proof. unfold Rltb. destruct (Rlt_dec a b); split; intros; auto; discriminate. Qed.

Lemma Rltb_false (a b : R) : Rltb a b = false <-> a >= b.
Proof.
  unfold Rltb. destruct (Rlt_dec a b); split; intros; auto; try discriminate; lra.
Qed.

(** Evaluates [Rmin], [Rmax] and [clamp] on given numbers. *)
Ltac rcalc :=
  unfold clamp, percentX, percentY, Rmin, Rmax in *; simpl in *;
  repeat match goal with
         | |- context [Rle_dec ?a ?b] => destruct (Rle_dec a b); try lra
         | H : context [Rle_dec ?a ?b] |- _ => destruct (Rle_dec a b); try lra
         end.

(** An accepted mouse-down starts a gesture. *)
Lemma mousedown_starts_drag (shapeType : ShapeType) (e : MouseEvent) (imgRect : DOMRect)
    (ds : DrawState) :
  button e = 0%nat ->
  left imgRect <= clientX e <= right imgRect ->
  top imgRect <= clientY e <= bottom imgRect ->
  imageContainer_onmousedown shapeType e imgRect ds
  = mkDraw (percentX e imgRect) (percentY e imgRect) (Some (previewFor shapeType)) true.
Proof.
  intros Hb [Hx1 Hx2] [Hy1 Hy2].
  unfold imageContainer_onmousedown. rewrite Hb. simpl.
  replace (Rltb (clientX e) (left imgRect)) with false
    by (symmetry; apply Rltb_false; lra).
  replace (Rltb (right imgRect) (clientX e)) with false
    by (symmetry; apply Rltb_false; lra).
  replace (Rltb (clientY e) (top imgRect)) with false
    by (symmetry; apply Rltb_false; lra).
  replace (Rltb (bottom imgRect) (clientY e)) with false
    by (symmetry; apply Rltb_false; lra).
  reflexivity.
Qed.

(** What [onDrawUp] does to the store when a gesture is in progress. *)
Lemma onDrawUp_outcome
    (shapeType : ShapeType) (cur : nat) (now : string) (e : MouseEvent)
    (imgRect : DOMRect) (ds : DrawState) (v : LoomView)
    (profile : Profile.t) (preview : PreviewEl) :
  nth_error (profiles (settings v)) cur = Some profile ->
  isDragging ds = true ->
  previewShape ds = Some preview ->
  let curX := clamp (percentX e imgRect) in
  let curY := clamp (percentY e imgRect) in
  let w := Rmax (drawStartX ds) curX - Rmin (drawStartX ds) curX in
  let h := Rmax (drawStartY ds) curY - Rmin (drawStartY ds) curY in
  let v' := snd (onDrawUp shapeType cur now e imgRect ds v) in
  (w < 2 /\ h < 2 -> v' = v)
  /\ (w >= 2 \/ h >= 2 ->
      hotspotsOf cur v'
      = hotspotsOf cur v
          ++ [newHotspot now
                (seedOfDrag shapeType (drawStartX ds) (drawStartY ds) curX curY)
                shapeType]
      /\ forall other, other <> cur -> hotspotsOf other v' = hotspotsOf other v).
Proof.
  intros Hp Hd Hs curX curY w h v'.
  unfold v', onDrawUp. rewrite Hd, Hs.
  unfold dragRect. fold curX curY. fold w h.
  split.
  - intros [Hw Hh].
    apply Rltb_true in Hw, Hh. rewrite Hw, Hh. reflexivity.
  - intros Hbig.
    assert (E : (Rltb w 2 && Rltb h 2)%bool = false).
    { apply andb_false_iff.
      destruct Hbig as [Hw | Hh]; [left | right]; now apply Rltb_false. }
    rewrite E. cbn [snd].
    split.
    + rewrite renderRoom_hotspotsOf.
      change (hotspotsOf cur (setHotspotsOf cur
                (fun hs => hs ++ [newHotspot now
                   (seedPoints shapeType (Rmin (drawStartX ds) curX)
                      (Rmin (drawStartY ds) curY) (Rmax (drawStartX ds) curX)
                      (Rmax (drawStartY ds) curY)) shapeType]) v)
              = hotspotsOf cur v
                  ++ [newHotspot now
                        (seedOfDrag shapeType (drawStartX ds) (drawStartY ds) curX curY)
                        shapeType]).
      now rewrite (hotspotsOf_setHotspotsOf _ _ _ profile Hp).
    + intros other Hne.
      rewrite renderRoom_hotspotsOf.
      change (hotspotsOf other (setHotspotsOf cur
                (fun hs => hs ++ [newHotspot now
                   (seedPoints shapeType (Rmin (drawStartX ds) curX)
                      (Rmin (drawStartY ds) curY) (Rmax (drawStartX ds) curX)
                      (Rmax (drawStartY ds) curY)) shapeType]) v)
              = hotspotsOf other v).
      apply hotspotsOf_setHotspotsOf_other. auto.
Qed.

(** C4: when the pointer is released in a drawing gesture, a drag rectangle
    with width below 2 and height below 2 leaves the view, and with it the
    hotspot list of the active profile, exactly as it was; a drag rectangle
    with width at least 2 or height at least 2 appends exactly one new
    hotspot, seeded from the drag rectangle, to the hotspot list of the
    active profile, and leaves the other profiles alone. *)
Theorem degenerate_drag_guard
    (shapeType : ShapeType) (cur : nat) (now : string) (e : MouseEvent)
    (imgRect : DOMRect) (ds : DrawState) (v : LoomView)
    (profile : Profile.t) (preview : PreviewEl) :
  nth_error (profiles (settings v)) cur = Some profile ->
  isDragging ds = true ->
  previewShape ds = Some preview ->
  let curX := clamp (percentX e imgRect) in
  let curY := clamp (percentY e imgRect) in
  let w := Rmax (drawStartX ds) curX - Rmin (drawStartX ds) curX in
  let h := Rmax (drawStartY ds) curY - Rmin (drawStartY ds) curY in
  let v' := snd (onDrawUp shapeType cur now e imgRect ds v) in
  (w < 2 /\ h < 2 -> v' = v)
  /\ (w >= 2 \/ h >= 2 ->
      hotspotsOf cur v'
      = hotspotsOf cur v
          ++ [newHotspot now
                (seedOfDrag shapeType (drawStartX ds) (drawStartY ds) curX curY)
                shapeType]
      /\ forall other, other <> cur -> hotspotsOf other v' = hotspotsOf other v).
Proof.
  exact (onDrawUp_outcome shapeType cur now e imgRect ds v profile preview).
Qed.

Import Examples.

Lemma degenerate_drag_guard_witness :
  snd (onDrawUp Rect 0 "1700000000001" (pointer 105 110) image dragFrom10 drawing)
  = drawing
  /\ hotspotsOf 0
       (snd (onDrawUp Rect 0 "1700000000001" (pointer 400 400) image dragFrom10 drawing))
     = hotspotsOf 0 drawing
         ++ [newHotspot "1700000000001"
               (seedOfDrag Rect 10 10 (clamp (percentX (pointer 400 400) image))
                           (clamp (percentY (pointer 400 400) image)))
               Rect].
Proof.
  split.
  - apply (degenerate_drag_guard Rect 0 "1700000000001" (pointer 105 110) image
             dragFrom10 drawing (roomA []) PreviewRect eq_refl eq_refl eq_refl).
    split; rcalc.
  - apply (degenerate_drag_guard Rect 0 "1700000000001" (pointer 400 400) image
             dragFrom10 drawing (roomA []) PreviewRect eq_refl eq_refl eq_refl).
    left. rcalc.
Defined.

(** ** Edge editing and the undo stack *)

Lemma pointsOf_inv (cur hi : nat) (v : LoomView) (pts : list Point) :
  pointsOf cur hi v = Some pts ->
  exists h, getHotspot cur hi v = Some h /\ Hotspot.points h = Some pts.
Proof.
  unfold pointsOf. destruct (getHotspot cur hi v) as [h|]; [| discriminate].
  intros H. now exists h.
Qed.

Lemma renderRoom_pointsOf (cur hi : nat) (v : LoomView) :
  pointsOf cur hi (renderRoom v) = pointsOf cur hi v.
Proof. unfold pointsOf. now rewrite renderRoom_getHotspot. Qed.

(** Entering edge editing from the context menu. *)
Lemma editEdges_enters (cur hi : nat) (v : LoomView) (h : Hotspot.t) :
  getHotspot cur hi v = Some h ->
  editingEdgesHotspotId (editEdges_onclick cur hi v) = Some (Hotspot.id h)
  /\ undoStack (editEdges_onclick cur hi v)
     = match Hotspot.points h with Some pts => [pts] | None => [] end
  /\ pointsOf cur hi (editEdges_onclick cur hi v) = Hotspot.points h.
Proof.
  intros H. unfold editEdges_onclick. rewrite H.
  rewrite renderRoom_editing, renderRoom_undoStack, renderRoom_pointsOf.
  cbn [editingEdgesHotspotId undoStack setUndoStack setSelected setEditingEdges].
  repeat split.
  - destruct (Hotspot.points h); [now rewrite snapshot_id | reflexivity].
  - unfold pointsOf.
    change (getHotspot cur hi
              (setUndoStack
                 match Hotspot.points h with
                 | Some pts => [snapshot pts]
                 | None => []
                 end
                 (setSelected (Some (Hotspot.id h))
                    (setEditingEdges (Some (Hotspot.id h)) v))))
      with (getHotspot cur hi v).
    now rewrite H.
Qed.

(** Entering edge editing by drawing a shape. *)
Lemma creation_enters
    (shapeType : ShapeType) (cur : nat) (now : string) (e : MouseEvent)
    (imgRect : DOMRect) (ds : DrawState) (v : LoomView)
    (profile : Profile.t) (preview : PreviewEl) :
  nth_error (profiles (settings v)) cur = Some profile ->
  isDragging ds = true ->
  previewShape ds = Some preview ->
  let curX := clamp (percentX e imgRect) in
  let curY := clamp (percentY e imgRect) in
  let w := Rmax (drawStartX ds) curX - Rmin (drawStartX ds) curX in
  let h := Rmax (drawStartY ds) curY - Rmin (drawStartY ds) curY in
  let v' := snd (onDrawUp shapeType cur now e imgRect ds v) in
  w >= 2 \/ h >= 2 ->
  editingEdgesHotspotId v' = Some now
  /\ undoStack v' = [seedOfDrag shapeType (drawStartX ds) (drawStartY ds) curX curY]
  /\ pointsOf cur (length (hotspotsOf cur v)) v'
     = Some (seedOfDrag shapeType (drawStartX ds) (drawStartY ds) curX curY).
Proof.
  intros Hp Hd Hs curX curY w h v' Hbig.
  destruct (onDrawUp_outcome shapeType cur now e imgRect ds v profile preview
              Hp Hd Hs) as [_ Hnew].
  destruct (Hnew Hbig) as [Hhs _]. fold curX curY v' in Hhs.
  assert (E : (Rltb w 2 && Rltb h 2)%bool = false).
  { apply andb_false_iff.
    destruct Hbig as [Hw | Hh]; [left | right]; now apply Rltb_false. }
  split; [| split].
  - unfold v', onDrawUp. rewrite Hd, Hs. unfold dragRect. fold curX curY. fold w h.
    rewrite E. cbn [snd]. now rewrite renderRoom_editing.
  - unfold v', onDrawUp. rewrite Hd, Hs. unfold dragRect. fold curX curY. fold w h.
    rewrite E. cbn [snd]. rewrite renderRoom_undoStack.
    cbn [undoStack saveSettings emit setUndoStack]. now rewrite snapshot_id.
  - unfold pointsOf, getHotspot. rewrite Hhs.
    rewrite nth_error_app2 by lia. rewrite Nat.sub_diag. reflexivity.
Qed.

(** The moves of a vertex drag touch neither the stack nor the session. *)
Lemma handle_moves_keep (cur hi idx : nat) (moves : list (MouseEvent * DOMRect))
    (v : LoomView) (pts : list Point) :
  pointsOf cur hi v = Some pts ->
  let v' := fold_left (fun v m => onHandleMove cur hi idx (fst m) (snd m) v) moves v in
  undoStack v' = undoStack v
  /\ editingEdgesHotspotId v' = editingEdgesHotspotId v
  /\ exists pts', pointsOf cur hi v' = Some pts'.
Proof.
  revert v pts.
  induction moves as [|m moves IH]; intros v pts H; cbn [fold_left].
  - repeat split. now exists pts.
  - destruct (pointsOf_inv _ _ _ _ H) as (h & Hh & Hpts).
    assert (Hstep : onHandleMove cur hi idx (fst m) (snd m) v
                    = setPointsOf cur hi
                        (assignAt idx (clamp (percentX (fst m) (snd m)),
                                       clamp (percentY (fst m) (snd m))) pts) v).
    { unfold onHandleMove. rewrite Hh. cbn [option_map]. now rewrite Hpts. }
    rewrite Hstep.
    destruct (IH _ _ (pointsOf_setPointsOf cur hi
                        (assignAt idx (clamp (percentX (fst m) (snd m)),
                                       clamp (percentY (fst m) (snd m))) pts)
                        v h Hh)) as (Hu & He & Hp).
    repeat split; [rewrite Hu | rewrite He | exact Hp]; reflexivity.
Qed.

(** So do the moves of a whole-shape drag. *)
Lemma shape_moves_keep (cur hi : nat) (sd : ShapeDrag) (moves : list MouseEvent)
    (v : LoomView) (pts : list Point) :
  pointsOf cur hi v = Some pts ->
  let v' := fold_left (fun v m => onMove cur hi sd m v) moves v in
  undoStack v' = undoStack v
  /\ editingEdgesHotspotId v' = editingEdgesHotspotId v
  /\ exists pts', pointsOf cur hi v' = Some pts'.
Proof.
  revert v pts.
  induction moves as [|m moves IH]; intros v pts H; cbn [fold_left].
  - repeat split. now exists pts.
  - destruct (pointsOf_inv _ _ _ _ H) as (h & Hh & Hpts).
    set (moved := map (fun p : Point =>
                         (fst p + (clientX m - startX sd) / width (dragImgRect sd) * 100,
                          snd p + (clientY m - startY sd) / height (dragImgRect sd) * 100))
                      (origPts sd)).
    change (onMove cur hi sd m v) with (setPointsOf cur hi moved v).
    destruct (IH _ _ (pointsOf_setPointsOf cur hi moved v h Hh)) as (Hu & He & Hp).
    repeat split; [rewrite Hu | rewrite He | exact Hp]; reflexivity.
Qed.

(** A drag gesture pushes the vertex list it starts from, once. *)
Lemma gesture_pushes_one (cur hi : nat) (g : DragGesture) (v : LoomView)
    (pts : list Point) :
  pointsOf cur hi v = Some pts ->
  exists v',
    runGesture cur hi g v = Some v'
    /\ undoStack v' = undoStack v ++ [pts]
    /\ editingEdgesHotspotId v' = editingEdgesHotspotId v
    /\ exists pts', pointsOf cur hi v' = Some pts'.
Proof.
  intros H.
  destruct (pointsOf_inv _ _ _ _ H) as (h & Hh & Hpts).
  destruct g as [idx moves | down rect moves]; cbn [runGesture].
  - unfold handle_onmousedown. rewrite Hh. cbn [option_map]. rewrite Hpts.
    eexists. split; [reflexivity |].
    destruct (handle_moves_keep cur hi idx moves
                (setUndoStack (undoStack v ++ [snapshot pts]) v) pts H)
      as (Hu & He & Hp).
    unfold onHandleUp.
    repeat split.
    + cbn [undoStack saveSettings emit]. rewrite Hu. cbn [undoStack setUndoStack].
      now rewrite snapshot_id.
    + cbn [editingEdgesHotspotId saveSettings emit]. rewrite He. reflexivity.
    + exact Hp.
  - unfold shape_onmousedown. rewrite Hh. cbn [option_map]. rewrite Hpts.
    eexists. split; [reflexivity |].
    destruct (shape_moves_keep cur hi
                (mkShapeDrag (clientX down) (clientY down) rect (snapshot pts)) moves
                (setUndoStack (undoStack v ++ [snapshot pts]) v) pts H)
      as (Hu & He & Hp).
    unfold onUp.
    rewrite renderRoom_undoStack, renderRoom_editing, renderRoom_pointsOf.
    repeat split.
    + cbn [undoStack saveSettings emit]. rewrite Hu. cbn [undoStack setUndoStack].
      now rewrite snapshot_id.
    + cbn [editingEdgesHotspotId saveSettings emit]. rewrite He. reflexivity.
    + exact Hp.
Qed.

(** After N drag gestures the stack is N snapshots longer. *)
Lemma gestures_push_each (cur hi : nat) (gs : list DragGesture) (v : LoomView)
    (pts : list Point) :
  pointsOf cur hi v = Some pts ->
  exists v',
    runGestures cur hi gs v = Some v'
    /\ length (undoStack v') = (length (undoStack v) + length gs)%nat
    /\ editingEdgesHotspotId v' = editingEdgesHotspotId v
    /\ exists pts', pointsOf cur hi v' = Some pts'.
Proof.
  revert v pts.
  induction gs as [|g gs IH]; intros v pts H; cbn [runGestures].
  - exists v. repeat split; [simpl; lia | now exists pts].
  - destruct (gesture_pushes_one cur hi g v pts H) as (v1 & Hr & Hu & He & pts1 & Hp).
    rewrite Hr.
    destruct (IH v1 pts1 Hp) as (v' & Hr' & Hl & He' & Hp').
    exists v'. repeat split; auto.
    + rewrite Hl, Hu, length_app. simpl. lia.
    + congruence.
Qed.

Lemma undo_handler_in_session (cur hi : nat) (v : LoomView) :
  InSession cur hi v ->
  edgeEditKeyHandler cur ctrlZ v
  = if Nat.ltb 1 (length (undoStack v)) then
      notice "Undo!"
        (renderRoom
           (setPointsOf cur hi
              (snapshot (last (removelast (undoStack v)) []))
              (setUndoStack (removelast (undoStack v)) v)))
    else notice "Nothing to undo" v.
Proof.
  intros (Ht & Hf & pts & Hp).
  destruct (pointsOf_inv _ _ _ _ Hp) as (h & Hh & Hpts).
  unfold edgeEditKeyHandler.
  rewrite Ht, Hf, Hh. cbn [negb option_map]. rewrite Hpts.
  reflexivity.
Qed.

(** Undo with more than one snapshot: the top one goes, the one now on top
    becomes the vertex list. *)
Lemma undo_pops (cur hi : nat) (v : LoomView) :
  InSession cur hi v ->
  (1 < length (undoStack v))%nat ->
  undoStack (edgeEditKeyHandler cur ctrlZ v) = removelast (undoStack v)
  /\ pointsOf cur hi (edgeEditKeyHandler cur ctrlZ v)
     = Some (last (removelast (undoStack v)) []).
Proof.
  intros HS Hlen.
  rewrite (undo_handler_in_session cur hi v HS).
  apply Nat.ltb_lt in Hlen. rewrite Hlen.
  destruct HS as (_ & _ & pts & Hp).
  destruct (pointsOf_inv _ _ _ _ Hp) as (h & Hh & _).
  split.
  - change (undoStack (notice "Undo!" ?x)) with (undoStack x).
    cbn [notice emit undoStack]. rewrite renderRoom_undoStack. reflexivity.
  - unfold pointsOf at 1.
    change (getHotspot cur hi (notice "Undo!" ?x)) with (getHotspot cur hi x).
    cbn [notice emit]. 
    change (getHotspot cur hi (mkView ?a ?b ?c ?d ?e (settings ?x) ?f))
      with (getHotspot cur hi x).
    rewrite renderRoom_getHotspot.
    fold (pointsOf cur hi
            (setPointsOf cur hi (snapshot (last (removelast (undoStack v)) []))
                         (setUndoStack (removelast (undoStack v)) v))).
    rewrite snapshot_id.
    apply (pointsOf_setPointsOf cur hi _ _ h). exact Hh.
Qed.

(** Undo with at most one snapshot: a notice, and nothing else. *)
Lemma undo_noop (cur hi : nat) (v : LoomView) :
  InSession cur hi v ->
  (length (undoStack v) <= 1)%nat ->
  edgeEditKeyHandler cur ctrlZ v = notice "Nothing to undo" v.
Proof.
  intros HS Hlen.
  rewrite (undo_handler_in_session cur hi v HS).
  replace (Nat.ltb 1 (length (undoStack v))) with false
    by (symmetry; apply Nat.ltb_ge; exact Hlen).
  reflexivity.
Qed.

(** The undo stack, one run of a handler at a time: for every edge-editing
    session on a hotspot that has a vertex list, (1) right after the
    hotspot is drawn, or after "Edit Edges" is chosen for it, the undo
    stack holds exactly one snapshot, the vertex list of the hotspot; (2)
    each vertex drag and each whole-shape drag pushes, at its start, one
    snapshot of the vertex list as it is before the drag, so that N drag
    gestures after entering leave N+1 snapshots; (3) one run of the key
    handler on Ctrl+Z with more than one snapshot pops the top snapshot and
    makes the snapshot now on top the vertex list; (4) one run with only
    one snapshot left shows a notice and changes neither the stack nor the
    vertex list.  How many runs one press of Ctrl+Z makes is the matter of
    [document_onkeydown]. *)
Lemma undo_stack_session :
  (forall (shapeType : ShapeType) (cur : nat) (now : string) (e : MouseEvent)
          (imgRect : DOMRect) (ds : DrawState) (v : LoomView)
          (profile : Profile.t) (preview : PreviewEl),
      nth_error (profiles (settings v)) cur = Some profile ->
      isDragging ds = true ->
      previewShape ds = Some preview ->
      Rmax (drawStartX ds) (clamp (percentX e imgRect))
        - Rmin (drawStartX ds) (clamp (percentX e imgRect)) >= 2
      \/ Rmax (drawStartY ds) (clamp (percentY e imgRect))
           - Rmin (drawStartY ds) (clamp (percentY e imgRect)) >= 2 ->
      let v' := snd (onDrawUp shapeType cur now e imgRect ds v) in
      exists pts,
        pointsOf cur (length (hotspotsOf cur v)) v' = Some pts
        /\ undoStack v' = [pts])
  /\ (forall (cur hi : nat) (v : LoomView) (h : Hotspot.t) (pts : list Point),
         getHotspot cur hi v = Some h ->
         Hotspot.points h = Some pts ->
         pointsOf cur hi (editEdges_onclick cur hi v) = Some pts
         /\ undoStack (editEdges_onclick cur hi v) = [pts])
  /\ (forall (cur hi : nat) (g : DragGesture) (v : LoomView) (pts : list Point),
         pointsOf cur hi v = Some pts ->
         exists v',
           runGesture cur hi g v = Some v'
           /\ undoStack v' = undoStack v ++ [pts])
  /\ (forall (cur hi : nat) (gs : list DragGesture) (v : LoomView)
             (pts first : list Point),
         pointsOf cur hi v = Some pts ->
         undoStack v = [first] ->
         exists v',
           runGestures cur hi gs v = Some v'
           /\ length (undoStack v') = S (length gs))
  /\ (forall (cur hi : nat) (v : LoomView),
         InSession cur hi v ->
         (1 < length (undoStack v))%nat ->
         undoStack (edgeEditKeyHandler cur ctrlZ v) = removelast (undoStack v)
         /\ pointsOf cur hi (edgeEditKeyHandler cur ctrlZ v)
            = Some (last (removelast (undoStack v)) []))
  /\ (forall (cur hi : nat) (v : LoomView),
         InSession cur hi v ->
         length (undoStack v) = 1%nat ->
         edgeEditKeyHandler cur ctrlZ v = notice "Nothing to undo" v
         /\ undoStack (edgeEditKeyHandler cur ctrlZ v) = undoStack v
         /\ pointsOf cur hi (edgeEditKeyHandler cur ctrlZ v) = pointsOf cur hi v).
Proof.
  repeat apply conj.
  - intros shapeType cur now e imgRect ds v profile preview Hp Hd Hs Hbig v'.
    destruct (creation_enters shapeType cur now e imgRect ds v profile preview
                Hp Hd Hs Hbig) as (_ & Hu & Hpts).
    eexists. split; [exact Hpts | exact Hu].
  - intros cur hi v h pts Hh Hpts.
    destruct (editEdges_enters cur hi v h Hh) as (_ & Hu & Hp).
    rewrite Hpts in Hu, Hp. split; assumption.
  - intros cur hi g v pts Hp.
    destruct (gesture_pushes_one cur hi g v pts Hp) as (v' & Hr & Hu & _).
    exists v'. split; assumption.
  - intros cur hi gs v pts first Hp Hst.
    destruct (gestures_push_each cur hi gs v pts Hp) as (v' & Hr & Hl & _).
    exists v'. split; [assumption |].
    rewrite Hl, Hst. reflexivity.
  - intros cur hi v HS Hlen. apply undo_pops; assumption.
  - intros cur hi v HS Hlen.
    assert (E : edgeEditKeyHandler cur ctrlZ v = notice "Nothing to undo" v)
      by (apply (undo_noop cur hi); [assumption | lia]).
    rewrite E. repeat split.
Qed.

(** Where edge editing is entered on a hotspot without a vertex list, the
    view is in edge editing on it and the undo stack is empty. *)
Lemma undo_stack_not_one_for_legacy_hotspot :
  getHotspot 0 0 (editIdle [shelf]) = Some shelf
  /\ editingEdgesHotspotId (editEdges_onclick 0 0 (editIdle [shelf])) = Some "shelf"%string
  /\ undoStack (editEdges_onclick 0 0 (editIdle [shelf])) = []
  /\ length (undoStack (editEdges_onclick 0 0 (editIdle [shelf]))) <> 1%nat.
Proof.
  repeat split.
  simpl. discriminate.
Qed.

Lemma edgeEditing_in_session : InSession 0 0 edgeEditing.
Proof. repeat split. now exists deskPoints. Qed.

Lemma afterOneDrag_in_session : InSession 0 0 afterOneDrag.
Proof. repeat split. now exists movedPoints. Qed.

Lemma undo_stack_session_witness :
  (exists pts,
      pointsOf 0 0 (snd (onDrawUp Rect 0 "1700000000001" (pointer 400 400) image
                                  dragFrom10 drawing)) = Some pts
      /\ undoStack (snd (onDrawUp Rect 0 "1700000000001" (pointer 400 400) image
                                  dragFrom10 drawing)) = [pts])
  /\ undoStack (editEdges_onclick 0 0 (editIdle [desk])) = [deskPoints]
  /\ (exists v',
         runGesture 0 0 (VertexDrag 2 [(pointer 500 500, image)]) edgeEditing = Some v'
         /\ undoStack v' = [deskPoints; deskPoints])
  /\ (exists v',
         runGestures 0 0 [VertexDrag 2 [(pointer 500 500, image)];
                          WholeShapeDrag (pointer 200 200) image [pointer 300 200]]
                     edgeEditing = Some v'
         /\ length (undoStack v') = 3%nat)
  /\ (undoStack (edgeEditKeyHandler 0 ctrlZ afterOneDrag) = [deskPoints]
      /\ pointsOf 0 0 (edgeEditKeyHandler 0 ctrlZ afterOneDrag) = Some deskPoints)
  /\ (undoStack (edgeEditKeyHandler 0 ctrlZ edgeEditing) = [deskPoints]
      /\ pointsOf 0 0 (edgeEditKeyHandler 0 ctrlZ edgeEditing) = Some deskPoints).
Proof.
  destruct undo_stack_session as (Hdraw & Hmenu & Hone & Hmany & Hpop & Hnoop).
  split; [| split; [| split; [| split; [| split]]]].
  - apply (Hdraw Rect 0%nat "1700000000001"%string (pointer 400 400) image dragFrom10
                 drawing (roomA []) PreviewRect eq_refl eq_refl eq_refl).
    left. rcalc.
  - apply (Hmenu 0%nat 0%nat (editIdle [desk]) desk deskPoints eq_refl eq_refl).
  - apply (Hone 0%nat 0%nat (VertexDrag 2 [(pointer 500 500, image)]) edgeEditing
                deskPoints eq_refl).
  - exact (Hmany 0%nat 0%nat
                 [VertexDrag 2 [(pointer 500 500, image)];
                  WholeShapeDrag (pointer 200 200) image [pointer 300 200]]
                 edgeEditing deskPoints deskPoints eq_refl eq_refl).
  - apply (Hpop 0%nat 0%nat afterOneDrag afterOneDrag_in_session).
    simpl. lia.
  - destruct (Hnoop 0%nat 0%nat edgeEditing edgeEditing_in_session eq_refl)
      as (_ & Hu & Hp).
    split; [exact Hu | exact Hp].
Defined.

(** ** Leaving edit mode *)

(** What the edit-mode button does when edit mode is on: the store is
    saved first, then the mode, the selection and the tool are reset, then
    the page is rendered.  The hotspot named for edge editing and the undo
    stack stay as they are. *)
Lemma edit_toggle_off (v : LoomView) :
  isEditMode v = true ->
  isEditMode (editModeBtn_onclick v) = false
  /\ selectedHotspotId (editModeBtn_onclick v) = None
  /\ drawingShapeType (editModeBtn_onclick v) = None
  /\ editingEdgesHotspotId (editModeBtn_onclick v) = editingEdgesHotspotId v
  /\ undoStack (editModeBtn_onclick v) = undoStack v
  /\ exists more,
       effects (editModeBtn_onclick v)
       = effects v
           ++ SaveSettings (settings v) :: Notice "Layout saved!" :: RenderRoom :: more.
Proof.
  intros H. unfold editModeBtn_onclick. rewrite H.
  rewrite renderRoom_isEditMode, renderRoom_selected, renderRoom_drawing,
    renderRoom_editing, renderRoom_undoStack.
  split; [cbn; now rewrite H |].
  do 4 (split; [reflexivity |]).
  match goal with |- context [effects (renderRoom ?x)] =>
    destruct (renderRoom_effects x) as [more E]; rewrite E end.
  exists more. cbn [effects setDrawing setSelected setEditMode notice saveSettings emit].
  repeat rewrite <- app_assoc. reflexivity.
Qed.

(** The ways out of edge editing that the code does clear. *)
Lemma cancel_and_escape_leave_edge_editing :
  editingEdgesHotspotId (cancelBtn_onclick 0 0 edgeEditing) = None
  /\ editingEdgesHotspotId (edgeEditKeyHandler 0 (mkKey "Escape" false false) edgeEditing)
     = None.
Proof. split; reflexivity. Qed.

Ltac points_eq :=
  repeat first
    [ reflexivity
    | apply f_equal
    | apply f_equal2; [apply f_equal2; lra |] ].

(** C2, at the view that is edge editing [desk]: the edit-mode button saves
    the store first and turns edit mode off, but the view still names
    [desk] for edge editing and keeps its undo stack; the render that
    follows still gives [desk] its four vertex handles, and a drag of a
    handle still moves the vertex. *)
Theorem edit_toggle_keeps_edge_editing :
  let v' := editModeBtn_onclick edgeEditing in
  effects v'
  = [SaveSettings (store [desk]); Notice "Layout saved!"; RenderRoom]
  /\ isEditMode v' = false
  /\ editingEdgesHotspotId v' = Some "1700000000000"%string
  /\ undoStack v' = [deskPoints]
  /\ renderHotspot v' desk = Some (SvgPolygon, EdgeHandles 4)
  /\ (exists v1,
         handle_onmousedown 0 0 v' = Some v1
         /\ pointsOf 0 0 (onHandleMove 0 0 2 (pointer 500 500) image v1)
            = Some movedPoints).
Proof.
  do 5 (split; [reflexivity |]).
  eexists. split; [reflexivity |].
  cbv [onHandleMove]. cbn [option_map getHotspot].
  unfold pointsOf. cbn.
  unfold movedPoints. rcalc; points_eq.
Qed.

(** ** The range of the coordinates *)

(** Checks a given list of points against the range, point by point. *)
Ltac all_in_range :=
  repeat (apply Forall_cons;
          [unfold pointInRange, inRange; cbn [fst snd]; repeat split; lra |]);
  apply Forall_nil.

Lemma clamp_inRange (x : R) : inRange (clamp x).
Proof. unfold inRange. rcalc. Qed.

Lemma Forall_updateAt {A : Type} (P : A -> Prop) (f : A -> A) (l : list A) (i : nat) :
  (forall x, P x -> P (f x)) -> Forall P l -> Forall P (updateAt i f l).
Proof.
  intros Hf. revert i.
  induction l as [|x t IH]; intros [|i] H; simpl; auto;
    inversion H; subst; constructor; auto.
Qed.

(** A vertex drag keeps the vertex list inside the image. *)
Lemma vertex_drag_in_range (cur hi idx : nat) (evt : MouseEvent) (rect : DOMRect)
    (v : LoomView) (pts : list Point) :
  pointsOf cur hi v = Some pts ->
  Forall pointInRange pts ->
  exists pts',
    pointsOf cur hi (onHandleMove cur hi idx evt rect v) = Some pts'
    /\ Forall pointInRange pts'.
Proof.
  intros Hp Hall.
  destruct (pointsOf_inv _ _ _ _ Hp) as (h & Hh & Hpts).
  unfold onHandleMove. rewrite Hh. cbn [option_map]. rewrite Hpts.
  eexists. split.
  - apply (pointsOf_setPointsOf cur hi _ v h Hh).
  - apply Forall_updateAt; [| exact Hall].
    intros _ _. split; apply clamp_inRange.
Qed.

(** The start of an accepted drawing gesture is inside the image. *)
Lemma draw_start_in_range (shapeType : ShapeType) (e : MouseEvent) (imgRect : DOMRect)
    (ds : DrawState) :
  0 < width imgRect ->
  0 < height imgRect ->
  button e = 0%nat ->
  left imgRect <= clientX e <= right imgRect ->
  top imgRect <= clientY e <= bottom imgRect ->
  inRange (drawStartX (imageContainer_onmousedown shapeType e imgRect ds))
  /\ inRange (drawStartY (imageContainer_onmousedown shapeType e imgRect ds)).
Proof.
  intros Hw Hh Hb Hx Hy.
  rewrite (mousedown_starts_drag shapeType e imgRect ds Hb Hx Hy).
  cbn [drawStartX drawStartY].
  unfold inRange, percentX, percentY, right, bottom in *.
  assert (Kw : 0 < / width imgRect) by now apply Rinv_0_lt_compat.
  assert (Kh : 0 < / height imgRect) by now apply Rinv_0_lt_compat.
  assert (Ew : width imgRect * / width imgRect = 1) by (apply Rinv_r; lra).
  assert (Eh : height imgRect * / height imgRect = 1) by (apply Rinv_r; lra).
  unfold Rdiv.
  split; split; nra.
Qed.

Lemma Rmin_inRange (a b : R) : inRange a -> inRange b -> inRange (Rmin a b).
Proof. unfold inRange. intros. rcalc. Qed.

Lemma Rmax_inRange (a b : R) : inRange a -> inRange b -> inRange (Rmax a b).
Proof. unfold inRange. intros. rcalc. Qed.

(** Every seed of a rectangle inside the image is inside the image. *)
Lemma seedPoints_in_range (shapeType : ShapeType) (minX minY maxX maxY : R) :
  inRange minX -> inRange minY -> inRange maxX -> inRange maxY ->
  minX <= maxX -> minY <= maxY ->
  Forall pointInRange (seedPoints shapeType minX minY maxX maxY).
Proof.
  unfold inRange. intros HminX HminY HmaxX HmaxY Hx Hy.
  destruct shapeType; unfold seedPoints.
  - all_in_range.
  - unfold ellipsePoints. apply Forall_forall. intros p Hin.
    apply in_map_iff in Hin. destruct Hin as (i & <- & _).
    pose proof (COS_bound (2 * PI * INR i / INR segments)) as Hc.
    pose proof (SIN_bound (2 * PI * INR i / INR segments)) as Hs.
    unfold pointInRange, inRange. cbn [fst snd].
    repeat split; nra.
  - all_in_range.
Qed.

Lemma seedOfDrag_in_range (shapeType : ShapeType) (sx sy ex ey : R) :
  inRange sx -> inRange sy -> inRange ex -> inRange ey ->
  Forall pointInRange (seedOfDrag shapeType sx sy ex ey).
Proof.
  intros Hsx Hsy Hex Hey. unfold seedOfDrag, dragRect.
  apply seedPoints_in_range;
    try (apply Rmin_inRange; assumption); try (apply Rmax_inRange; assumption).
  - apply Rle_trans with sx; [apply Rmin_l | apply Rmax_l].
  - apply Rle_trans with sy; [apply Rmin_l | apply Rmax_l].
Qed.

(** C3, at a whole-shape drag of [desk] by 700 pixels to the right on an
    image 1000 pixels wide: the vertex list was inside [0,100] before the
    move, and after it two vertices have the x coordinate 110. *)
Theorem whole_shape_drag_leaves_range :
  Forall pointInRange deskPoints
  /\ pointsOf 0 0 edgeEditing = Some deskPoints
  /\ exists sd v1,
       shape_onmousedown 0 0 (pointer 100 100) image edgeEditing = Some (sd, v1)
       /\ pointsOf 0 0 (onMove 0 0 sd (pointer 800 100) v1) = Some shiftedPoints
       /\ ~ Forall pointInRange shiftedPoints.
Proof.
  split; [| split; [reflexivity |]].
  - unfold deskPoints. all_in_range.
  - eexists. eexists. split; [reflexivity |].
    split.
    + unfold pointsOf. cbn. unfold shiftedPoints. points_eq.
    + intros H. unfold shiftedPoints in H.
      inversion H as [|? ? _ H1]; subst.
      inversion H1 as [|? ? [[_ Hx] _] _]; subst.
      cbn [fst] in Hx. lra.
Qed.

(** ** Loading *)

Import Persistence.

Lemma onload_keeps_hotspots (data : option SavedData) :
  allHotspots (onload data) = persistedHotspots data.
Proof.
  unfold onload, allHotspots, persistedHotspots.
  destruct data as [d|]; [| reflexivity].
  unfold loadSettings, migrate.
  cbn [profiles legacyHotspots roomImagePath displayLabelType DEFAULT_SETTINGS orDefault].
  destruct (saved_profiles d) as [[|p ps]|]; cbn [orDefault fst profiles app flat_map];
    try reflexivity;
    destruct (saved_hotspots d); cbn [orDefault Profile.hotspots];
    now rewrite app_nil_r.
Qed.

Lemma renderHotspot_skips (v : LoomView) (h : Hotspot.t) :
  renderHotspot v h = None
  <-> (Hotspot.points h = None \/ Hotspot.points h = Some [])
      /\ truthy (Hotspot.top h) = false.
Proof.
  unfold renderHotspot.
  destruct (Hotspot.points h) as [[|p pts]|];
    destruct (truthy (Hotspot.top h));
    destruct (hasId (editingEdgesHotspotId v) h);
    destruct (isEditMode v);
    destruct (Hotspot.shapeType h) as [[| |]|];
    split; try discriminate; try tauto;
    intros [[H | H] H']; discriminate.
Qed.

(** C9, as the code has it: loading drops no hotspot.  The loaded store
    holds exactly the persisted hotspots, in order, whatever their fields;
    a hotspot without any vertex (no points, or an empty list) and without
    a non-empty [top] field is skipped when the room is rendered: no shape,
    label or handler is made for it. *)
Theorem load_keeps_every_hotspot :
  (forall data : option SavedData, allHotspots (onload data) = persistedHotspots data)
  /\ (forall (v : LoomView) (h : Hotspot.t),
         renderHotspot v h = None
         <-> (Hotspot.points h = None \/ Hotspot.points h = Some [])
             /\ truthy (Hotspot.top h) = false).
Proof. split; [exact onload_keeps_hotspots | exact renderHotspot_skips]. Qed.

(** C9 as stated fails on persisted data that holds a hotspot with neither
    points nor rectangle fields: the hotspot is in the loaded store. *)
Lemma corrupt_hotspot_survives_load :
  corrupt ghost = true
  /\ In ghost (allHotspots (onload (Some savedWithGhost))).
Proof. split; [reflexivity | right; left; reflexivity]. Qed.

Lemma load_keeps_every_hotspot_witness :
  allHotspots (onload (Some savedWithGhost)) = [desk; ghost]
  /\ (renderHotspot (initialView (onload (Some savedWithGhost))) ghost = None).
Proof.
  destruct load_keeps_every_hotspot as [Hload Hskip].
  split.
  - rewrite Hload. reflexivity.
  - apply Hskip. split; [left |]; reflexivity.
Defined.

(** ** Navigation *)

Import Navigation.

(** C10, as the code has it: for a hotspot destination that is not blank,
    whose path (the text before the first "#") resolves to nothing in the
    vault and does not end in ".md", navigation looks the path up again
    with ".md" appended; when that is a file, the file is opened (with the
    subpath of the destination), and otherwise the path is reported as not
    found. *)
Theorem md_retry_before_not_found (files : Vault) (hotspot : Hotspot.t) :
  blank (Hotspot.path hotspot) = false ->
  let path := fst (splitLink (Hotspot.path hotspot)) in
  let linkSubpath := snd (splitLink (Hotspot.path hotspot)) in
  files path = None ->
  endsWith ".md" path = false ->
  showZoneFiles files hotspot None
  = match files (path ++ ".md")%string with
    | Some (TFile f) => OpenFile f linkSubpath
    | _ => PathNotFound path
    end.
Proof.
  intros Hb path linkSubpath Hnone Hmd.
  unfold showZoneFiles. unfold blank in Hb. rewrite Hb.
  destruct (splitLink (Hotspot.path hotspot)) as [p sub] eqn:E.
  cbn [fst snd] in path, linkSubpath. subst path linkSubpath.
  rewrite Hnone, Hmd. cbn [negb].
  destruct (files (p ++ ".md")%string) as [[f | d]|]; reflexivity.
Qed.

Lemma md_retry_before_not_found_witness :
  showZoneFiles vault desk None = OpenFile "notes/desk.md" ""
  /\ showZoneFiles vault deskTop None = OpenFile "notes/desk.md" "#Top"
  /\ showZoneFiles vault ghost None = PathNotFound "nowhere".
Proof.
  split; [| split].
  - exact (md_retry_before_not_found vault desk eq_refl eq_refl eq_refl).
  - exact (md_retry_before_not_found vault deskTop eq_refl eq_refl eq_refl).
  - exact (md_retry_before_not_found vault ghost eq_refl eq_refl eq_refl).
Defined.

(** C10 as stated fails for a destination of white space only: the path
    resolves to nothing and does not end in ".md", a note is there at the
    path with ".md" appended, and navigation stops at the notice that the
    region has no linked folder. *)
Lemma blank_destination_is_not_retried :
  spaceVault (Hotspot.path spaceHotspot) = None
  /\ endsWith ".md" (Hotspot.path spaceHotspot) = false
  /\ spaceVault (Hotspot.path spaceHotspot ++ ".md")%string = Some (TFile " .md")
  /\ showZoneFiles spaceVault spaceHotspot None = NoLinkedFolder
  /\ showZoneFiles spaceVault spaceHotspot None <> OpenFile " .md" "".
Proof. repeat split. discriminate. Qed.

(** ** Scenarios *)

(** A rectangle drawn from (10,10) to (40,40), in either direction. *)
Example rect_10_40 :
  seedOfDrag Rect 10 10 40 40 = deskPoints
  /\ seedOfDrag Rect 40 40 10 10 = deskPoints.
Proof.
  unfold seedOfDrag, dragRect, seedPoints, deskPoints.
  split; rcalc; points_eq.
Qed.

Example centroid_desk : centroid deskPoints = (25, 25).
Proof.
  unfold centroid, sumX, sumY, deskPoints. cbn.
  apply f_equal2; lra.
Qed.

(** The path text with every number written as "0". *)
Example path_text_small :
  let zero := fun _ : R => "0"%string in
  smoothClosedPath zero [(1, 2)] = "M 0,0 Z"%string
  /\ smoothClosedPath zero [(1, 2); (3, 4)] = "M 0,0 L 0,0 Z"%string
  /\ smoothClosedPath zero [(1, 2); (3, 4); (5, 6)]
     = "M 0,0 C 0,0 0,0 0,0 C 0,0 0,0 0,0 C 0,0 0,0 0,0 Z"%string.
Proof. repeat split. Qed.

Lemma hotspotsOf_emit (cur : nat) (e : Effect) (v : LoomView) :
  hotspotsOf cur (emit e v) = hotspotsOf cur v.
Proof. reflexivity. Qed.

(** Escape during edge editing deletes the hotspot and leaves edge
    editing. *)
Lemma escape_deletes (cur hi : nat) (v : LoomView) (p : Profile.t) :
  InSession cur hi v ->
  nth_error (profiles (settings v)) cur = Some p ->
  let v' := edgeEditKeyHandler cur (mkKey "Escape" false false) v in
  hotspotsOf cur v' = removeAt hi (hotspotsOf cur v)
  /\ editingEdgesHotspotId v' = None
  /\ undoStack v' = [].
Proof.
  intros (Ht & Hf & pts & Hp) Hprof v'.
  destruct (pointsOf_inv _ _ _ _ Hp) as (h & Hh & Hpts).
  unfold v', edgeEditKeyHandler.
  rewrite Ht, Hf, Hh. cbn [negb option_map]. rewrite Hpts.
  cbn [key ctrlKey metaKey String.eqb Ascii.eqb Bool.eqb andb orb].
  split; [| split].
  - unfold notice, saveSettings.
    rewrite hotspotsOf_emit, renderRoom_hotspotsOf, hotspotsOf_emit.
    change (hotspotsOf cur (setHotspotsOf cur (deleteById (editingEdgesHotspotId v)) v)
            = removeAt hi (hotspotsOf cur v)).
    rewrite (hotspotsOf_setHotspotsOf _ _ _ p Hprof).
    unfold deleteById. now rewrite Hf.
  - cbn [notice emit editingEdgesHotspotId]. now rewrite renderRoom_editing.
  - cbn [notice emit undoStack]. now rewrite renderRoom_undoStack.
Qed.

(** An ellipse drawn from (0,0) to (20,10), then Escape: the profile has no
    hotspot again. *)
Example ellipse_then_escape :
  let armed := mkView true None (Some Ellipse) None [] (store []) [] in
  let drawn :=
    snd (onDrawUp Ellipse 0 "1700000000004" (pointer 200 100) image
                  (mkDraw 0 0 (Some PreviewEllipse) true) armed) in
  length (hotspotsOf 0 drawn) = 1%nat
  /\ hotspotsOf 0 (edgeEditKeyHandler 0 (mkKey "Escape" false false) drawn) = [].
Proof.
  intros armed drawn.
  assert (Hbig : Rmax 0 (clamp (percentX (pointer 200 100) image))
                 - Rmin 0 (clamp (percentX (pointer 200 100) image)) >= 2
                 \/ Rmax 0 (clamp (percentY (pointer 200 100) image))
                    - Rmin 0 (clamp (percentY (pointer 200 100) image)) >= 2)
    by (left; rcalc).
  destruct (onDrawUp_outcome Ellipse 0 "1700000000004" (pointer 200 100) image
              (mkDraw 0 0 (Some PreviewEllipse) true) armed (roomA []) PreviewEllipse
              eq_refl eq_refl eq_refl) as [_ Hnew].
  destruct (Hnew Hbig) as [Hhs _].
  destruct (creation_enters Ellipse 0 "1700000000004" (pointer 200 100) image
              (mkDraw 0 0 (Some PreviewEllipse) true) armed (roomA []) PreviewEllipse
              eq_refl eq_refl eq_refl Hbig) as (Hed & _ & Hpts).
  fold drawn in Hhs, Hed, Hpts.
  split; [now rewrite Hhs |].
  assert (HS : InSession 0 0 drawn).
  { unfold InSession. rewrite Hed, Hhs. repeat split. eexists. exact Hpts. }
  assert (Hprof : exists p, nth_error (profiles (settings drawn)) 0 = Some p).
  { unfold hotspotsOf in Hhs.
    destruct (nth_error (profiles (settings drawn)) 0) as [p|]; [now exists p |].
    discriminate Hhs. }
  destruct Hprof as [p Hprof].
  destruct (escape_deletes 0 0 drawn p HS Hprof) as (Hdel & _).
  rewrite Hdel, Hhs. reflexivity.
Qed.

(** ** The session through a gesture *)

Lemma findIndex_updateAt {A : Type} (pred : A -> bool) (f : A -> A) (l : list A) (i : nat) :
  (forall x, pred (f x) = pred x) ->
  findIndex pred (updateAt i f l) = findIndex pred l.
Proof.
  intros Hf. revert i.
  induction l as [|x t IH]; intros [|i]; simpl; auto.
  - now rewrite Hf.
  - now rewrite IH.
Qed.

Lemma hotspotsOf_setPointsOf (cur hi : nat) (pts : list Point) (v : LoomView) :
  hotspotsOf cur (setPointsOf cur hi pts v)
  = updateAt hi (Hotspot.setPoints pts) (hotspotsOf cur v).
Proof.
  unfold setPointsOf, hotspotsOf, setHotspotsOf; simpl.
  rewrite nth_error_updateAt_eq.
  destruct (nth_error (profiles (settings v)) cur); simpl; [reflexivity |].
  destruct hi; reflexivity.
Qed.

(** Writing the vertex list of the edited hotspot keeps the session. *)
Lemma setPointsOf_keeps_session (cur hi : nat) (pts : list Point) (v : LoomView) :
  InSession cur hi v -> InSession cur hi (setPointsOf cur hi pts v).
Proof.
  intros (Ht & Hf & old & Hp).
  destruct (pointsOf_inv _ _ _ _ Hp) as (h & Hh & _).
  split; [exact Ht | split].
  - rewrite hotspotsOf_setPointsOf.
    change (editingEdgesHotspotId (setPointsOf cur hi pts v))
      with (editingEdgesHotspotId v).
    rewrite findIndex_updateAt; [exact Hf | reflexivity].
  - exists pts. apply (pointsOf_setPointsOf cur hi pts v h Hh).
Qed.

Lemma renderRoom_keeps_session (cur hi : nat) (v : LoomView) :
  InSession cur hi v -> InSession cur hi (renderRoom v).
Proof.
  unfold InSession.
  now rewrite renderRoom_editing, renderRoom_hotspotsOf, renderRoom_pointsOf.
Qed.

Lemma gesture_keeps_session (cur hi : nat) (g : DragGesture) (v v' : LoomView) :
  InSession cur hi v ->
  runGesture cur hi g v = Some v' ->
  InSession cur hi v'.
Proof.
  intros HS Hrun.
  destruct HS as (Ht & Hf & pts & Hp).
  destruct (pointsOf_inv _ _ _ _ Hp) as (h & Hh & Hpts).
  assert (HS1 : InSession cur hi (setUndoStack (undoStack v ++ [snapshot pts]) v))
    by (split; [exact Ht | split; [exact Hf | now exists pts]]).
  destruct g as [idx moves | down rect moves]; cbn [runGesture] in Hrun.
  - unfold handle_onmousedown in Hrun. rewrite Hh in Hrun.
    cbn [option_map] in Hrun. rewrite Hpts in Hrun.
    injection Hrun as <-.
    unfold onHandleUp.
    assert (HSm : forall ms w, InSession cur hi w ->
              InSession cur hi
                (fold_left (fun v m => onHandleMove cur hi idx (fst m) (snd m) v) ms w)).
    { induction ms as [|m ms IH]; intros w Hw; cbn [fold_left]; [exact Hw |].
      apply IH.
      destruct Hw as (Ht' & Hf' & pts' & Hp').
      destruct (pointsOf_inv _ _ _ _ Hp') as (h' & Hh' & Hpts').
      unfold onHandleMove. rewrite Hh'. cbn [option_map]. rewrite Hpts'.
      apply setPointsOf_keeps_session.
      split; [exact Ht' | split; [exact Hf' | now exists pts']]. }
    exact (HSm moves _ HS1).
  - unfold shape_onmousedown in Hrun. rewrite Hh in Hrun.
    cbn [option_map] in Hrun. rewrite Hpts in Hrun.
    injection Hrun as <-.
    unfold onUp. apply renderRoom_keeps_session.
    assert (HSm : forall ms w, InSession cur hi w ->
              InSession cur hi
                (fold_left
                   (fun v m =>
                      onMove cur hi
                        (mkShapeDrag (clientX down) (clientY down) rect (snapshot pts)) m v)
                   ms w)).
    { induction ms as [|m ms IH]; intros w Hw; cbn [fold_left]; [exact Hw |].
      apply IH. unfold onMove. now apply setPointsOf_keeps_session. }
    exact (HSm moves _ HS1).
Qed.

(** After two drags, one undo request brings back the vertex list the
    session started with: the stack is [first; first; afterFirstDrag], the
    pop leaves [first; first], and the top of that is restored. *)
Remark undo_after_two_drags (cur hi : nat) (g1 g2 : DragGesture) (v : LoomView)
    (first : list Point) :
  InSession cur hi v ->
  pointsOf cur hi v = Some first ->
  undoStack v = [first] ->
  exists v2,
    runGestures cur hi [g1; g2] v = Some v2
    /\ undoStack (edgeEditKeyHandler cur ctrlZ v2) = [first; first]
    /\ pointsOf cur hi (edgeEditKeyHandler cur ctrlZ v2) = Some first.
Proof.
  intros HS Hp Hst.
  destruct (gesture_pushes_one cur hi g1 v first Hp) as (v1 & Hr1 & Hu1 & _ & pts1 & Hp1).
  destruct (gesture_pushes_one cur hi g2 v1 pts1 Hp1) as (v2 & Hr2 & Hu2 & _).
  exists v2.
  assert (HS2 : InSession cur hi v2).
  { apply (gesture_keeps_session cur hi g2 v1); [| exact Hr2].
    apply (gesture_keeps_session cur hi g1 v); assumption. }
  assert (Hstack : undoStack v2 = [first; first; pts1])
    by (rewrite Hu2, Hu1, Hst; reflexivity).
  split.
  - cbn [runGestures]. rewrite Hr1, Hr2. reflexivity.
  - destruct (undo_pops cur hi v2 HS2) as [Hu Hpts].
    + rewrite Hstack. simpl. lia.
    + rewrite Hu, Hpts, Hstack. split; reflexivity.
Qed.

(** * Further properties *)

(** ** The centroid as label anchor *)

Lemma total_bounds (xs : list R) (lo hi : R) :
  Forall (fun x => lo <= x <= hi) xs ->
  lo * INR (length xs) <= total xs <= hi * INR (length xs).
Proof.
  induction 1 as [|x t [Hlo Hhi] _ IH].
  - simpl. lra.
  - cbn [total length]. rewrite S_INR. lra.
Qed.

Lemma mean_bounds (x : R) (xs : list R) (lo hi : R) :
  Forall (fun y => lo <= y <= hi) (x :: xs) ->
  lo <= mean (x :: xs) <= hi.
Proof.
  intros H. pose proof (total_bounds _ _ _ H) as [Hl Hh].
  unfold mean.
  assert (Hn : 0 < INR (length (x :: xs))) by (apply lt_0_INR; simpl; lia).
  set (n := INR (length (x :: xs))) in *.
  set (t := total (x :: xs)) in *.
  assert (Hi : 0 < / n) by now apply Rinv_0_lt_compat.
  assert (E : n * / n = 1) by (apply Rinv_r; lra).
  assert (Hl' : lo * n * / n <= t * / n)
    by (apply Rmult_le_compat_r; lra).
  assert (Hh' : t * / n <= hi * n * / n)
    by (apply Rmult_le_compat_r; lra).
  rewrite Rmult_assoc, E in Hl'. rewrite Rmult_assoc, E in Hh'.
  unfold Rdiv. lra.
Qed.

Lemma centroid_cons (p : Point) (rest : list Point) :
  centroid (p :: rest) = (mean (map fst (p :: rest)), mean (map snd (p :: rest))).
Proof.
  unfold centroid, mean. rewrite sumX_total, sumY_total, !length_map. reflexivity.
Qed.

(** The centroid of a non-empty vertex list lies inside every axis-parallel
    box that holds all the vertices. *)
Theorem centroid_in_bounding_box (p : Point) (rest : list Point) (xlo xhi ylo yhi : R) :
  Forall (fun q => xlo <= fst q <= xhi /\ ylo <= snd q <= yhi) (p :: rest) ->
  xlo <= fst (centroid (p :: rest)) <= xhi
  /\ ylo <= snd (centroid (p :: rest)) <= yhi.
Proof.
  intros H. rewrite centroid_cons. cbn [fst snd].
  split.
  - cbn [map]. apply mean_bounds.
    change (fst p :: map fst rest) with (map fst (p :: rest)).
    apply Forall_map. eapply Forall_impl; [| exact H]. cbn beta. tauto.
  - cbn [map]. apply mean_bounds.
    change (snd p :: map snd rest) with (map snd (p :: rest)).
    apply Forall_map. eapply Forall_impl; [| exact H]. cbn beta. tauto.
Qed.

Lemma centroid_in_bounding_box_witness :
  10 <= fst (centroid deskPoints) <= 40 /\ 10 <= snd (centroid deskPoints) <= 40.
Proof.
  apply (centroid_in_bounding_box (10, 10) [(40, 10); (40, 40); (10, 40)] 10 40 10 40).
  repeat (apply Forall_cons; [cbn [fst snd]; lra |]). apply Forall_nil.
Defined.

Lemma total_shift (xs : list R) (d : R) :
  total (map (fun x => x + d) xs) = total xs + INR (length xs) * d.
Proof.
  induction xs as [|x t IH].
  - simpl. lra.
  - cbn [map total length]. rewrite IH, S_INR. lra.
Qed.

(** Moving every vertex by the same offset moves the centroid by that
    offset: the label follows a whole-shape drag. *)
Theorem centroid_translate (p : Point) (rest : list Point) (dx dy : R) :
  centroid (map (fun q => (fst q + dx, snd q + dy)) (p :: rest))
  = (fst (centroid (p :: rest)) + dx, snd (centroid (p :: rest)) + dy).
Proof.
  pose (f := fun q : Point => (fst q + dx, snd q + dy)).
  assert (Hx : map fst (map f (p :: rest)) = map (fun x => x + dx) (map fst (p :: rest)))
    by (rewrite !map_map; reflexivity).
  assert (Hy : map snd (map f (p :: rest)) = map (fun y => y + dy) (map snd (p :: rest)))
    by (rewrite !map_map; reflexivity).
  assert (Hn : INR (length (p :: rest)) <> 0)
    by (apply not_0_INR; simpl; lia).
  change (centroid (map f (p :: rest))
          = (fst (centroid (p :: rest)) + dx, snd (centroid (p :: rest)) + dy)).
  change (map f (p :: rest)) with (f p :: map f rest) at 1.
  rewrite !centroid_cons.
  change (f p :: map f rest) with (map f (p :: rest)).
  cbn [fst snd].
  unfold mean. rewrite Hx, Hy, !total_shift, !length_map.
  apply f_equal2; field; exact Hn.
Qed.

(** The centroid of a fresh rectangle or ellipse is the center of the drag
    rectangle; the centroid of a fresh triangle is at half the width and two
    thirds of the height. *)
Theorem centroid_of_seed (minX minY maxX maxY : R) :
  centroid (seedPoints Rect minX minY maxX maxY)
  = ((minX + maxX) / 2, (minY + maxY) / 2)
  /\ centroid (seedPoints Ellipse minX minY maxX maxY)
     = ((minX + maxX) / 2, (minY + maxY) / 2)
  /\ centroid (seedPoints Triangle minX minY maxX maxY)
     = ((minX + maxX) / 2, minY + 2 * (maxY - minY) / 3).
Proof.
  split; [| split].
  - unfold seedPoints, centroid, sumX, sumY. cbn.
    apply f_equal2; lra.
  - unfold seedPoints, ellipsePoints, centroid, sumX, sumY.
    change (seq 0 segments) with [0; 1; 2; 3; 4; 5; 6; 7]%nat.
    cbn [map length Nat.eqb fold_left fst snd]. rewrite INR_segments.
    replace (2 * PI * INR 4 / 8) with (2 * PI * INR 0 / 8 + PI) by (simpl; lra).
    replace (2 * PI * INR 5 / 8) with (2 * PI * INR 1 / 8 + PI) by (simpl; lra).
    replace (2 * PI * INR 6 / 8) with (2 * PI * INR 2 / 8 + PI) by (simpl; lra).
    replace (2 * PI * INR 7 / 8) with (2 * PI * INR 3 / 8 + PI) by (simpl; lra).
    rewrite !neg_cos, !neg_sin.
    replace (INR 8) with 8 by (simpl; lra).
    apply f_equal2; lra.
  - unfold seedPoints, centroid, sumX, sumY. cbn.
    apply f_equal2; lra.
Qed.

(** ** Seeds and their drag rectangle *)

Lemma seedPoints_in_rectangle (shapeType : ShapeType) (minX minY maxX maxY : R) :
  minX <= maxX -> minY <= maxY ->
  Forall (fun p => minX <= fst p <= maxX /\ minY <= snd p <= maxY)
         (seedPoints shapeType minX minY maxX maxY).
Proof.
  intros Hx Hy.
  destruct shapeType; unfold seedPoints.
  - repeat (apply Forall_cons; [cbn [fst snd]; lra |]). apply Forall_nil.
  - unfold ellipsePoints. apply Forall_forall. intros p Hin.
    apply in_map_iff in Hin. destruct Hin as (i & <- & _).
    pose proof (COS_bound (2 * PI * INR i / INR segments)) as Hc.
    pose proof (SIN_bound (2 * PI * INR i / INR segments)) as Hs.
    cbn [fst snd]. repeat split; nra.
  - repeat (apply Forall_cons; [cbn [fst snd]; lra |]). apply Forall_nil.
Qed.

(** Every vertex of a seed, whatever the shape and the direction of the
    drag, lies inside the drag rectangle. *)
Theorem seed_inside_drag_rectangle (shapeType : ShapeType) (sx sy ex ey : R) :
  Forall (fun p => Rmin sx ex <= fst p <= Rmax sx ex
                   /\ Rmin sy ey <= snd p <= Rmax sy ey)
         (seedOfDrag shapeType sx sy ex ey).
Proof.
  unfold seedOfDrag, dragRect.
  apply seedPoints_in_rectangle.
  - apply Rle_trans with sx; [apply Rmin_l | apply Rmax_l].
  - apply Rle_trans with sy; [apply Rmin_l | apply Rmax_l].
Qed.

(** The ellipse seed touches the four sides of its rectangle at their
    middles: vertex 0 on the right side, vertex 2 on the bottom side,
    vertex 4 on the left side, vertex 6 on the top side. *)
Theorem ellipse_seed_touches_sides (minX minY maxX maxY : R) :
  let seed := seedPoints Ellipse minX minY maxX maxY in
  nth 0 seed (0, 0) = (maxX, (minY + maxY) / 2)
  /\ nth 2 seed (0, 0) = ((minX + maxX) / 2, maxY)
  /\ nth 4 seed (0, 0) = (minX, (minY + maxY) / 2)
  /\ nth 6 seed (0, 0) = ((minX + maxX) / 2, minY).
Proof.
  intros seed. unfold seed, seedPoints, ellipsePoints.
  change (seq 0 segments) with [0; 1; 2; 3; 4; 5; 6; 7]%nat.
  cbn [map nth]. rewrite INR_segments.
  replace (2 * PI * INR 0 / 8) with 0 by (simpl; lra).
  replace (2 * PI * INR 2 / 8) with (PI / 2) by (simpl; lra).
  replace (2 * PI * INR 4 / 8) with PI by (simpl; lra).
  replace (2 * PI * INR 6 / 8) with (3 * (PI / 2)) by (simpl; lra).
  rewrite cos_0, sin_0, cos_PI2, sin_PI2, cos_PI, sin_PI, cos_3PI2, sin_3PI2.
  repeat split; apply f_equal2; lra.
Qed.

(** ** The smooth path through the vertices *)

Lemma combine_map_same {A B C : Type} (g : A -> B) (h : A -> C) (l : list A) :
  combine (map g l) (map h l) = map (fun x => (g x, h x)) l.
Proof. induction l as [|x t IH]; simpl; [reflexivity | now rewrite IH]. Qed.

Lemma rotate_by_index (p : Point) (rest : list Point) :
  rest ++ [p]
  = map (fun i => at_ (p :: rest) ((i + 1) mod length (p :: rest)))
        (seq 0 (length (p :: rest))).
Proof.
  apply nth_ext with (d := (0, 0)) (d' := at_ (p :: rest) ((0 + 1) mod length (p :: rest))).
  - rewrite length_map, length_seq, length_app. simpl. lia.
  - intros i Hi. rewrite length_app in Hi. cbn [length] in Hi.
    assert (Hi' : (i < length (p :: rest))%nat) by (simpl; lia).
    rewrite (map_nth (fun i => at_ (p :: rest) ((i + 1) mod length (p :: rest)))).
    rewrite seq_nth by exact Hi'. cbn [Nat.add].
    unfold at_.
    destruct (Nat.eq_dec (i + 1) (length (p :: rest))) as [E | E].
    + rewrite E, Nat.Div0.mod_same. cbn [nth].
      rewrite app_nth2 by (simpl in E; lia).
      replace (i - length rest)%nat with 0%nat by (simpl in E; lia).
      reflexivity.
    + rewrite Nat.mod_small by lia.
      replace (i + 1)%nat with (S i) by lia. cbn [nth].
      apply app_nth1. simpl in E. lia.
Qed.

(** With three vertices or more the path is the move to the first vertex,
    one cubic segment per vertex, and the close command; the segments end
    at the second vertex, the third, ..., the last and the first, in this
    order: the curve passes through every vertex. *)
Theorem smooth_path_passes_through_vertices (p q r : Point) (more : list Point) :
  let pts := p :: q :: r :: more in
  exists controls : list (Point * Point),
    length controls = length pts
    /\ pathCommands pts
       = MoveTo p
           :: map (fun ce => CurveTo (fst (fst ce)) (snd (fst ce)) (snd ce))
                  (combine controls (q :: r :: more ++ [p]))
           ++ [ClosePath].
Proof.
  intros pts.
  set (n := length pts).
  exists (map (fun i =>
            ((fst (at_ pts i) + (fst (at_ pts ((i + 1) mod n))
                                 - fst (at_ pts ((i + n - 1) mod n))) * tension,
              snd (at_ pts i) + (snd (at_ pts ((i + 1) mod n))
                                 - snd (at_ pts ((i + n - 1) mod n))) * tension),
             (fst (at_ pts ((i + 1) mod n))
                - (fst (at_ pts ((i + 2) mod n)) - fst (at_ pts i)) * tension,
              snd (at_ pts ((i + 1) mod n))
                - (snd (at_ pts ((i + 2) mod n)) - snd (at_ pts i)) * tension)))
          (seq 0 n)).
  split; [now rewrite length_map, length_seq |].
  change (q :: r :: more ++ [p]) with ((q :: r :: more) ++ [p]).
  rewrite (rotate_by_index p (q :: r :: more)). fold pts. fold n.
  rewrite combine_map_same, map_map.
  unfold pathCommands. fold pts. fold n.
  replace (Nat.ltb n 3) with false by reflexivity.
  unfold at_ at 1 2. cbn [nth pts].
  destruct p as [px py]. cbn [fst snd].
  f_equal. f_equal.
  apply map_ext. intros i. unfold curveCmd. cbn [fst snd].
  f_equal. symmetry. apply surjective_pairing.
Qed.

Lemma nth_pathCommands (pts : list Point) (i : nat) :
  (3 <= length pts)%nat ->
  (i < length pts)%nat ->
  nth (S i) (pathCommands pts) ClosePath = curveCmd pts (length pts) i.
Proof.
  intros Hn Hi. unfold pathCommands.
  replace (Nat.ltb (length pts) 3) with false by (symmetry; apply Nat.ltb_ge; exact Hn).
  cbn [nth].
  rewrite app_nth1 by (rewrite length_map, length_seq; exact Hi).
  rewrite (nth_indep _ ClosePath (curveCmd pts (length pts) 0))
    by (rewrite length_map, length_seq; exact Hi).
  rewrite (map_nth (curveCmd pts (length pts))).
  now rewrite seq_nth.
Qed.

Lemma next_index_prev (n i : nat) :
  (i < n)%nat -> (((i + 1) mod n + n - 1) mod n = i)%nat.
Proof.
  intros Hi.
  destruct (Nat.eq_dec (i + 1) n) as [E | E].
  - rewrite E, Nat.Div0.mod_same. cbn [Nat.add].
    rewrite Nat.mod_small by lia. lia.
  - rewrite (Nat.mod_small (i + 1)) by lia.
    replace (i + 1 + n - 1)%nat with (i + 1 * n)%nat by lia.
    rewrite Nat.Div0.mod_add. apply Nat.mod_small. exact Hi.
Qed.

Lemma next_index_next (n i : nat) :
  (3 <= n)%nat -> (i < n)%nat -> (((i + 1) mod n + 1) mod n = (i + 2) mod n)%nat.
Proof.
  intros Hn Hi.
  destruct (Nat.eq_dec (i + 1) n) as [E | E].
  - rewrite E, Nat.Div0.mod_same. cbn [Nat.add].
    replace (i + 2)%nat with (1 + 1 * n)%nat by lia.
    now rewrite Nat.Div0.mod_add.
  - rewrite (Nat.mod_small (i + 1)) by lia.
    f_equal. lia.
Qed.

(** The curve has no corner at a vertex whose two neighbours differ.  At
    the vertex where segment [i] ends and the next segment (cyclically)
    starts, the last control point of the one is the vertex minus 0.35
    times the step from the vertex before to the vertex after, and the
    first control point of the other is the vertex plus 0.35 times that
    step.  So the curve arrives at the vertex and leaves it with the same
    velocity, three times 0.35 times the step between the neighbours, which
    is not zero when the two neighbours differ: then neither control point
    is the vertex itself. *)
Theorem smooth_path_has_no_corner (pts : list Point) (i : nat) :
  (3 <= length pts)%nat ->
  (i < length pts)%nat ->
  let next := ((i + 1) mod length pts)%nat in
  let before := nth i pts (0, 0) in
  let vertex := nth next pts (0, 0) in
  let after := nth ((i + 2) mod length pts) pts (0, 0) in
  exists c1 c2 c1' c2' e' : Point,
    nth (S i) (pathCommands pts) ClosePath = CurveTo c1 c2 vertex
    /\ nth (S next) (pathCommands pts) ClosePath = CurveTo c1' c2' e'
    /\ fst vertex - fst c2 = 35 / 100 * (fst after - fst before)
    /\ snd vertex - snd c2 = 35 / 100 * (snd after - snd before)
    /\ fst c1' - fst vertex = 35 / 100 * (fst after - fst before)
    /\ snd c1' - snd vertex = 35 / 100 * (snd after - snd before)
    /\ (after <> before -> c2 <> vertex /\ c1' <> vertex).
Proof.
  intros Hn Hi next before vertex after.
  assert (Hnext : (next < length pts)%nat) by (apply Nat.mod_upper_bound; lia).
  rewrite (nth_pathCommands pts i Hn Hi), (nth_pathCommands pts next Hn Hnext).
  subst next. unfold curveCmd.
  rewrite (next_index_prev (length pts) i Hi).
  rewrite (next_index_next (length pts) i Hn Hi).
  unfold at_. fold before. fold after.
  change (nth ((i + 1) mod length pts) pts (0, 0)) with vertex.
  do 5 eexists.
  split; [f_equal; symmetry; apply surjective_pairing |].
  split; [reflexivity |].
  cbn [fst snd]. unfold tension.
  do 4 (split; [lra |]).
  intros Hdiff.
  assert (Hstep : fst after - fst before <> 0 \/ snd after - snd before <> 0).
  { destruct (Req_dec (fst after) (fst before)) as [Ex | Ex]; [| left; lra].
    destruct (Req_dec (snd after) (snd before)) as [Ey | Ey]; [| right; lra].
    exfalso. apply Hdiff.
    rewrite (surjective_pairing after), (surjective_pairing before).
    now rewrite Ex, Ey. }
  split; intros Heq;
    pose proof (f_equal fst Heq) as Hx; pose proof (f_equal snd Heq) as Hy;
    cbn [fst snd] in Hx, Hy; destruct Hstep; lra.
Qed.

Lemma smooth_path_has_no_corner_witness :
  exists c1 c2 c1' c2' e' : Point,
    nth 4 (pathCommands deskPoints) ClosePath = CurveTo c1 c2 (10, 10)
    /\ nth 1 (pathCommands deskPoints) ClosePath = CurveTo c1' c2' e'
    /\ c2 <> (10, 10) /\ c1' <> (10, 10).
Proof.
  destruct (smooth_path_has_no_corner deskPoints 3)
    as (c1 & c2 & c1' & c2' & e' & H1 & H2 & _ & _ & _ & _ & H3);
    [simpl; lia | simpl; lia |].
  exists c1, c2, c1', c2', e'.
  split; [exact H1 |]. split; [exact H2 |].
  apply H3. cbn. intros H. apply (f_equal fst) in H. cbn in H. lra.
Defined.

(** ** Vertices stay inside the image *)

(** Every vertex of every hotspot of a list that has a vertex list is
    inside the image. *)
Lemma allInRange_app (hs : list Hotspot.t) (h : Hotspot.t) :
  Forall (fun x => forall pts, Hotspot.points x = Some pts -> Forall pointInRange pts) hs ->
  (forall pts, Hotspot.points h = Some pts -> Forall pointInRange pts) ->
  Forall (fun x => forall pts, Hotspot.points x = Some pts -> Forall pointInRange pts)
         (hs ++ [h]).
Proof.
  intros Hhs Hh. apply Forall_app. split; [exact Hhs |].
  apply Forall_cons; [exact Hh | apply Forall_nil].
Qed.

(** Drawing keeps the vertices of a profile inside the image: when the
    image has a positive size and the press was accepted, the release,
    wherever the pointer is then, leaves every vertex of every hotspot of
    the profile in [0,100], the new hotspot included, for each of the three
    shapes. *)
Theorem drawing_keeps_vertices_in_range
    (shapeType : ShapeType) (cur : nat) (now : string) (down up : MouseEvent)
    (downRect upRect : DOMRect) (ds0 : DrawState) (v : LoomView) (profile : Profile.t) :
  nth_error (profiles (settings v)) cur = Some profile ->
  0 < width downRect ->
  0 < height downRect ->
  button down = 0%nat ->
  left downRect <= clientX down <= right downRect ->
  top downRect <= clientY down <= bottom downRect ->
  Forall (fun h => forall pts, Hotspot.points h = Some pts -> Forall pointInRange pts)
         (hotspotsOf cur v) ->
  let ds := imageContainer_onmousedown shapeType down downRect ds0 in
  Forall (fun h => forall pts, Hotspot.points h = Some pts -> Forall pointInRange pts)
         (hotspotsOf cur (snd (onDrawUp shapeType cur now up upRect ds v))).
Proof.
  intros Hp Hw Hh Hb Hx Hy Hall ds.
  destruct (draw_start_in_range shapeType down downRect ds0 Hw Hh Hb Hx Hy) as [Hsx Hsy].
  fold ds in Hsx, Hsy.
  assert (Hds : isDragging ds = true /\ previewShape ds = Some (previewFor shapeType)).
  { unfold ds. rewrite (mousedown_starts_drag shapeType down downRect ds0 Hb Hx Hy).
    split; reflexivity. }
  destruct Hds as [Hd Hs].
  destruct (onDrawUp_outcome shapeType cur now up upRect ds v profile
              (previewFor shapeType) Hp Hd Hs) as [Hsmall Hbig].
  set (w := Rmax (drawStartX ds) (clamp (percentX up upRect))
            - Rmin (drawStartX ds) (clamp (percentX up upRect))) in *.
  set (h := Rmax (drawStartY ds) (clamp (percentY up upRect))
            - Rmin (drawStartY ds) (clamp (percentY up upRect))) in *.
  destruct (Rlt_dec w 2) as [Hw2 | Hw2]; [destruct (Rlt_dec h 2) as [Hh2 | Hh2] |].
  - rewrite (Hsmall (conj Hw2 Hh2)). exact Hall.
  - destruct (Hbig (or_intror (Rnot_lt_ge _ _ Hh2))) as [E _]. rewrite E.
    apply allInRange_app; [exact Hall |].
    intros pts Hpts. injection Hpts as <-.
    apply seedOfDrag_in_range; try assumption; apply clamp_inRange.
  - destruct (Hbig (or_introl (Rnot_lt_ge _ _ Hw2))) as [E _]. rewrite E.
    apply allInRange_app; [exact Hall |].
    intros pts Hpts. injection Hpts as <-.
    apply seedOfDrag_in_range; try assumption; apply clamp_inRange.
Qed.

Lemma drawing_keeps_vertices_in_range_witness :
  Forall (fun h => forall pts, Hotspot.points h = Some pts -> Forall pointInRange pts)
         (hotspotsOf 0
            (snd (onDrawUp Ellipse 0 "1700000000005" (pointer 1500 (-20)) image
                           (imageContainer_onmousedown Ellipse (pointer 100 100) image
                                                       drawIdle)
                           drawing))).
Proof.
  apply (drawing_keeps_vertices_in_range Ellipse 0 "1700000000005" (pointer 100 100)
           (pointer 1500 (-20)) image image drawIdle drawing (roomA []) eq_refl).
  - simpl. lra.
  - simpl. lra.
  - reflexivity.
  - unfold right. simpl. lra.
  - unfold bottom. simpl. lra.
  - apply Forall_nil.
Defined.

Lemma nth_updateAt_eq {A : Type} (f : A -> A) (l : list A) (i : nat) (d : A) :
  (i < length l)%nat -> nth i (updateAt i f l) d = f (nth i l d).
Proof.
  revert i. induction l as [|x t IH]; intros [|i] H; simpl in *; try lia; auto.
  apply IH. lia.
Qed.

Lemma nth_updateAt_ne {A : Type} (f : A -> A) (l : list A) (i j : nat) (d : A) :
  i <> j -> nth j (updateAt i f l) d = nth j l d.
Proof.
  revert i j. induction l as [|x t IH]; intros [|i] [|j] H; simpl; auto.
  contradiction.
Qed.

(** A move of a vertex drag puts the dragged vertex at the pointer,
    clamped to the image, and touches no other vertex: the vertex list
    keeps its length, every other vertex stays where it was, and a vertex
    list inside [0,100] stays inside. *)
Theorem vertex_drag_moves_one_vertex (cur hi idx : nat) (evt : MouseEvent)
    (rect : DOMRect) (v : LoomView) (pts : list Point) :
  pointsOf cur hi v = Some pts ->
  (idx < length pts)%nat ->
  exists pts',
    pointsOf cur hi (onHandleMove cur hi idx evt rect v) = Some pts'
    /\ length pts' = length pts
    /\ nth idx pts' (0, 0) = (clamp (percentX evt rect), clamp (percentY evt rect))
    /\ pointInRange (nth idx pts' (0, 0))
    /\ (forall j, j <> idx -> nth j pts' (0, 0) = nth j pts (0, 0))
    /\ (Forall pointInRange pts -> Forall pointInRange pts').
Proof.
  intros Hp Hidx.
  destruct (pointsOf_inv _ _ _ _ Hp) as (h & Hh & Hpts).
  unfold onHandleMove. rewrite Hh. cbn [option_map]. rewrite Hpts.
  eexists. split; [apply (pointsOf_setPointsOf cur hi _ v h Hh) |].
  unfold assignAt.
  split; [apply length_updateAt |].
  split; [now rewrite nth_updateAt_eq |].
  split; [rewrite nth_updateAt_eq by exact Hidx; split; apply clamp_inRange |].
  split.
  - intros j Hj. apply nth_updateAt_ne. auto.
  - intros Hall. apply Forall_updateAt; [| exact Hall].
    intros _ _. split; apply clamp_inRange.
Qed.

Lemma vertex_drag_moves_one_vertex_witness :
  exists pts',
    pointsOf 0 0 (onHandleMove 0 0 2 (pointer 5000 500) image edgeEditing) = Some pts'
    /\ length pts' = 4%nat
    /\ nth 2 pts' (0, 0)
       = (clamp (percentX (pointer 5000 500) image),
          clamp (percentY (pointer 5000 500) image))
    /\ pointInRange (nth 2 pts' (0, 0))
    /\ (forall j, j <> 2%nat -> nth j pts' (0, 0) = nth j deskPoints (0, 0))
    /\ (Forall pointInRange deskPoints -> Forall pointInRange pts').
Proof.
  apply (vertex_drag_moves_one_vertex 0 0 2 (pointer 5000 500) image edgeEditing
           deskPoints eq_refl).
  simpl. lia.
Defined.

(** ** The whole-shape drag *)

Lemma getHotspot_setPointsOf (cur hi : nat) (pts : list Point) (v : LoomView)
    (h : Hotspot.t) :
  getHotspot cur hi v = Some h ->
  getHotspot cur hi (setPointsOf cur hi pts v) = Some (Hotspot.setPoints pts h).
Proof.
  intros H. unfold getHotspot in *.
  rewrite hotspotsOf_setPointsOf, nth_error_updateAt_eq, H. reflexivity.
Qed.

Lemma shape_moves_keep_hotspot (cur hi : nat) (sd : ShapeDrag) (moves : list MouseEvent)
    (v : LoomView) (h : Hotspot.t) :
  getHotspot cur hi v = Some h ->
  exists h', getHotspot cur hi (fold_left (fun v m => onMove cur hi sd m v) moves v)
             = Some h'.
Proof.
  revert v h. induction moves as [|m moves IH]; intros v h Hh; cbn [fold_left].
  - now exists h.
  - apply (IH _ (Hotspot.setPoints
                   (map (fun p : Point =>
                           (fst p + (clientX m - startX sd) / width (dragImgRect sd) * 100,
                            snd p + (clientY m - startY sd) / height (dragImgRect sd) * 100))
                        (origPts sd)) h)).
    unfold onMove. now apply getHotspot_setPointsOf.
Qed.

(** During a whole-shape drag the shape follows the pointer: after the
    press and any moves, the vertex list is the vertex list at the press,
    every vertex shifted by the offset of the last move from the press (in
    percent of the image as it was at the press), whatever the moves before
    it were.  A last move back at the place of the press gives the vertex
    list at the press again. *)
Theorem whole_shape_drag_follows_pointer (cur hi : nat) (down last : MouseEvent)
    (rect : DOMRect) (moves : list MouseEvent) (v : LoomView) (pts : list Point) :
  pointsOf cur hi v = Some pts ->
  exists v',
    runGesture cur hi (WholeShapeDrag down rect (moves ++ [last])) v = Some v'
    /\ pointsOf cur hi v'
       = Some (map (fun p => (fst p + (clientX last - clientX down) / width rect * 100,
                              snd p + (clientY last - clientY down) / height rect * 100))
                   pts)
    /\ (clientX last = clientX down -> clientY last = clientY down ->
        pointsOf cur hi v' = Some pts).
Proof.
  intros Hp.
  destruct (pointsOf_inv _ _ _ _ Hp) as (h & Hh & Hpts).
  cbn [runGesture]. unfold shape_onmousedown. rewrite Hh. cbn [option_map]. rewrite Hpts.
  eexists. split; [reflexivity |].
  unfold onUp. rewrite renderRoom_pointsOf.
  change (pointsOf cur hi (saveSettings ?x)) with (pointsOf cur hi x).
  rewrite fold_left_app. cbn [fold_left].
  set (sd := mkShapeDrag (clientX down) (clientY down) rect (snapshot pts)).
  destruct (shape_moves_keep_hotspot cur hi sd moves
              (setUndoStack (undoStack v ++ [snapshot pts]) v) h Hh) as [h' Hh'].
  assert (E : pointsOf cur hi
                (onMove cur hi sd last
                   (fold_left (fun v m => onMove cur hi sd m v) moves
                              (setUndoStack (undoStack v ++ [snapshot pts]) v)))
              = Some (map (fun p : Point =>
                             (fst p + (clientX last - clientX down) / width rect * 100,
                              snd p + (clientY last - clientY down) / height rect * 100))
                          pts)).
  { unfold onMove at 1.
    rewrite (pointsOf_setPointsOf cur hi _ _ h' Hh').
    unfold sd. cbn [startX startY dragImgRect origPts]. now rewrite snapshot_id. }
  split; [exact E |].
  intros Ex Ey. rewrite E, Ex, Ey.
  rewrite <- (map_id pts) at 2. apply f_equal. apply map_ext.
  intros [x y]. cbn [fst snd]. apply f_equal2; unfold Rdiv; ring.
Qed.

Lemma whole_shape_drag_follows_pointer_witness :
  exists v',
    runGesture 0 0 (WholeShapeDrag (pointer 200 200) image
                                   ([pointer 900 900] ++ [pointer 200 200]))
               edgeEditing = Some v'
    /\ pointsOf 0 0 v'
       = Some (map (fun p => (fst p + (200 - 200) / 1000 * 100,
                              snd p + (200 - 200) / 1000 * 100))
                   deskPoints)
    /\ (200 = 200 -> 200 = 200 -> pointsOf 0 0 v' = Some deskPoints).
Proof.
  exact (whole_shape_drag_follows_pointer 0 0 (pointer 200 200) (pointer 200 200) image
           [pointer 900 900] edgeEditing deskPoints eq_refl).
Defined.

(** ** What a drag gesture leaves alone *)


















(** ** Repeated undo *)

Lemma undo_keeps_session (cur hi : nat) (v : LoomView) :
  InSession cur hi v -> InSession cur hi (edgeEditKeyHandler cur ctrlZ v).
Proof.
  intros HS. rewrite (undo_handler_in_session cur hi v HS).
  destruct (Nat.ltb 1 (length (undoStack v))).
  - change (InSession cur hi
              (renderRoom
                 (setPointsOf cur hi (snapshot (last (removelast (undoStack v)) []))
                              (setUndoStack (removelast (undoStack v)) v)))).
    apply renderRoom_keeps_session.
    apply (setPointsOf_keeps_session cur hi _
             (setUndoStack (removelast (undoStack v)) v)).
    destruct HS as (Ht & Hf & Hp).
    split; [exact Ht | split; [exact Hf | exact Hp]].
  - destruct HS as (Ht & Hf & Hp).
    split; [exact Ht | split; [exact Hf | exact Hp]].
Qed.





(** ** Deleting and abandoning a shape *)

Lemma findIndex_Some {A : Type} (pred : A -> bool) (l : list A) (i : nat) :
  findIndex pred l = Some i ->
  exists x, nth_error l i = Some x /\ pred x = true
            /\ forall j y, (j < i)%nat -> nth_error l j = Some y -> pred y = false.
Proof.
  revert i. induction l as [|x t IH]; intros i H; simpl in H; [discriminate |].
  destruct (pred x) eqn:Hx.
  - injection H as <-. exists x. repeat split; auto. intros j y Hj. lia.
  - destruct (findIndex pred t) as [k|] eqn:Hk; [| discriminate].
    injection H as <-.
    destruct (IH k eq_refl) as (y & Hy & Hpy & Hfirst).
    exists y. repeat split; auto.
    intros [|j] z Hj Hz; simpl in Hz.
    + now injection Hz as <-.
    + apply (Hfirst j z); [lia | exact Hz].
Qed.

Lemma findIndex_app_fresh {A : Type} (pred : A -> bool) (l : list A) (y : A) :
  Forall (fun x => pred x = false) l ->
  pred y = true ->
  findIndex pred (l ++ [y]) = Some (length l).
Proof.
  intros Hl Hy. induction Hl as [|x t Hx _ IH]; simpl.
  - now rewrite Hy.
  - now rewrite Hx, IH.
Qed.

Lemma removeAt_app_last {A : Type} (l : list A) (y : A) :
  removeAt (length l) (l ++ [y]) = l.
Proof. induction l as [|x t IH]; simpl; [reflexivity | now rewrite IH]. Qed.

Lemma session_names_hotspot (cur hi : nat) (v : LoomView) :
  InSession cur hi v ->
  exists h p,
    getHotspot cur hi v = Some h
    /\ editingEdgesHotspotId v = Some (Hotspot.id h)
    /\ nth_error (profiles (settings v)) cur = Some p.
Proof.
  intros (Ht & Hf & pts & Hp).
  destruct (pointsOf_inv _ _ _ _ Hp) as (h & Hh & _).
  destruct (findIndex_Some _ _ _ Hf) as (x & Hx & Hid & _).
  unfold getHotspot in Hh. rewrite Hx in Hh. injection Hh as ->.
  destruct (editingEdgesHotspotId v) as [s|] eqn:Es; [| discriminate Ht].
  cbn [hasId] in Hid. apply String.eqb_eq in Hid.
  unfold hotspotsOf in Hx.
  destruct (nth_error (profiles (settings v)) cur) as [p|] eqn:Ep.
  - exists h, p. repeat split; [unfold getHotspot, hotspotsOf; now rewrite Ep | now rewrite Hid].
  - destruct hi; discriminate Hx.
Qed.

(** What Escape and the cancel button do in a session. *)
Lemma escape_cancel_in_session (cur hi : nat) (ctrl meta : bool) (v : LoomView) :
  InSession cur hi v ->
  edgeEditKeyHandler cur (mkKey "Escape" ctrl meta) v = cancelBtn_onclick cur hi v
  /\ hotspotsOf cur (cancelBtn_onclick cur hi v) = removeAt hi (hotspotsOf cur v)
  /\ editingEdgesHotspotId (cancelBtn_onclick cur hi v) = None
  /\ selectedHotspotId (cancelBtn_onclick cur hi v) = None
  /\ undoStack (cancelBtn_onclick cur hi v) = [].
Proof.
  intros HS.
  destruct (session_names_hotspot cur hi v HS) as (h & p & Hh & Hed & Hprof).
  destruct HS as (Ht & Hf & pts & Hp).
  destruct (pointsOf_inv _ _ _ _ Hp) as (h' & Hh' & Hpts).
  rewrite Hh in Hh'. injection Hh' as <-.
  assert (E : edgeEditKeyHandler cur (mkKey "Escape" ctrl meta) v
              = cancelBtn_onclick cur hi v).
  { unfold edgeEditKeyHandler, cancelBtn_onclick.
    rewrite Ht, Hf, Hh. cbn [negb option_map]. rewrite Hpts.
    cbn [key String.eqb Ascii.eqb Bool.eqb andb].
    now rewrite Hed. }
  split; [exact E |].
  unfold cancelBtn_onclick. rewrite Hh.
  unfold notice, saveSettings.
  split; [| split; [| split]].
  - rewrite hotspotsOf_emit, renderRoom_hotspotsOf, hotspotsOf_emit.
    change (hotspotsOf cur (setHotspotsOf cur (deleteById (Some (Hotspot.id h))) v)
            = removeAt hi (hotspotsOf cur v)).
    rewrite (hotspotsOf_setHotspotsOf _ _ _ p Hprof).
    unfold deleteById. rewrite <- Hed, Hf. reflexivity.
  - cbn [emit editingEdgesHotspotId]. now rewrite renderRoom_editing.
  - cbn [emit selectedHotspotId]. now rewrite renderRoom_selected.
  - cbn [emit undoStack]. now rewrite renderRoom_undoStack.
Qed.

(** In an edge-editing session the Escape key and the cancel button do the
    same: the edited hotspot, and no other, is taken out of the hotspot
    list of its profile, the session ends with an empty undo stack and no
    selection, the store is saved, the room is rendered and the notice
    "Shape deleted" is shown. *)
Theorem escape_is_cancel (cur hi : nat) (ctrl meta : bool) (v : LoomView) :
  InSession cur hi v ->
  edgeEditKeyHandler cur (mkKey "Escape" ctrl meta) v = cancelBtn_onclick cur hi v
  /\ hotspotsOf cur (cancelBtn_onclick cur hi v) = removeAt hi (hotspotsOf cur v)
  /\ editingEdgesHotspotId (cancelBtn_onclick cur hi v) = None
  /\ selectedHotspotId (cancelBtn_onclick cur hi v) = None
  /\ undoStack (cancelBtn_onclick cur hi v) = [].
Proof. exact (escape_cancel_in_session cur hi ctrl meta v). Qed.

Lemma escape_is_cancel_witness :
  edgeEditKeyHandler 0 (mkKey "Escape" false false) edgeEditing
  = cancelBtn_onclick 0 0 edgeEditing
  /\ hotspotsOf 0 (cancelBtn_onclick 0 0 edgeEditing) = []
  /\ editingEdgesHotspotId (cancelBtn_onclick 0 0 edgeEditing) = None
  /\ selectedHotspotId (cancelBtn_onclick 0 0 edgeEditing) = None
  /\ undoStack (cancelBtn_onclick 0 0 edgeEditing) = [].
Proof.
  exact (escape_is_cancel 0 0 false false edgeEditing edgeEditing_in_session).
Defined.

(** ** After a shape was drawn *)

Section AfterDrawing.

Variables (shapeType : ShapeType) (cur : nat) (now : string) (e : MouseEvent).
Variables (imgRect : DOMRect) (ds : DrawState) (v : LoomView).
Variables (profile : Profile.t) (preview : PreviewEl).

Hypothesis Hprofile : nth_error (profiles (settings v)) cur = Some profile.
Hypothesis Hdragging : isDragging ds = true.
Hypothesis Hpreview : previewShape ds = Some preview.
Hypothesis Hbig :
  Rmax (drawStartX ds) (clamp (percentX e imgRect))
    - Rmin (drawStartX ds) (clamp (percentX e imgRect)) >= 2
  \/ Rmax (drawStartY ds) (clamp (percentY e imgRect))
       - Rmin (drawStartY ds) (clamp (percentY e imgRect)) >= 2.

Let drawn : LoomView := snd (onDrawUp shapeType cur now e imgRect ds v).

Let seed : list Point :=
  seedOfDrag shapeType (drawStartX ds) (drawStartY ds)
             (clamp (percentX e imgRect)) (clamp (percentY e imgRect)).

Let fresh : Hotspot.t := newHotspot now seed shapeType.

Let hi : nat := length (hotspotsOf cur v).

Lemma drawn_hotspots : hotspotsOf cur drawn = hotspotsOf cur v ++ [fresh].
Proof.
  destruct (onDrawUp_outcome shapeType cur now e imgRect ds v profile preview
              Hprofile Hdragging Hpreview) as [_ Hnew].
  exact (proj1 (Hnew Hbig)).
Qed.

Lemma drawn_getHotspot : getHotspot cur hi drawn = Some fresh.
Proof.
  unfold getHotspot, hi. rewrite drawn_hotspots.
  rewrite nth_error_app2 by lia. now rewrite Nat.sub_diag.
Qed.

Lemma drawn_profile : exists p, nth_error (profiles (settings drawn)) cur = Some p.
Proof.
  pose proof drawn_hotspots as H. unfold hotspotsOf at 1 in H.
  destruct (nth_error (profiles (settings drawn)) cur) as [p|]; [now exists p |].
  destruct (app_cons_not_nil _ _ _ H).
Qed.

Lemma drawn_session :
  now <> EmptyString ->
  Forall (fun h => Hotspot.id h <> now) (hotspotsOf cur v) ->
  InSession cur hi drawn.
Proof.
  intros Hnow Hfresh.
  destruct (creation_enters shapeType cur now e imgRect ds v profile preview
              Hprofile Hdragging Hpreview Hbig) as (Hed & _ & Hpts).
  fold drawn in Hed. fold drawn seed hi in Hpts.
  split; [| split; [| now exists seed]].
  - rewrite Hed. cbn [truthy]. apply negb_true_iff. now apply String.eqb_neq.
  - rewrite Hed, drawn_hotspots. unfold hi.
    apply findIndex_app_fresh.
    + eapply Forall_impl; [| exact Hfresh]. cbn beta. intros h Hh.
      cbn [hasId]. now apply String.eqb_neq.
    + cbn [hasId fresh newHotspot Hotspot.id]. apply String.eqb_refl.
Qed.

(** A shape that is drawn and then abandoned leaves the hotspot list of
    its profile as it was before the drawing, whichever way it is
    abandoned: the Escape key, the cancel button of edge editing, or
    confirming the edges and then cancelling the naming modal (which
    confirming opens, the new shape having no name).  The id given to the
    shape is not empty and is not the id of a hotspot already in the
    profile. *)
Theorem abandoned_shape_leaves_no_trace :
  now <> EmptyString ->
  Forall (fun h => Hotspot.id h <> now) (hotspotsOf cur v) ->
  hotspotsOf cur (edgeEditKeyHandler cur (mkKey "Escape" false false) drawn)
  = hotspotsOf cur v
  /\ hotspotsOf cur (cancelBtn_onclick cur hi drawn) = hotspotsOf cur v
  /\ snd (Dialogs.confirmBtn_onclick cur hi drawn) = true
  /\ hotspotsOf cur (Dialogs.newRegion_cancel cur hi
                       (fst (Dialogs.confirmBtn_onclick cur hi drawn)))
     = hotspotsOf cur v.
Proof.
  intros Hnow Hfresh.
  pose proof (drawn_session Hnow Hfresh) as HS.
  destruct (escape_cancel_in_session cur hi false false drawn HS) as (E & Hdel & _).
  assert (Hback : removeAt hi (hotspotsOf cur drawn) = hotspotsOf cur v)
    by (rewrite drawn_hotspots; apply removeAt_app_last).
  split; [now rewrite E, Hdel |]. split; [now rewrite Hdel |].
  unfold Dialogs.confirmBtn_onclick. rewrite drawn_getHotspot.
  cbn [fresh newHotspot Hotspot.name Dialogs.isBlank String.eqb orb fst snd].
  split; [reflexivity |].
  unfold Dialogs.newRegion_cancel.
  change (getHotspot cur hi (setUndoStack [] (setEditingEdges None drawn)))
    with (getHotspot cur hi drawn).
  rewrite drawn_getHotspot.
  unfold saveSettings. rewrite renderRoom_hotspotsOf, hotspotsOf_emit.
  destruct drawn_profile as [p Hp].
  change (hotspotsOf cur
            (setHotspotsOf cur (deleteById (Some (Hotspot.id (newHotspot now seed shapeType))))
                           drawn)
          = hotspotsOf cur v).
  rewrite (hotspotsOf_setHotspotsOf _ _ _ p Hp).
  destruct HS as (_ & Hf & _).
  destruct (creation_enters shapeType cur now e imgRect ds v profile preview
              Hprofile Hdragging Hpreview Hbig) as (Hed & _).
  fold drawn in Hed. rewrite Hed in Hf.
  unfold deleteById. cbn [newHotspot Hotspot.id]. rewrite Hf. exact Hback.
Qed.

(** Drawing a shape, confirming its edges and saving the naming modal with
    a name that is not blank adds exactly one hotspot at the end of the
    hotspot list of the profile: the vertices of the seed, the name and the
    destination as typed without the white space around them; the session
    is over, the new hotspot is selected, the modal is closed, and the
    store with the new hotspot has been handed to the host. *)
Theorem drawn_confirmed_named (nameInput pathInput : string) :
  Navigation.trim nameInput <> EmptyString ->
  let confirmed := Dialogs.confirmBtn_onclick cur hi drawn in
  let saved := Dialogs.newRegion_save cur hi nameInput pathInput (fst confirmed) in
  let named :=
    Hotspot.mk now (Navigation.trim nameInput) (Navigation.trim pathInput)
               None None None None (Some seed) (Some shapeType) in
  snd confirmed = true
  /\ snd saved = true
  /\ hotspotsOf cur (fst saved) = hotspotsOf cur v ++ [named]
  /\ editingEdgesHotspotId (fst saved) = None
  /\ undoStack (fst saved) = []
  /\ selectedHotspotId (fst saved) = Some now
  /\ exists s,
       In (SaveSettings s) (effects (fst saved))
       /\ option_map Profile.hotspots (nth_error (profiles s) cur)
          = Some (hotspotsOf cur v ++ [named]).
Proof.
  intros Hname confirmed saved named.
  assert (Hc : confirmed = (setUndoStack [] (setEditingEdges None drawn), true)).
  { unfold confirmed, Dialogs.confirmBtn_onclick. rewrite drawn_getHotspot. reflexivity. }
  set (w := setUndoStack [] (setEditingEdges None drawn)) in *.
  assert (Hg : getHotspot cur hi w = Some fresh) by exact drawn_getHotspot.
  destruct drawn_profile as [p Hp].
  set (w3 := setDrawing None
               (setSelected (Some (Hotspot.id fresh))
                  (setHotspotsOf cur
                     (updateAt hi (Dialogs.setNamePath (Navigation.trim nameInput)
                                                       (Navigation.trim pathInput))) w))).
  assert (Hs : saved
               = (notice ("Region " ++ Dialogs.quote ++ Navigation.trim nameInput
                          ++ Dialogs.quote ++ " created!")%string
                         (renderRoom (saveSettings w3)), true)).
  { unfold saved, Dialogs.newRegion_save. rewrite Hc. cbn [fst].
    apply String.eqb_neq in Hname. rewrite Hname, Hg. reflexivity. }
  assert (Hhs : hotspotsOf cur w3 = hotspotsOf cur v ++ [named]).
  { change (hotspotsOf cur
              (setHotspotsOf cur
                 (updateAt hi (Dialogs.setNamePath (Navigation.trim nameInput)
                                                   (Navigation.trim pathInput))) drawn)
            = hotspotsOf cur v ++ [named]).
    rewrite (hotspotsOf_setHotspotsOf _ _ _ p Hp), drawn_hotspots.
    unfold hi. clear.
    induction (hotspotsOf cur v) as [|x t IH]; simpl; [reflexivity | now rewrite IH]. }
  rewrite Hc, Hs. cbn [fst snd].
  split; [reflexivity |]. split; [reflexivity |].
  unfold notice, saveSettings.
  split; [now rewrite hotspotsOf_emit, renderRoom_hotspotsOf, hotspotsOf_emit |].
  split; [cbn [emit editingEdgesHotspotId]; now rewrite renderRoom_editing |].
  split; [cbn [emit undoStack]; now rewrite renderRoom_undoStack |].
  split; [cbn [emit selectedHotspotId]; now rewrite renderRoom_selected |].
  exists (settings w3). split.
  - cbn [emit effects].
    destruct (renderRoom_effects (emit (SaveSettings (settings w3)) w3)) as [more E].
    rewrite E. cbn [emit effects].
    apply in_or_app. left. apply in_or_app. left.
    apply in_or_app. right. left. reflexivity.
  - unfold hotspotsOf in Hhs.
    destruct (nth_error (profiles (settings w3)) cur) as [q|]; cbn [option_map].
    + now rewrite Hhs.
    + destruct (app_cons_not_nil _ _ _ Hhs).
Qed.

End AfterDrawing.

Lemma abandoned_shape_leaves_no_trace_witness :
  let drawn :=
    snd (onDrawUp Rect 0 "1700000000001" (pointer 400 400) image dragFrom10 drawing) in
  hotspotsOf 0 (edgeEditKeyHandler 0 (mkKey "Escape" false false) drawn)
  = hotspotsOf 0 drawing
  /\ hotspotsOf 0 (cancelBtn_onclick 0 0 drawn) = hotspotsOf 0 drawing
  /\ snd (Dialogs.confirmBtn_onclick 0 0 drawn) = true
  /\ hotspotsOf 0 (Dialogs.newRegion_cancel 0 0 (fst (Dialogs.confirmBtn_onclick 0 0 drawn)))
     = hotspotsOf 0 drawing.
Proof.
  apply (abandoned_shape_leaves_no_trace Rect 0 "1700000000001" (pointer 400 400) image
           dragFrom10 drawing (roomA []) PreviewRect eq_refl eq_refl eq_refl).
  - left. rcalc.
  - discriminate.
  - apply Forall_nil.
Defined.

Lemma drawn_confirmed_named_witness :
  let drawn :=
    snd (onDrawUp Rect 0 "1700000000001" (pointer 400 400) image dragFrom10 drawing) in
  let saved :=
    Dialogs.newRegion_save 0 0 " Desk " "notes/desk"
                           (fst (Dialogs.confirmBtn_onclick 0 0 drawn)) in
  exists named,
    hotspotsOf 0 (fst saved) = [named]
    /\ Hotspot.name named = "Desk"%string
    /\ Hotspot.path named = "notes/desk"%string
    /\ Hotspot.id named = "1700000000001"%string.
Proof.
  intros drawn saved.
  assert (Hbig : Rmax (drawStartX dragFrom10) (clamp (percentX (pointer 400 400) image))
                 - Rmin (drawStartX dragFrom10) (clamp (percentX (pointer 400 400) image))
                 >= 2
                 \/ Rmax (drawStartY dragFrom10) (clamp (percentY (pointer 400 400) image))
                    - Rmin (drawStartY dragFrom10)
                           (clamp (percentY (pointer 400 400) image)) >= 2)
    by (left; rcalc).
  assert (Hname : Navigation.trim " Desk " <> EmptyString) by discriminate.
  destruct (drawn_confirmed_named Rect 0 "1700000000001" (pointer 400 400) image
              dragFrom10 drawing (roomA []) PreviewRect eq_refl eq_refl eq_refl
              Hbig " Desk " "notes/desk" Hname)
    as (_ & _ & Hhs & _).
  eexists. split; [exact Hhs |]. repeat split.
Defined.

(** ** The active profile *)












(** The render leaves an active profile id that is not empty as it is. *)
Lemma renderRoom_active (v : LoomView) :
  activeProfileId (settings v) <> EmptyString ->
  activeProfileId (settings (renderRoom v)) = activeProfileId (settings v).
Proof.
  intros Hne.
  assert (H : activeProfileId (settings (fst (getCurrentProfile (emit RenderRoom v))))
              = activeProfileId (settings v)).
  { unfold getCurrentProfile. cbn.
    destruct (profiles (settings v)) as [|p0 t]; [reflexivity |].
    destruct (String.eqb (activeProfileId (settings v)) EmptyString) eqn:E;
      [| reflexivity].
    apply String.eqb_eq in E. contradiction. }
  destruct (renderRoom_cases v) as [-> | [cur ->]]; exact H.
Qed.








(** ** The current profile *)

Lemma findIndex_In {A : Type} (pred : A -> bool) (l : list A) (x : A) :
  In x l -> pred x = true -> exists i, findIndex pred l = Some i.
Proof.
  induction l as [|y t IH]; intros Hin Hx; simpl in *; [contradiction |].
  destruct (pred y) eqn:Hy; [now exists 0%nat |].
  destruct Hin as [-> | Hin].
  - rewrite Hx in Hy. discriminate.
  - destruct (IH Hin Hx) as [i Hi]. rewrite Hi. now exists (S i).
Qed.

Lemma findIndex_None {A : Type} (pred : A -> bool) (l : list A) :
  Forall (fun x => pred x = false) l -> findIndex pred l = None.
Proof.
  induction 1 as [|x t Hx _ IH]; simpl; [reflexivity |].
  now rewrite Hx, IH.
Qed.

(** What [getCurrentProfile] returns and what it changes, in every case.
    In a store without profiles it finds none and changes nothing.  With
    an empty active id and profiles, it makes the id of the first profile
    the active id, saves the store, and finds the first profile.  With an
    active id that is not empty it changes nothing: it finds the first
    profile that has the active id when there is one, and none when the
    active id names no profile, although there are profiles. *)
Theorem current_profile_found (v : LoomView) :
  (profiles (settings v) = [] -> getCurrentProfile v = (v, None))
  /\ (forall p0 rest,
         profiles (settings v) = p0 :: rest ->
         activeProfileId (settings v) = EmptyString ->
         getCurrentProfile v
         = (saveSettings (setSettings (setActiveProfileId (Profile.id p0) (settings v)) v),
            Some 0%nat))
  /\ (activeProfileId (settings v) <> EmptyString ->
      In (activeProfileId (settings v)) (map Profile.id (profiles (settings v))) ->
      exists i p,
        getCurrentProfile v = (v, Some i)
        /\ nth_error (profiles (settings v)) i = Some p
        /\ Profile.id p = activeProfileId (settings v)
        /\ forall j q, (j < i)%nat ->
                       nth_error (profiles (settings v)) j = Some q ->
                       Profile.id q <> activeProfileId (settings v))
  /\ (activeProfileId (settings v) <> EmptyString ->
      ~ In (activeProfileId (settings v)) (map Profile.id (profiles (settings v))) ->
      getCurrentProfile v = (v, None)).
Proof.
  assert (Hkeep : activeProfileId (settings v) <> EmptyString ->
                  match profiles (settings v) with
                  | [] => v
                  | p0 :: _ =>
                      if String.eqb (activeProfileId (settings v)) EmptyString
                      then saveSettings
                             (setSettings (setActiveProfileId (Profile.id p0) (settings v)) v)
                      else v
                  end = v).
  { intros Hne. apply String.eqb_neq in Hne.
    destruct (profiles (settings v)); [reflexivity | now rewrite Hne]. }
  split; [| split; [| split]].
  - intros E. unfold getCurrentProfile. rewrite E. cbn zeta. rewrite E. reflexivity.
  - intros p0 rest E Ha. unfold getCurrentProfile. rewrite E, Ha.
    cbn. rewrite E. cbn. now rewrite String.eqb_refl.
  - intros Hne Hin. unfold getCurrentProfile. rewrite (Hkeep Hne).
    apply in_map_iff in Hin. destruct Hin as (x & Hx & Hin).
    destruct (findIndex_In
                (fun p => String.eqb (Profile.id p) (activeProfileId (settings v)))
                (profiles (settings v)) x Hin) as [i Hi];
      [rewrite Hx; apply String.eqb_refl |].
    rewrite Hi.
    destruct (findIndex_Some _ _ _ Hi) as (p & Hp & Hid & Hfirst).
    apply String.eqb_eq in Hid.
    exists i, p. split; [reflexivity |]. split; [exact Hp |]. split; [exact Hid |].
    intros j q Hj Hq Heq.
    specialize (Hfirst j q Hj Hq). cbn beta in Hfirst.
    rewrite Heq, String.eqb_refl in Hfirst. discriminate.
  - intros Hne Hnot. unfold getCurrentProfile. rewrite (Hkeep Hne). f_equal.
    apply findIndex_None. apply Forall_forall. intros p Hp.
    apply String.eqb_neq. intros Heq. apply Hnot.
    rewrite <- Heq. now apply in_map.
Qed.

Lemma current_profile_found_witness :
  getCurrentProfile (initialView (mkSettings LabelPath None None [roomA []] ""))
  = (saveSettings
       (setSettings
          (setActiveProfileId "room-a" (mkSettings LabelPath None None [roomA []] ""))
          (initialView (mkSettings LabelPath None None [roomA []] ""))),
     Some 0%nat)
  /\ (exists i p,
         getCurrentProfile edgeEditing = (edgeEditing, Some i)
         /\ nth_error (profiles (settings edgeEditing)) i = Some p
         /\ Profile.id p = activeProfileId (settings edgeEditing))
  /\ getCurrentProfile
       (initialView (mkSettings LabelPath None None [roomA []] "room-z"))
     = (initialView (mkSettings LabelPath None None [roomA []] "room-z"), None).
Proof.
  split; [| split].
  - destruct (current_profile_found
                (initialView (mkSettings LabelPath None None [roomA []] "")))
      as (_ & Hempty & _).
    apply (Hempty (roomA []) []); reflexivity.
  - destruct (current_profile_found edgeEditing) as (_ & _ & Hfound & _).
    destruct Hfound as (i & p & H1 & H2 & H3 & _).
    + discriminate.
    + left. reflexivity.
    + exists i, p. repeat split; assumption.
  - destruct (current_profile_found
                (initialView (mkSettings LabelPath None None [roomA []] "room-z")))
      as (_ & _ & _ & Hdangling).
    apply Hdangling.
    + discriminate.
    + cbn. intros [H | []]. discriminate H.
Defined.

(** ** Deleting profiles and hotspots *)

Lemma getCurrentProfile_first (w : LoomView) (q : Profile.t) (t : list Profile.t) :
  profiles (settings w) = q :: t ->
  activeProfileId (settings w) = Profile.id q ->
  snd (getCurrentProfile w) = Some 0%nat.
Proof.
  intros Hp Ha. unfold getCurrentProfile. rewrite Hp.
  destruct (String.eqb (activeProfileId (settings w)) EmptyString); cbn.
  - rewrite Hp. cbn. now rewrite String.eqb_refl.
  - rewrite Hp. cbn. now rewrite Ha, String.eqb_refl.
Qed.

Lemma getCurrentProfile_empty (w : LoomView) :
  profiles (settings w) = [] -> snd (getCurrentProfile w) = None.
Proof.
  intros Hp. unfold getCurrentProfile. rewrite Hp. cbn. now rewrite Hp.
Qed.

(** After the active profile is deleted in the settings tab, the next
    render shows the first profile that is left, and none when no profile
    is left. *)
Theorem deleting_active_profile_promotes_first (index : nat) (v : LoomView)
    (p : Profile.t) :
  nth_error (profiles (settings v)) index = Some p ->
  activeProfileId (settings v) = Profile.id p ->
  let v' := tabStep (Profiles.tab_deleteProfile index) v in
  profiles (settings v') = removeAt index (profiles (settings v))
  /\ match removeAt index (profiles (settings v)) with
     | [] => activeProfileId (settings v') = EmptyString
             /\ snd (getCurrentProfile v') = None
     | q :: _ => activeProfileId (settings v') = Profile.id q
                 /\ snd (getCurrentProfile v') = Some 0%nat
     end.
Proof.
  intros Hn Ha v'.
  assert (Hs : settings v' = Profiles.tab_deleteProfile index (settings v)) by reflexivity.
  unfold Profiles.tab_deleteProfile in Hs. rewrite Hn in Hs.
  cbn [activeProfileId setProfiles profiles] in Hs.
  rewrite Ha, String.eqb_refl in Hs.
  assert (Hprof : profiles (settings v') = removeAt index (profiles (settings v)))
    by (rewrite Hs; reflexivity).
  split; [exact Hprof |].
  destruct (removeAt index (profiles (settings v))) as [|q t] eqn:Er.
  - split; [now rewrite Hs | now apply getCurrentProfile_empty].
  - assert (Hact : activeProfileId (settings v') = Profile.id q).
    { rewrite Hs. cbn. unfold Labels.orText.
      destruct (String.eqb (Profile.id q) EmptyString) eqn:Eq; [| reflexivity].
      apply String.eqb_eq in Eq. now rewrite Eq. }
    split; [exact Hact | exact (getCurrentProfile_first v' q t Hprof Hact)].
Qed.

Lemma deleting_active_profile_promotes_first_witness :
  let two :=
    initialView
      (mkSettings LabelPath None None
         [roomA [desk]; Profile.mk "room-b" "Room B" "b.png" []] "room-a") in
  let v' := tabStep (Profiles.tab_deleteProfile 0) two in
  profiles (settings v') = [Profile.mk "room-b" "Room B" "b.png" []]
  /\ activeProfileId (settings v') = "room-b"%string
  /\ snd (getCurrentProfile v') = Some 0%nat.
Proof.
  intros two v'.
  destruct (deleting_active_profile_promotes_first 0 two (roomA [desk]) eq_refl eq_refl)
    as [Hp Hq].
  split; [exact Hp | exact Hq].
Defined.

(** Deleting a hotspot by its id takes out one hotspot at most, the first
    of the list that has the id, and keeps the others in their order; a
    list without the id is left as it is. *)
Theorem deleteById_removes_first (i : string) (hs : list Hotspot.t) :
  (Forall (fun h => Hotspot.id h <> i) hs /\ deleteById (Some i) hs = hs)
  \/ (exists before h after,
         hs = before ++ h :: after
         /\ Hotspot.id h = i
         /\ Forall (fun x => Hotspot.id x <> i) before
         /\ deleteById (Some i) hs = before ++ after).
Proof.
  unfold deleteById.
  induction hs as [|x t IH]; cbn [findIndex hasId].
  - left. split; [apply Forall_nil | reflexivity].
  - destruct (String.eqb (Hotspot.id x) i) eqn:Ex.
    + right. exists [], x, t. apply String.eqb_eq in Ex.
      repeat split; [exact Ex | apply Forall_nil].
    + apply String.eqb_neq in Ex.
      destruct IH as [[Hall Hsame] | (before & h & after & Hhs & Hid & Hbefore & Hdel)].
      * left. split; [now apply Forall_cons |].
        destruct (findIndex (hasId (Some i)) t) as [k|]; cbn [option_map removeAt];
          congruence.
      * right. exists (x :: before), h, after.
        split; [now rewrite Hhs |]. split; [exact Hid |].
        split; [now apply Forall_cons |].
        destruct (findIndex (hasId (Some i)) t) as [k|]; cbn [option_map removeAt app];
          congruence.
Qed.

(** ** Loading and migrating *)

(** The store after [onload] always has a profile, and the migration is
    done once: run on a loaded store again it changes nothing and saves
    nothing.  When no profile was persisted, the store gets the one profile
    "default", active, that holds the old hotspot list and the old image
    (or "room-bg.png"), and it is saved; when profiles were persisted, the
    loaded store is used as it is and nothing is saved. *)
Theorem onload_migrates_once (data : option SavedData) :
  profiles (onload data) <> []
  /\ migrate (onload data) = (onload data, false)
  /\ match profiles (loadSettings data) with
     | [] =>
         snd (migrate (loadSettings data)) = true
         /\ activeProfileId (onload data) = "default"%string
         /\ exists image,
              profiles (onload data)
              = [Profile.mk "default" "Default Room" image
                            (orDefault (legacyHotspots (loadSettings data)) [])]
              /\ (image = "room-bg.png"%string
                  \/ roomImagePath (loadSettings data) = Some image)
     | _ :: _ =>
         snd (migrate (loadSettings data)) = false
         /\ onload data = loadSettings data
     end.
Proof.
  unfold onload, migrate.
  destruct (profiles (loadSettings data)) as [|p ps] eqn:E; cbn [fst snd profiles app].
  - split; [discriminate |]. split; [reflexivity |].
    split; [reflexivity |]. split; [reflexivity |].
    eexists. split; [reflexivity |].
    destruct (roomImagePath (loadSettings data)) as [img|]; [| now left].
    destruct (String.eqb img EmptyString); [now left | now right].
  - rewrite E. split; [discriminate |]. repeat split.
Qed.

(** ** Destinations, links and folders *)

Lemma splitChar_join (c : ascii) (s : string) :
  String.concat (String c EmptyString) (fst (splitChar c s) :: snd (splitChar c s)) = s.
Proof.
  induction s as [|d t IH]; [reflexivity |].
  cbn [splitChar]. destruct (splitChar c t) as [first rest]. cbn [fst snd] in *.
  destruct (Ascii.eqb c d) eqn:E; cbn [fst snd].
  - apply Ascii.eqb_eq in E. subst d.
    rewrite concat_cons_cons. cbn [String.append] in *. now rewrite IH.
  - destruct rest as [|y l].
    + cbn [String.concat] in *. now rewrite IH.
    + rewrite concat_cons_cons in *. cbn [String.append] in *. now rewrite IH.
Qed.

Lemma splitChar_first_clean (c : ascii) (s : string) :
  includesChar c (fst (splitChar c s)) = false.
Proof.
  induction s as [|d t IH]; [reflexivity |].
  cbn [splitChar]. destruct (splitChar c t) as [first rest]. cbn [fst] in IH.
  destruct (Ascii.eqb c d) eqn:E; cbn [fst includesChar]; [reflexivity |].
  now rewrite E, IH.
Qed.

Lemma splitChar_rest_clean (c : ascii) (s : string) :
  Forall (fun part => includesChar c part = false) (snd (splitChar c s)).
Proof.
  induction s as [|d t IH]; [apply Forall_nil |].
  cbn [splitChar].
  pose proof (splitChar_first_clean c t) as Hf.
  destruct (splitChar c t) as [first rest]. cbn [fst snd] in *.
  destruct (Ascii.eqb c d); cbn [snd]; [now apply Forall_cons | exact IH].
Qed.

Lemma splitChar_clean (c : ascii) (s : string) :
  includesChar c s = false -> splitChar c s = (s, []).
Proof.
  induction s as [|d t IH]; [reflexivity |].
  cbn [includesChar splitChar]. intros H. apply orb_false_iff in H. destruct H as [E Ht].
  rewrite (IH Ht), E. reflexivity.
Qed.

Lemma splitChar_found (c : ascii) (s : string) :
  includesChar c s = true -> exists part rest, snd (splitChar c s) = part :: rest.
Proof.
  induction s as [|d t IH]; [discriminate |].
  cbn [includesChar splitChar]. intros H.
  destruct (splitChar c t) as [first rest] eqn:Es.
  destruct (Ascii.eqb c d) eqn:E; cbn [snd].
  - now exists first, rest.
  - cbn [orb] in H. destruct (IH H) as (part & more & Hr). cbn [snd] in Hr.
    now exists part, more.
Qed.

(** How a destination is cut at "#".  A destination without "#" is the
    path, with no subpath.  A destination with "#" is the join, with "#",
    of the path, the fragment and what follows the second "#", if
    anything; the subpath is "#" and the fragment, and what follows a
    second "#" is dropped.  The path and the fragment have no "#". *)
Theorem splitLink_parts (dest : string) :
  includesChar "#" (fst (splitLink dest)) = false
  /\ (includesChar "#" dest = false -> splitLink dest = (dest, EmptyString))
  /\ (includesChar "#" dest = true ->
      exists fragment rest,
        snd (splitLink dest) = String "#" fragment
        /\ includesChar "#" fragment = false
        /\ dest = String.concat "#" (fst (splitLink dest) :: fragment :: rest)).
Proof.
  unfold splitLink.
  destruct (includesChar "#" dest) eqn:E.
  - pose proof (splitChar_first_clean "#" dest) as Hf.
    pose proof (splitChar_rest_clean "#" dest) as Hr.
    pose proof (splitChar_join "#" dest) as Hj.
    destruct (splitChar_found "#" dest E) as (fragment & rest & Hs).
    destruct (splitChar "#" dest) as [first parts]. cbn [fst snd] in *. subst parts.
    split; [exact Hf |]. split; [discriminate |].
    intros _. exists fragment, rest. cbn [nth].
    split; [reflexivity |]. split; [now inversion Hr | now symmetry].
  - split; [exact E |]. split; [reflexivity | discriminate].
Qed.

Lemma splitAll_snoc (c : ascii) (a name : string) :
  includesChar c name = false ->
  Browser.splitAll c (a ++ String c name)%string = Browser.splitAll c a ++ [name].
Proof.
  intros Hn. unfold Browser.splitAll.
  induction a as [|d t IH]; cbn [String.append splitChar].
  - rewrite (splitChar_clean c name Hn), Ascii.eqb_refl. reflexivity.
  - destruct (splitChar c (t ++ String c name)%string) as [f r].
    destruct (splitChar c t) as [f' r'].
    injection IH as -> ->.
    destruct (Ascii.eqb c d); reflexivity.
Qed.

(** "Back" in the folder panel undoes entering a subfolder: from the path
    of a child, which is the path of its folder, "/" and the name of the
    child, the back item goes to the path of the folder.  From a path
    without "/" it goes to the empty path, which shows the folder of the
    hotspot itself. *)
Theorem back_goes_to_parent (files : Vault) (hotspot : Hotspot.t) :
  (forall folder name : string,
      includesChar "/" name = false ->
      Browser.parentPath (folder ++ "/" ++ name)%string = folder)
  /\ (forall path : string,
         includesChar "/" path = false ->
         Browser.parentPath path = EmptyString
         /\ showZoneFiles files hotspot (Some (Browser.parentPath path))
            = showZoneFiles files hotspot None).
Proof.
  split.
  - intros folder name Hn. unfold Browser.parentPath.
    change (folder ++ "/" ++ name)%string with (folder ++ String "/" name)%string.
    rewrite (splitAll_snoc "/" folder name Hn), removelast_last.
    unfold Browser.splitAll.
    pose proof (splitChar_join "/" folder) as Hj.
    destruct (splitChar "/" folder) as [f r]. exact Hj.
  - intros path Hp.
    assert (E : Browser.parentPath path = EmptyString).
    { unfold Browser.parentPath, Browser.splitAll.
      now rewrite (splitChar_clean "/" path Hp). }
    split; [exact E |]. rewrite E. reflexivity.
Qed.

Lemma back_goes_to_parent_witness :
  Browser.parentPath "books/fiction" = "books"%string
  /\ Browser.parentPath "books" = EmptyString.
Proof.
  destruct (back_goes_to_parent vault desk) as [Hchild Htop].
  split.
  - apply (Hchild "books" "fiction")%string. reflexivity.
  - apply (Htop "books"%string). reflexivity.
Defined.

(** Navigation shows only what the vault holds.  With the path and the
    subpath cut from the chosen destination (the current path of the
    panel, or the destination of the hotspot): a file is opened only when
    the vault has it at the path, or has nothing at the path, which does
    not end in ".md", and has the file at the path with ".md" appended; it
    is opened with the subpath of the destination; a folder is listed only
    when the vault has it at the path; the notice of a missing link is
    given exactly for a blank destination; and a file at the path itself is
    opened whatever there is at the path with ".md" appended. *)
Theorem navigation_shows_what_is_there (files : Vault) (hotspot : Hotspot.t)
    (currentPath : option string) :
  let chosen :=
    match currentPath with
    | Some p => if String.eqb p EmptyString then Hotspot.path hotspot else p
    | None => Hotspot.path hotspot
    end in
  let path := fst (splitLink chosen) in
  let result := showZoneFiles files hotspot currentPath in
  (result = NoLinkedFolder <-> blank chosen = true)
  /\ (forall f sub,
         result = OpenFile f sub ->
         sub = snd (splitLink chosen)
         /\ (files path = Some (TFile f)
             \/ (files path = None /\ endsWith ".md" path = false
                 /\ files (path ++ ".md")%string = Some (TFile f))))
  /\ (forall d, result = FolderListing d -> files path = Some (TFolder d))
  /\ (forall q, result = PathNotFound q ->
                q = path /\ (forall f, files path <> Some (TFile f))
                /\ (forall d, files path <> Some (TFolder d)))
  /\ (forall f, blank chosen = false -> files path = Some (TFile f) ->
                result = OpenFile f (snd (splitLink chosen))).
Proof.
  intros chosen path result.
  unfold result, showZoneFiles. fold chosen. unfold blank.
  destruct (String.eqb chosen EmptyString || String.eqb (trim chosen) EmptyString)%bool
    eqn:Eb.
  - split; [tauto |].
    split; [intros f sub H; discriminate H |].
    split; [intros d H; discriminate H |].
    split; [intros q H; discriminate H |].
    intros f H; discriminate H.
  - unfold path. destruct (splitLink chosen) as [p sub0]. cbn [fst snd].
    destruct (files p) as [[f0 | d0]|] eqn:Ep;
      [| | destruct (endsWith ".md" p) eqn:Em; cbn [negb];
           [| destruct (files (p ++ ".md")%string) as [[f1 | d1]|] eqn:Et]];
      rewrite ?Ep;
      (split; [split; intros H; discriminate H |]);
      (split; [intros f sub H;
               first [discriminate H
                     | injection H as -> ->; split; [reflexivity | auto]] |]);
      (split; [intros d H;
               first [discriminate H | injection H as ->; reflexivity] |]);
      (split; [intros q H;
               first [discriminate H
                     | injection H as <-;
                       split; [reflexivity | split; intros x Hx; discriminate Hx]] |]);
      intros f _ Hf;
      first [discriminate Hf | injection Hf as ->; reflexivity].
Qed.

Lemma splitLink_parts_witness :
  exists fragment rest,
    snd (splitLink "notes/desk#Top#x") = String "#" fragment
    /\ includesChar "#" fragment = false
    /\ "notes/desk#Top#x"%string
       = String.concat "#" (fst (splitLink "notes/desk#Top#x") :: fragment :: rest).
Proof.
  destruct (splitLink_parts "notes/desk#Top#x") as (_ & _ & H).
  apply H. reflexivity.
Defined.

Lemma navigation_shows_what_is_there_witness :
  EmptyString = snd (splitLink "notes/desk")
  /\ (vault (fst (splitLink "notes/desk")) = Some (TFile "notes/desk.md")
      \/ (vault (fst (splitLink "notes/desk")) = None
          /\ endsWith ".md" (fst (splitLink "notes/desk")) = false
          /\ vault (fst (splitLink "notes/desk") ++ ".md")%string
             = Some (TFile "notes/desk.md"))).
Proof.
  destruct (navigation_shows_what_is_there vault desk None) as (_ & H & _).
  apply (H "notes/desk.md"%string EmptyString). reflexivity.
Defined.

(** ** Labels *)

Lemma orText_not_empty (s placeholder : string) :
  placeholder <> EmptyString -> Labels.orText s placeholder <> EmptyString.
Proof.
  intros Hp. unfold Labels.orText.
  destruct (String.eqb s EmptyString) eqn:E; [exact Hp |].
  intros ->. discriminate E.
Qed.

Lemma append_empty_right (a b : string) :
  (a ++ b)%string = EmptyString -> b = EmptyString.
Proof.
  destruct a; cbn [String.append]; [auto | discriminate].
Qed.

(** The label of a hotspot is never the empty text, whatever the display
    style and whatever the name and the destination are: an empty name or
    destination is replaced by its placeholder. *)
Theorem label_text_never_empty (display : DisplayLabelType) (hotspot : Hotspot.t) :
  Labels.labelText display hotspot <> EmptyString
  /\ (Hotspot.name hotspot <> EmptyString ->
      Labels.labelText LabelName hotspot = Hotspot.name hotspot)
  /\ (Hotspot.path hotspot <> EmptyString ->
      Labels.labelText LabelPath hotspot = Hotspot.path hotspot).
Proof.
  split; [| split].
  - destruct display; cbn [Labels.labelText].
    + apply orText_not_empty. discriminate.
    + apply orText_not_empty. discriminate.
    + intros H. apply append_empty_right in H. discriminate H.
  - intros H. cbn [Labels.labelText]. unfold Labels.orText.
    destruct (String.eqb (Hotspot.name hotspot) EmptyString) eqn:E; [| reflexivity].
    apply String.eqb_eq in E. contradiction.
  - intros H. cbn [Labels.labelText]. unfold Labels.orText.
    destruct (String.eqb (Hotspot.path hotspot) EmptyString) eqn:E; [| reflexivity].
    apply String.eqb_eq in E. contradiction.
Qed.

Lemma label_text_never_empty_witness :
  Labels.labelText LabelBoth ghost <> EmptyString
  /\ (Hotspot.name desk <> EmptyString ->
      Labels.labelText LabelName desk = Hotspot.name desk)
  /\ (Hotspot.path desk <> EmptyString ->
      Labels.labelText LabelPath desk = Hotspot.path desk).
Proof.
  destruct (label_text_never_empty LabelBoth ghost) as (H1 & _).
  destruct (label_text_never_empty LabelName desk) as (_ & H2 & H3).
  exact (conj H1 (conj H2 H3)).
Defined.

(** Where the label of a hotspot that the render draws is put.  A hotspot
    with vertices has its label at the centroid of the vertices, inside the
    image when the vertices are.  A hotspot drawn as a legacy rectangle (no
    vertex, a [top] field) has its label at the centre of the rectangle
    that [parseFloat] reads in its fields, a missing or empty [left],
    [width] or [height] being read as "0"; this is inside the image when
    that rectangle is. *)
Theorem label_anchor_in_image (parseFloat : string -> R) (v : LoomView)
    (hotspot : Hotspot.t) (sh : SvgShape) (i : Interaction) :
  let x := parseFloat (Labels.orField (Hotspot.left hotspot) "0") in
  let w := parseFloat (Labels.orField (Hotspot.width hotspot) "0") in
  let y := parseFloat (Labels.orField (Hotspot.top hotspot) "0") in
  let h := parseFloat (Labels.orField (Hotspot.height hotspot) "0") in
  renderHotspot v hotspot = Some (sh, i) ->
  (forall pts, Hotspot.points hotspot = Some pts -> Forall pointInRange pts) ->
  (sh = SvgRect ->
   0 <= x /\ 0 <= w /\ x + w <= 100 /\ 0 <= y /\ 0 <= h /\ y + h <= 100) ->
  Labels.labelAnchor parseFloat hotspot
  = match Hotspot.points hotspot with
    | Some (p :: rest) => centroid (p :: rest)
    | _ => (x + w / 2, y + h / 2)
    end
  /\ (sh = SvgRect <->
      match Hotspot.points hotspot with Some (_ :: _) => False | _ => True end)
  /\ pointInRange (Labels.labelAnchor parseFloat hotspot).
Proof.
  intros x w y h Hr Hin Hrect.
  assert (Hcen : forall p rest, Forall pointInRange (p :: rest) ->
                                pointInRange (centroid (p :: rest))).
  { intros p rest H. rewrite centroid_cons. unfold pointInRange, inRange.
    cbn [fst snd]. split.
    - cbn [map]. apply mean_bounds.
      change (fst p :: map fst rest) with (map fst (p :: rest)).
      apply Forall_map. eapply Forall_impl; [| exact H].
      unfold pointInRange, inRange. cbn beta. tauto.
    - cbn [map]. apply mean_bounds.
      change (snd p :: map snd rest) with (map snd (p :: rest)).
      apply Forall_map. eapply Forall_impl; [| exact H].
      unfold pointInRange, inRange. cbn beta. tauto. }
  assert (Hshape : match Hotspot.points hotspot with
                   | Some (_ :: _) => sh <> SvgRect
                   | _ => sh = SvgRect /\ truthy (Hotspot.top hotspot) = true
                   end).
  { unfold renderHotspot in Hr.
    destruct (Hotspot.points hotspot) as [[|p rest]|];
      destruct (truthy (Hotspot.top hotspot));
      destruct (Hotspot.shapeType hotspot) as [[| |]|];
      destruct (hasId (editingEdgesHotspotId v) hotspot);
      destruct (isEditMode v); cbn in Hr;
      first [discriminate Hr
            | injection Hr as <- _; first [discriminate | split; reflexivity]]. }
  unfold Labels.labelAnchor.
  destruct (Hotspot.points hotspot) as [[|p rest]|] eqn:Ep.
  - destruct Hshape as [Hs Ht]. rewrite Ht.
    split; [reflexivity |]. split; [tauto |].
    destruct (Hrect Hs) as (H1 & H2 & H3 & H4 & H5 & H6).
    fold x w y h. unfold pointInRange, inRange. cbn [fst snd]. lra.
  - split; [reflexivity |]. split; [tauto |].
    apply Hcen. now apply Hin.
  - destruct Hshape as [Hs Ht]. rewrite Ht.
    split; [reflexivity |]. split; [tauto |].
    destruct (Hrect Hs) as (H1 & H2 & H3 & H4 & H5 & H6).
    fold x w y h. unfold pointInRange, inRange. cbn [fst snd]. lra.
Qed.

Lemma label_anchor_in_image_witness :
  pointInRange (Labels.labelAnchor (fun _ => 0) desk)
  /\ Labels.labelAnchor
       (fun s => if String.eqb s "10" then 10 else if String.eqb s "20" then 20
                 else if String.eqb s "30" then 30 else 15)
       shelf
     = (20 + 30 / 2, 10 + 15 / 2).
Proof.
  split.
  - apply (label_anchor_in_image (fun _ => 0) (editIdle [desk]) desk SvgPolygon ContextMenu).
    + reflexivity.
    + intros pts H. injection H as <-. unfold deskPoints.
      repeat (apply Forall_cons;
              [unfold pointInRange, inRange; cbn [fst snd]; lra |]).
      apply Forall_nil.
    + discriminate.
  - apply (label_anchor_in_image
             (fun s => if String.eqb s "10" then 10 else if String.eqb s "20" then 20
                       else if String.eqb s "30" then 30 else 15)
             (editIdle [shelf]) shelf SvgRect ContextMenu).
    + reflexivity.
    + intros pts H. discriminate H.
    + intros _. cbn. lra.
Defined.

(** ** The edit-mode button outside a session *)

Lemma toggle_mode_and_session (v : LoomView) :
  isEditMode (editModeBtn_onclick v) = negb (isEditMode v)
  /\ editingEdgesHotspotId (editModeBtn_onclick v) = editingEdgesHotspotId v.
Proof.
  unfold editModeBtn_onclick.
  rewrite renderRoom_isEditMode, renderRoom_editing.
  destruct (isEditMode v) eqn:E; cbn; rewrite ?E; split; reflexivity.
Qed.

(** When no hotspot is named for edge editing, the edit-mode button
    switches between the two modes and nothing of edge editing shows up:
    after the click the mode is the other one, the render attaches no key
    handler, every hotspot it draws opens the folder panel on a click (when
    the view went to View mode) or the action menu (when it went to edit
    mode), never vertex handles, and a second click brings the first mode
    back. *)
Theorem toggle_without_session (v : LoomView) (hotspot : Hotspot.t) :
  editingEdgesHotspotId v = None ->
  let w := editModeBtn_onclick v in
  isEditMode w = negb (isEditMode v)
  /\ attachesKeyHandler w = false
  /\ (forall sh i, renderHotspot w hotspot = Some (sh, i) ->
                   i = if isEditMode v then Navigate else ContextMenu)
  /\ isEditMode (editModeBtn_onclick w) = isEditMode v
  /\ editingEdgesHotspotId (editModeBtn_onclick w) = None.
Proof.
  intros Hnone w.
  destruct (toggle_mode_and_session v) as [Hm He]. fold w in Hm, He.
  destruct (toggle_mode_and_session w) as [Hm2 He2].
  rewrite Hnone in He.
  split; [exact Hm |].
  split; [unfold attachesKeyHandler; rewrite He; cbn [truthy]; apply andb_false_r |].
  split.
  - intros sh i H. unfold renderHotspot in H. rewrite He, Hm in H.
    cbn [hasId] in H.
    destruct (Hotspot.points hotspot) as [[|p rest]|];
      destruct (truthy (Hotspot.top hotspot));
      destruct (isEditMode v); cbn in H;
      first [discriminate H | now injection H as _ <-].
  - split.
    + rewrite Hm2, Hm. apply negb_involutive.
    + now rewrite He2.
Qed.

Lemma toggle_without_session_witness :
  isEditMode (editModeBtn_onclick (editIdle [desk])) = negb (isEditMode (editIdle [desk]))
  /\ attachesKeyHandler (editModeBtn_onclick (editIdle [desk])) = false
  /\ (forall sh i, renderHotspot (editModeBtn_onclick (editIdle [desk])) desk = Some (sh, i) ->
                   i = if isEditMode (editIdle [desk]) then Navigate else ContextMenu)
  /\ isEditMode (editModeBtn_onclick (editModeBtn_onclick (editIdle [desk]))) = isEditMode (editIdle [desk])
  /\ editingEdgesHotspotId (editModeBtn_onclick (editModeBtn_onclick (editIdle [desk]))) = None.
Proof.
  apply (toggle_without_session (editIdle [desk]) desk). reflexivity.
Defined.

(** ** Editing the name and the link of a region *)

Lemma map_updateAt_invariant {A B : Type} (g : A -> B) (f : A -> A) (l : list A)
    (i : nat) :
  (forall x, g (f x) = g x) -> map g (updateAt i f l) = map g l.
Proof.
  intros H. revert i. induction l as [|x t IH]; intros [|i]; simpl; auto.
  - now rewrite H.
  - now rewrite IH.
Qed.

Lemma renderHotspot_setNamePath (v w : LoomView) (n p : string) (h : Hotspot.t) :
  isEditMode w = isEditMode v ->
  editingEdgesHotspotId w = editingEdgesHotspotId v ->
  renderHotspot w (Dialogs.setNamePath n p h) = renderHotspot v h.
Proof.
  intros Hm He. unfold renderHotspot, hasId. rewrite Hm, He. reflexivity.
Qed.

(** Saving the modal "Edit Region" with a name that is not empty changes
    the name and the destination of the edited hotspot, as typed, and
    nothing that is drawn: the hotspot list of the profile keeps its length
    and order, every hotspot keeps its id, its shape on the page, the way
    it answers the pointer and the place of its label; the other profiles,
    the mode, the session and the undo stack are as they were; the modal is
    closed and the store with the new name has been handed to the host. *)
Theorem edit_region_changes_name_and_link_only (parseFloat : string -> R)
    (cur hi : nat) (nameInput pathInput : string) (v : LoomView) (h : Hotspot.t) :
  getHotspot cur hi v = Some h ->
  nameInput <> EmptyString ->
  let saved := Dialogs.editHotspot_save cur hi nameInput pathInput v in
  snd saved = true
  /\ hotspotsOf cur (fst saved)
     = updateAt hi (Dialogs.setNamePath nameInput pathInput) (hotspotsOf cur v)
  /\ getHotspot cur hi (fst saved) = Some (Dialogs.setNamePath nameInput pathInput h)
  /\ map Hotspot.id (hotspotsOf cur (fst saved)) = map Hotspot.id (hotspotsOf cur v)
  /\ map (renderHotspot (fst saved)) (hotspotsOf cur (fst saved))
     = map (renderHotspot v) (hotspotsOf cur v)
  /\ map (Labels.labelAnchor parseFloat) (hotspotsOf cur (fst saved))
     = map (Labels.labelAnchor parseFloat) (hotspotsOf cur v)
  /\ (forall other, other <> cur -> hotspotsOf other (fst saved) = hotspotsOf other v)
  /\ isEditMode (fst saved) = isEditMode v
  /\ editingEdgesHotspotId (fst saved) = editingEdgesHotspotId v
  /\ undoStack (fst saved) = undoStack v
  /\ exists s,
       In (SaveSettings s) (effects (fst saved))
       /\ option_map Profile.hotspots (nth_error (profiles s) cur)
          = Some (updateAt hi (Dialogs.setNamePath nameInput pathInput)
                           (hotspotsOf cur v)).
Proof.
  intros Hh Hn saved.
  assert (Hp : exists p, nth_error (profiles (settings v)) cur = Some p).
  { unfold getHotspot, hotspotsOf in Hh.
    destruct (nth_error (profiles (settings v)) cur) as [p|]; [now exists p |].
    destruct hi; discriminate Hh. }
  destruct Hp as [p Hp].
  assert (Hs : saved
               = (renderRoom
                    (notice ("Region updated: " ++ nameInput)
                       (saveSettings
                          (setHotspotsOf cur
                             (updateAt hi (Dialogs.setNamePath nameInput pathInput)) v))),
                  true)).
  { unfold saved, Dialogs.editHotspot_save.
    destruct (String.eqb nameInput EmptyString) eqn:E.
    - apply String.eqb_eq in E. contradiction.
    - now rewrite Hh. }
  rewrite Hs. cbn [fst snd].
  set (v1 := setHotspotsOf cur (updateAt hi (Dialogs.setNamePath nameInput pathInput)) v).
  assert (Hhs : hotspotsOf cur
                  (renderRoom (notice ("Region updated: " ++ nameInput) (saveSettings v1)))
                = updateAt hi (Dialogs.setNamePath nameInput pathInput) (hotspotsOf cur v)).
  { rewrite renderRoom_hotspotsOf. unfold notice, saveSettings.
    rewrite !hotspotsOf_emit. unfold v1. now apply (hotspotsOf_setHotspotsOf cur _ v p). }
  assert (Hm : isEditMode
                 (renderRoom (notice ("Region updated: " ++ nameInput) (saveSettings v1)))
               = isEditMode v)
    by (rewrite renderRoom_isEditMode; reflexivity).
  assert (He : editingEdgesHotspotId
                 (renderRoom (notice ("Region updated: " ++ nameInput) (saveSettings v1)))
               = editingEdgesHotspotId v)
    by (rewrite renderRoom_editing; reflexivity).
  split; [reflexivity |].
  split; [exact Hhs |].
  split.
  { unfold getHotspot in *. rewrite Hhs, nth_error_updateAt_eq, Hh. reflexivity. }
  split.
  { rewrite Hhs. now apply map_updateAt_invariant. }
  split.
  { rewrite Hhs.
    rewrite <- (map_updateAt_invariant (renderHotspot v)
                  (Dialogs.setNamePath nameInput pathInput) (hotspotsOf cur v) hi)
      by (intros x; now apply renderHotspot_setNamePath).
    apply map_ext. intros x. unfold renderHotspot. now rewrite Hm, He. }
  split.
  { rewrite Hhs. now apply map_updateAt_invariant. }
  split.
  { intros other Ho. rewrite renderRoom_hotspotsOf. unfold notice, saveSettings.
    rewrite !hotspotsOf_emit. unfold v1.
    apply hotspotsOf_setHotspotsOf_other. congruence. }
  split; [exact Hm |].
  split; [exact He |].
  split; [rewrite renderRoom_undoStack; reflexivity |].
  exists (settings v1). split.
  - destruct (renderRoom_effects
                (notice ("Region updated: " ++ nameInput) (saveSettings v1)))
      as [more E].
    rewrite E. cbn [notice saveSettings emit effects].
    apply in_or_app. left. apply in_or_app. left. apply in_or_app. right. now left.
  - unfold v1, setHotspotsOf. cbn [settings setSettings profiles setProfiles].
    rewrite nth_error_updateAt_eq, Hp. cbn [option_map Profile.setHotspots Profile.hotspots].
    unfold hotspotsOf. now rewrite Hp.
Qed.

Lemma edit_region_changes_name_and_link_only_witness :
  getHotspot 0 0 (fst (Dialogs.editHotspot_save 0 0 "Table" "notes/table" (editIdle [desk])))
  = Some (Dialogs.setNamePath "Table" "notes/table" desk).
Proof.
  destruct (edit_region_changes_name_and_link_only (fun _ => 0) 0 0 "Table" "notes/table"
              (editIdle [desk]) desk) as (_ & _ & H & _).
  - reflexivity.
  - discriminate.
  - exact H.
Defined.

(** * Undo requests and the key listeners of the document *)

Lemma keydownListeners_app (es1 es2 : list Effect) :
  keydownListeners (es1 ++ es2) = keydownListeners es1 ++ keydownListeners es2.
Proof.
  induction es1 as [|e t IH]; [reflexivity |].
  destruct e; cbn [app keydownListeners]; now rewrite IH.
Qed.

Lemma getCurrentProfile_current (cur : nat) (w : LoomView) :
  currentIs cur w -> getCurrentProfile w = (w, Some cur).
Proof.
  intros [Hne Hf]. unfold getCurrentProfile.
  apply String.eqb_neq in Hne.
  assert (Hw : match profiles (settings w) with
               | [] => w
               | p0 :: _ =>
                   if String.eqb (activeProfileId (settings w)) EmptyString
                   then saveSettings
                          (setSettings (setActiveProfileId (Profile.id p0) (settings w)) w)
                   else w
               end = w)
    by (destruct (profiles (settings w)); [reflexivity | now rewrite Hne]).
  rewrite Hw, Hf. reflexivity.
Qed.

(** A render during an edge-editing session of the current profile adds
    one key listener, whose closure holds that profile. *)
Lemma renderRoom_adds_listener (cur : nat) (v : LoomView) :
  currentIs cur v ->
  isEditMode v = true ->
  truthy (editingEdgesHotspotId v) = true ->
  renderRoom v = emit (AddKeydownListener cur) (emit RenderRoom v).
Proof.
  intros Hc Hm Ht. unfold renderRoom.
  rewrite (getCurrentProfile_current cur (emit RenderRoom v)) by exact Hc.
  cbn [emit isEditMode editingEdgesHotspotId]. now rewrite Hm, Ht.
Qed.

Lemma currentIs_setPointsOf (c cur hi : nat) (pts : list Point) (v : LoomView) :
  currentIs c v -> currentIs c (setPointsOf cur hi pts v).
Proof.
  intros [Hne Hf]. split; [exact Hne |].
  change (findIndex
            (fun p => String.eqb (Profile.id p) (activeProfileId (settings v)))
            (updateAt cur
               (fun p => Profile.setHotspots
                           (updateAt hi (Hotspot.setPoints pts) (Profile.hotspots p)) p)
               (profiles (settings v)))
          = Some c).
  rewrite findIndex_updateAt; [exact Hf | reflexivity].
Qed.

Lemma Editing_setPointsOf (cur hi : nat) (pts : list Point) (v : LoomView) :
  Editing cur hi v -> Editing cur hi (setPointsOf cur hi pts v).
Proof.
  intros (HS & Hc & Hm).
  split; [now apply setPointsOf_keeps_session |].
  split; [now apply currentIs_setPointsOf | exact Hm].
Qed.

Lemma onHandleMove_points (cur hi idx : nat) (evt : MouseEvent) (rect : DOMRect)
    (v : LoomView) (pts : list Point) :
  pointsOf cur hi v = Some pts ->
  onHandleMove cur hi idx evt rect v
  = setPointsOf cur hi
      (assignAt idx (clamp (percentX evt rect), clamp (percentY evt rect)) pts) v.
Proof.
  intros Hp. destruct (pointsOf_inv _ _ _ _ Hp) as (h & Hh & Hpts).
  unfold onHandleMove. rewrite Hh. cbn [option_map]. now rewrite Hpts.
Qed.

(** A vertex drag stays in the session and adds no key listener: its
    release saves and does not render. *)
Lemma vertex_drag_editing (cur hi idx : nat) (moves : list (MouseEvent * DOMRect))
    (v : LoomView) (pts : list Point) :
  Editing cur hi v ->
  pointsOf cur hi v = Some pts ->
  exists v',
    runGesture cur hi (VertexDrag idx moves) v = Some v'
    /\ Editing cur hi v'
    /\ keydownListeners (effects v') = keydownListeners (effects v)
    /\ undoStack v' = undoStack v ++ [pts]
    /\ pointsOf cur hi v'
       = pointsOf cur hi
           (fold_left (fun v m => onHandleMove cur hi idx (fst m) (snd m) v) moves v).
Proof.
  intros HE Hp.
  destruct (pointsOf_inv _ _ _ _ Hp) as (h & Hh & Hpts).
  cbn [runGesture]. unfold handle_onmousedown. rewrite Hh. cbn [option_map].
  rewrite Hpts. eexists. split; [reflexivity |].
  unfold onHandleUp.
  set (v1 := setUndoStack (undoStack v ++ [snapshot pts]) v).
  assert (HE1 : Editing cur hi v1).
  { destruct HE as ((Ht & Hf & Hpp) & Hc & Hm).
    split; [split; [exact Ht | split; [exact Hf | exact Hpp]] |].
    split; [exact Hc | exact Hm]. }
  assert (Hfold : forall w w0,
             Editing cur hi w ->
             pointsOf cur hi w = pointsOf cur hi w0 ->
             Editing cur hi
               (fold_left (fun v m => onHandleMove cur hi idx (fst m) (snd m) v) moves w)
             /\ effects
                  (fold_left (fun v m => onHandleMove cur hi idx (fst m) (snd m) v) moves w)
                = effects w
             /\ undoStack
                  (fold_left (fun v m => onHandleMove cur hi idx (fst m) (snd m) v) moves w)
                = undoStack w
             /\ pointsOf cur hi
                  (fold_left (fun v m => onHandleMove cur hi idx (fst m) (snd m) v) moves w)
                = pointsOf cur hi
                    (fold_left (fun v m => onHandleMove cur hi idx (fst m) (snd m) v)
                               moves w0)).
  { induction moves as [|m moves IH]; intros w w0 Hw Hpw; cbn [fold_left].
    - split; [exact Hw |]. split; [reflexivity |]. split; [reflexivity | exact Hpw].
    - destruct Hw as (HS & Hc & Hm).
      destruct HS as (Ht & Hf & p & Hpp).
      assert (Hp0 : pointsOf cur hi w0 = Some p) by congruence.
      rewrite (onHandleMove_points cur hi idx (fst m) (snd m) w p Hpp).
      rewrite (onHandleMove_points cur hi idx (fst m) (snd m) w0 p Hp0).
      destruct (pointsOf_inv _ _ _ _ Hpp) as (hw & Hhw & _).
      destruct (pointsOf_inv _ _ _ _ Hp0) as (hw0 & Hhw0 & _).
      set (q := assignAt idx (clamp (percentX (fst m) (snd m)),
                              clamp (percentY (fst m) (snd m))) p).
      destruct (IH (setPointsOf cur hi q w) (setPointsOf cur hi q w0))
        as (H1 & H2 & H3 & H4).
      + apply Editing_setPointsOf.
        split; [split; [exact Ht | split; [exact Hf | now exists p]] |].
        split; assumption.
      + rewrite (pointsOf_setPointsOf cur hi _ w hw Hhw).
        now rewrite (pointsOf_setPointsOf cur hi _ w0 hw0 Hhw0).
      + split; [exact H1 |]. split; [exact H2 |]. split; [exact H3 | exact H4]. }
  destruct (Hfold v1 v HE1 eq_refl) as (HE' & He' & Hu' & Hp').
  split.
  - destruct HE' as (HS & Hc & Hm).
    split; [| split; [exact Hc | exact Hm]].
    destruct HS as (Ht & Hf & Hpp). split; [exact Ht | split; [exact Hf | exact Hpp]].
  - split.
    + cbn [saveSettings emit effects]. rewrite He', keydownListeners_app.
      cbn [keydownListeners]. now rewrite app_nil_r.
    + split.
      * cbn [saveSettings emit undoStack]. rewrite Hu'. cbn.
        now rewrite snapshot_id.
      * exact Hp'.
Qed.

(** One run of the key handler on Ctrl+Z with more than one snapshot: one
    pop, the vertex list restored, and, by its render, one key listener
    more on the document. *)
Lemma undo_run (cur hi : nat) (v : LoomView) :
  Editing cur hi v ->
  (1 < length (undoStack v))%nat ->
  Editing cur hi (edgeEditKeyHandler cur ctrlZ v)
  /\ undoStack (edgeEditKeyHandler cur ctrlZ v) = removelast (undoStack v)
  /\ pointsOf cur hi (edgeEditKeyHandler cur ctrlZ v)
     = Some (last (removelast (undoStack v)) [])
  /\ keydownListeners (effects (edgeEditKeyHandler cur ctrlZ v))
     = keydownListeners (effects v) ++ [cur].
Proof.
  intros (HS & Hc & Hm) Hlen.
  destruct (undo_pops cur hi v HS Hlen) as [Hu Hp].
  pose proof (undo_keeps_session cur hi v HS) as HS'.
  split; [| split; [exact Hu | split; [exact Hp |]]].
  - split; [exact HS' |].
    rewrite (undo_handler_in_session cur hi v HS).
    apply Nat.ltb_lt in Hlen. rewrite Hlen.
    split.
    + destruct Hc as [Hne Hf]. split.
      * change (activeProfileId
                  (settings
                     (renderRoom
                        (setPointsOf cur hi (snapshot (last (removelast (undoStack v)) []))
                           (setUndoStack (removelast (undoStack v)) v))))
                <> EmptyString).
        rewrite renderRoom_active; exact Hne.
      * change (findIndex
                  (fun p =>
                     String.eqb (Profile.id p)
                       (activeProfileId
                          (settings
                             (renderRoom
                                (setPointsOf cur hi
                                   (snapshot (last (removelast (undoStack v)) []))
                                   (setUndoStack (removelast (undoStack v)) v))))))
                  (profiles
                     (settings
                        (renderRoom
                           (setPointsOf cur hi
                              (snapshot (last (removelast (undoStack v)) []))
                              (setUndoStack (removelast (undoStack v)) v)))))
                = Some cur).
        rewrite renderRoom_active by exact Hne. rewrite renderRoom_profiles.
        apply (currentIs_setPointsOf cur cur hi _ (setUndoStack (removelast (undoStack v)) v)).
        split; [exact Hne | exact Hf].
    + change (isEditMode
                (renderRoom
                   (setPointsOf cur hi (snapshot (last (removelast (undoStack v)) []))
                      (setUndoStack (removelast (undoStack v)) v)))
              = true).
      rewrite renderRoom_isEditMode. exact Hm.
  - rewrite (undo_handler_in_session cur hi v HS).
    apply Nat.ltb_lt in Hlen. rewrite Hlen.
    rewrite (renderRoom_adds_listener cur).
    + cbn [notice emit effects setPointsOf setHotspotsOf setSettings setUndoStack].
      rewrite !keydownListeners_app. cbn [keydownListeners].
      now rewrite !app_nil_r.
    + apply (currentIs_setPointsOf cur cur hi _ (setUndoStack (removelast (undoStack v)) v)).
      exact Hc.
    + exact Hm.
    + destruct HS as (Ht & _). exact Ht.
Qed.

(** One key press runs the key handler once for every listener. *)
Lemma keydown_one_listener (cur : nat) (e : KeyboardEvent) (v : LoomView) :
  keydownListeners (effects v) = [cur] ->
  document_onkeydown e v = edgeEditKeyHandler cur e v.
Proof. intros H. unfold document_onkeydown. now rewrite H. Qed.

Lemma keydown_two_listeners (cur : nat) (e : KeyboardEvent) (v : LoomView) :
  keydownListeners (effects v) = [cur; cur] ->
  document_onkeydown e v = edgeEditKeyHandler cur e (edgeEditKeyHandler cur e v).
Proof. intros H. unfold document_onkeydown. now rewrite H. Qed.

(** In a session with two key listeners and three snapshots or more, one
    undo request pops two snapshots and restores the vertex list of two
    drags before. *)
Lemma undo_request_two_listeners (cur hi : nat) (v : LoomView) :
  Editing cur hi v ->
  keydownListeners (effects v) = [cur; cur] ->
  (2 < length (undoStack v))%nat ->
  undoStack (document_onkeydown ctrlZ v) = removelast (removelast (undoStack v))
  /\ pointsOf cur hi (document_onkeydown ctrlZ v)
     = Some (last (removelast (removelast (undoStack v))) []).
Proof.
  intros HE Hl Hlen.
  rewrite (keydown_two_listeners cur ctrlZ v Hl).
  destruct (undo_run cur hi v HE) as (HE1 & Hu1 & _); [lia |].
  assert (Hlen1 : (1 < length (undoStack (edgeEditKeyHandler cur ctrlZ v)))%nat).
  { rewrite Hu1.
    destruct (undoStack v) as [|a l] using rev_ind; [simpl in Hlen; lia |].
    rewrite removelast_last. rewrite length_app in Hlen. simpl in Hlen. lia. }
  destruct (undo_run cur hi _ HE1 Hlen1) as (_ & Hu2 & Hp2 & _).
  rewrite Hu2, Hp2, Hu1. split; reflexivity.
Qed.

Lemma editEdgesOnDesk_editing :
  Editing 0 0 editEdgesOnDesk
  /\ pointsOf 0 0 editEdgesOnDesk = Some deskPoints
  /\ undoStack editEdgesOnDesk = [deskPoints]
  /\ keydownListeners (effects editEdgesOnDesk) = [0%nat].
Proof.
  unfold editEdgesOnDesk.
  destruct (editEdges_enters 0 0 (editIdle [desk]) desk eq_refl) as (He & Hu & Hp).
  cbn [Hotspot.points desk] in Hu, Hp.
  assert (Hc : currentIs 0 (editEdges_onclick 0 0 (editIdle [desk]))).
  { unfold editEdges_onclick. cbn [getHotspot hotspotsOf editIdle store settings profiles
                                     nth_error roomA Profile.hotspots].
    split.
    - rewrite renderRoom_active; cbn; discriminate.
    - rewrite renderRoom_active by (cbn; discriminate).
      rewrite renderRoom_profiles. reflexivity. }
  split; [| split; [exact Hp | split; [exact Hu |]]].
  - split; [| split; [exact Hc |]].
    + split; [now rewrite He |]. split; [| now exists deskPoints].
      rewrite He. unfold editEdges_onclick.
      cbn [getHotspot hotspotsOf editIdle store settings profiles
             nth_error roomA Profile.hotspots].
      rewrite renderRoom_hotspotsOf. reflexivity.
    + unfold editEdges_onclick.
      cbn [getHotspot hotspotsOf editIdle store settings profiles
             nth_error roomA Profile.hotspots].
      rewrite renderRoom_isEditMode. reflexivity.
  - unfold editEdges_onclick.
    cbn [getHotspot hotspotsOf editIdle store settings profiles
           nth_error roomA Profile.hotspots].
    rewrite (renderRoom_adds_listener 0); [reflexivity | | reflexivity | reflexivity].
    split; [cbn; discriminate | reflexivity].
Qed.

(** C1, at the view in edit mode where "Edit Edges" is chosen for [desk]
    and vertex 2 is dragged four times: the document then holds one key
    listener and the undo stack five snapshots.  The first undo request
    (one press of Ctrl+Z) pops one snapshot, as the claim says, and its
    render adds a second key listener.  The second undo request runs both
    listeners: it pops two snapshots, leaves two on the stack where the
    claim has three, and makes the vertex list the one from before the
    first drag where the claim has the one from before the second drag. *)
Theorem undo_request_runs_every_listener :
  exists v4,
    runGestures 0 0 fourDrags editEdgesOnDesk = Some v4
    /\ keydownListeners (effects v4) = [0%nat]
    /\ length (undoStack v4) = 5%nat
    /\ let v5 := document_onkeydown ctrlZ v4 in
       let v6 := document_onkeydown ctrlZ v5 in
       undoStack v5 = removelast (undoStack v4)
       /\ keydownListeners (effects v5) = [0%nat; 0%nat]
       /\ removelast (undoStack v5) = [deskPoints; deskPoints; movedPoints]
       /\ undoStack v6 = [deskPoints; deskPoints]
       /\ pointsOf 0 0 v6 = Some deskPoints
       /\ undoStack v6 <> removelast (undoStack v5)
       /\ pointsOf 0 0 v6 <> Some (last (removelast (undoStack v5)) []).
Proof.
  destruct editEdgesOnDesk_editing as (HE0 & Hp0 & Hu0 & Hl0).
  destruct (vertex_drag_editing 0 0 2 [(pointer 500 500, image)] _ deskPoints HE0 Hp0)
    as (v1 & Hr1 & HE1 & Hl1 & Hu1 & Hp1).
  assert (Hm1 : pointsOf 0 0 v1 = Some movedPoints).
  { rewrite Hp1. cbn [fold_left fst snd].
    rewrite (onHandleMove_points 0 0 2 _ _ _ deskPoints Hp0).
    destruct (pointsOf_inv _ _ _ _ Hp0) as (h & Hh & _).
    rewrite (pointsOf_setPointsOf 0 0 _ _ h Hh).
    unfold movedPoints, deskPoints, assignAt. cbn [updateAt].
    unfold pointer, image. cbn [clientX clientY left top width height].
    rcalc; points_eq. }
  destruct (vertex_drag_editing 0 0 2 [(pointer 600 600, image)] _ movedPoints HE1 Hm1)
    as (v2 & Hr2 & HE2 & Hl2 & Hu2 & _).
  destruct HE2 as (HS2 & HC2).
  pose proof HS2 as (_ & _ & pts2 & Hp2).
  destruct (vertex_drag_editing 0 0 2 [(pointer 700 700, image)] _ pts2
              (conj HS2 HC2) Hp2)
    as (v3 & Hr3 & HE3 & Hl3 & Hu3 & _).
  destruct HE3 as (HS3 & HC3).
  pose proof HS3 as (_ & _ & pts3 & Hp3).
  destruct (vertex_drag_editing 0 0 2 [(pointer 800 800, image)] _ pts3
              (conj HS3 HC3) Hp3)
    as (v4 & Hr4 & HE4 & Hl4 & Hu4 & _).
  assert (Hst4 : undoStack v4 = [deskPoints; deskPoints; movedPoints; pts2; pts3])
    by (rewrite Hu4, Hu3, Hu2, Hu1, Hu0; reflexivity).
  assert (Hls4 : keydownListeners (effects v4) = [0%nat])
    by (rewrite Hl4, Hl3, Hl2, Hl1; exact Hl0).
  exists v4.
  split; [unfold fourDrags; cbn [runGestures]; now rewrite Hr1, Hr2, Hr3, Hr4 |].
  split; [exact Hls4 |].
  split; [now rewrite Hst4 |].
  cbv zeta.
  rewrite (keydown_one_listener 0 ctrlZ v4 Hls4).
  destruct (undo_run 0 0 v4 HE4) as (HE5 & Hu5 & Hp5 & Hl5);
    [rewrite Hst4; simpl; lia |].
  rewrite Hls4 in Hl5. cbn [app] in Hl5.
  rewrite Hst4 in Hu5. cbn [removelast] in Hu5.
  destruct (undo_request_two_listeners 0 0 _ HE5 Hl5) as (Hu6 & Hp6);
    [rewrite Hu5; simpl; lia |].
  rewrite Hu5 in Hu6, Hp6. cbn [removelast last] in Hu6, Hp6.
  split; [rewrite Hu5, Hst4; reflexivity |].
  split; [exact Hl5 |].
  split; [rewrite Hu5; reflexivity |].
  split; [exact Hu6 |].
  split; [exact Hp6 |].
  split.
  - rewrite Hu6, Hu5. cbn [removelast]. discriminate.
  - rewrite Hp6, Hu5. cbn [removelast last].
    intros H.
    apply (f_equal (fun o => match o with
                             | Some l => fst (nth 2 l (0, 0))
                             | None => 0
                             end)) in H.
    unfold deskPoints, movedPoints in H. cbn [nth fst] in H. lra.
Qed.
